(** * RoboWrapper: a shallow embedding of [RoboWrapper.py]

    The script is a wrapper around Robocopy: a job file (YAML) names a
    source and a destination, each found either by a literal path or by the
    serial number / label of the volume it lives on.  This development
    embeds the job pipeline of the script ([ValidateJob], [ParseLocations],
    [CheckFlag], [DoRobocopy], [RunJob], the loop of [main], ...) and proves
    the properties its specification states about it.

    Conventions of the embedding.

    - A value loaded from YAML is a [pyval]; every operation the script
      applies to such a value ([in], [x[k]], [.replace], [.split], ...) is
      modelled with the exception Python raises when the value has the
      wrong shape.
    - The host (filesystem, environment, WMI, clock, process launcher) and
      the library functions of [os.path] and [datetime] are the fields of a
      record [World].
    - Effects are made explicit by a small monad [M]: a computation maps the
      trace of events observed so far to an [outcome] (a value or a raised
      exception) and the extended trace.  The trace survives a raise, as
      side effects do in Python. *)

From Stdlib Require Import String Ascii List ZArith Bool Arith Lia DecimalString
  Permutation.
Import ListNotations.
Local Open Scope list_scope.
Local Open Scope string_scope.

(** ** Python strings *)

Module PyStr.

(** [needle in hay] on two strings: substring test. *)
Fixpoint contains (needle hay : string) : bool :=
  match hay with
  | EmptyString => prefix needle hay
  | String _ rest => prefix needle hay || contains needle rest
  end.

(** The loop of [str.replace] for a non-empty [old]: scan left to right,
    replace at the leftmost match and resume behind it.  [skip] counts the
    characters of a match still to be dropped. *)
Fixpoint replace_from (old new : string) (skip : nat) (s : string) : string :=
  match s with
  | EmptyString => EmptyString
  | String c rest =>
      match skip with
      | S k => replace_from old new k rest
      | O =>
          if prefix old s
          then new ++ replace_from old new (String.length old - 1) rest
          else String c (replace_from old new 0 rest)
      end
  end.

(** [s.replace("", new)] puts [new] before every character and at the end. *)
Fixpoint interleave (new s : string) : string :=
  match s with
  | EmptyString => new
  | String c rest => new ++ String c (interleave new rest)
  end.

(** [s.replace(old, new)] *)
Definition replace (old new s : string) : string :=
  match old with
  | EmptyString => interleave new s
  | _ => replace_from old new 0 s
  end.

(** [s.split(sep)] for a one-character separator: never empty, and empty
    fields are kept. *)
Fixpoint split (sep : ascii) (s : string) : list string :=
  match s with
  | EmptyString => [EmptyString]
  | String c rest =>
      if Ascii.eqb c sep then EmptyString :: split sep rest
      else match split sep rest with
           | field :: fields => String c field :: fields
           | [] => [String c EmptyString]
           end
  end.

(** [sep.join(l)] *)
Definition join (sep : string) (l : list string) : string := String.concat sep l.

(** [s.endswith(suffix)] *)
Definition endswith (s suffix : string) : bool :=
  Nat.leb (String.length suffix) (String.length s) &&
  String.eqb (substring (String.length s - String.length suffix)
                        (String.length suffix) s) suffix.

(** ["{}".format(n)] for an integer. *)
Definition of_Z (z : Z) : string := NilZero.string_of_int (Z.to_int z).

End PyStr.

(** ** Values, exceptions and outcomes *)

(** What [yaml.load] hands to the script.  A mapping keeps its string keys
    only: every lookup of the script uses a string key, so a key of another
    type is never found and never matters. *)
#[warnings="-register-all"]
Inductive pyval : Type :=
| VNone
| VBool (b : bool)
| VInt (z : Z)
| VStr (s : string)
| VList (l : list pyval)
| VDict (d : list (string * pyval)).

Definition dict := list (string * pyval).

Fixpoint lookup (key : string) (d : dict) : option pyval :=
  match d with
  | [] => None
  | (k, v) :: rest => if String.eqb k key then Some v else lookup key rest
  end.

(** The exceptions that can travel through the script. *)
Inductive exn : Type :=
| RoboException (msg : string)
| KeyError (key : string)
| TypeError
| AttributeError
| IOError (errno : Z)
| OSError
| WMIError.

Inductive outcome (A : Type) : Type :=
| Ret (a : A)
| Raise (e : exn).

Arguments Ret {A} a.
Arguments Raise {A} e.

(** [errno.EACCES] *)
Definition EACCES : Z := 13.

(** ** The host *)

(** A row of [Win32_LogicalDisk]; WMI leaves the serial number and the label
    null for a drive without a medium. *)
Record Volume : Type := {
  Name : string;
  VolumeSerialNumber : option string;
  VolumeName : option string
}.

(** What becomes of a job file once it is opened: [yaml.load] either fails
    with a [YAMLError] or yields a value ([VNone] for an empty document). *)
Inductive yaml_result : Type :=
| YAMLError (exc : string)
| Loaded (job : pyval).

Inductive open_result : Type :=
| OpenFails (errno : Z)
| Opened (content : yaml_result).

(** Everything the script obtains from outside itself.  [clock n] is the
    [n]-th reading of [datetime.now()]; [popen cmd] is the process id and the
    exit code of the launched command, or [None] when the launch itself
    fails; [str_of] is [str()] of a value that is not a string. *)
Record World : Type := {
  environ : string -> option string;
  isfile : string -> bool;
  path_exists : string -> bool;
  open_file : string -> open_result;
  wmi_disks : option (list Volume);
  clock : nat -> Z;
  popen : list string -> option (Z * Z);
  splitdrive : string -> string * string;
  path_join : list string -> string;
  strftime : Z -> string -> string;
  str_of : pyval -> string
}.

(** ** Events and the monad of the script *)

Inductive level : Type := DEBUG | INFO | WARNING | ERROR.

Inductive event : Type :=
| EvIsFile (path : string)
| EvExists (path : string)
| EvOpen (path : string)
| EvNow
| EvSpawn (cmd : list string)
| EvLog (lvl : level) (msg : string).

Definition trace := list event.

Definition M (A : Type) : Type := trace -> outcome A * trace.

Definition ret {A : Type} (a : A) : M A := fun tr => (Ret a, tr).

Definition raise {A : Type} (e : exn) : M A := fun tr => (Raise e, tr).

Definition bind {A B : Type} (m : M A) (k : A -> M B) : M B :=
  fun tr =>
    match m tr with
    | (Ret a, tr') => k a tr'
    | (Raise e, tr') => (Raise e, tr')
    end.

Definition emit (e : event) : M unit := fun tr => (Ret tt, (tr ++ [e])%list).

(** [try: body except ...: handler]; [handler e] is [None] for an exception
    the [except] clause does not name. *)
Definition try_except {A : Type} (body : M A) (handler : exn -> option (M A)) : M A :=
  fun tr =>
    match body tr with
    | (Raise e, tr') =>
        match handler e with
        | Some h => h tr'
        | None => (Raise e, tr')
        end
    | done => done
    end.

Definition except_KeyError {A : Type} (h : M A) (e : exn) : option (M A) :=
  match e with
  | KeyError _ => Some h
  | _ => None
  end.

Definition except_RoboException {A : Type} (h : string -> M A) (e : exn) : option (M A) :=
  match e with
  | RoboException msg => Some (h msg)
  | _ => None
  end.

Declare Scope py_scope.
Delimit Scope py_scope with py.
Notation "x <- m ;; k" := (bind m (fun x => k))
  (at level 61, m at next level, right associativity) : py_scope.
Notation "m ;; k" := (bind m (fun _ => k))
  (at level 61, right associativity) : py_scope.
Local Open Scope py_scope.

Definition log (lvl : level) (msg : string) : M unit := emit (EvLog lvl msg).

(** The number of times the clock has been read so far. *)
Definition is_now (e : event) : bool :=
  match e with EvNow => true | _ => false end.

Definition clock_reads (tr : trace) : nat := List.length (filter is_now tr).

(** ** Operations of Python on loaded values *)

(** [key in v] *)
Definition py_in (key : string) (v : pyval) : M bool :=
  match v with
  | VDict d => ret (match lookup key d with Some _ => true | None => false end)
  | VList l =>
      ret (existsb (fun x => match x with VStr s => String.eqb s key | _ => false end) l)
  | VStr s => ret (PyStr.contains key s)
  | _ => raise TypeError
  end.

(** [v[key]] for a string [key] *)
Definition py_getitem (v : pyval) (key : string) : M pyval :=
  match v with
  | VDict d =>
      match lookup key d with
      | Some x => ret x
      | None => raise (KeyError key)
      end
  | _ => raise TypeError
  end.

(** [v.keys()] *)
Definition py_keys (v : pyval) : M (list string) :=
  match v with
  | VDict d => ret (map fst d)
  | _ => raise AttributeError
  end.

(** [v.replace(old, new)] *)
Definition py_replace (v : pyval) (old new : string) : M string :=
  match v with
  | VStr s => ret (PyStr.replace old new s)
  | _ => raise AttributeError
  end.

(** [v.split(' ')] *)
Definition py_split (v : pyval) : M (list string) :=
  match v with
  | VStr s => ret (PyStr.split " " s)
  | _ => raise AttributeError
  end.

(** ["{}".format(v)] *)
Definition format (w : World) (v : pyval) : string :=
  match v with
  | VStr s => s
  | _ => str_of w v
  end.

(** [attr == v] for an attribute of a WMI row *)
Definition attr_eq (attr : option string) (v : pyval) : bool :=
  match attr, v with
  | Some a, VStr s => String.eqb a s
  | None, VNone => true
  | _, _ => false
  end.

(** [os.environ[var]] *)
Definition os_environ (w : World) (var : string) : M string :=
  match environ w var with
  | Some value => ret value
  | None => raise (KeyError var)
  end.

Definition os_path_isfile (w : World) (path : string) : M bool :=
  emit (EvIsFile path) ;; ret (isfile w path).

Definition os_path_exists (w : World) (path : string) : M bool :=
  emit (EvExists path) ;; ret (path_exists w path).

(** [datetime.now()]: each call is a fresh reading of the clock. *)
Definition datetime_now (w : World) : M Z :=
  fun tr => (Ret (clock w (clock_reads tr)), (tr ++ [EvNow])%list).

(** [subprocess.Popen(cmd, ...)] followed by [proc.wait()] *)
Definition Popen (w : World) (cmd : list string) : M (Z * Z) :=
  emit (EvSpawn cmd) ;;
  match popen w cmd with
  | Some proc => ret proc
  | None => raise OSError
  end.

(** ** The script *)

(** Environment variables which will be expanded *)
Definition VALID_ENV_VARS : list string :=
  ["SYSTEMROOT"; "TMP"; "COMPUTERNAME"; "USERDOMAIN";
   "PROGRAMFILES"; "PROGRAMFILES(X86)"; "COMMONPROGRAMFILES(X86)";
   "ALLUSERSPROFILE"; "LOCALAPPDATA"; "HOMEPATH"; "PROGRAMW6432";
   "USERNAME"; "PROGRAMDATA"; "WINDIR"; "APPDATA"; "HOMEDRIVE";
   "SYSTEMDRIVE"; "COMMONPROGRAMW6432"; "PUBLIC"; "USERPROFILE"].

(** [job['run']]: the settings derived for one run.  The four location keys
    do not exist before [ParseLocations] stores them, and reading a key that
    does not exist raises [KeyError]. *)
Record RunSettings : Type := {
  options : list string;
  file_types : pyval;
  time_format : pyval;
  time : Z;
  src_path : option string;
  dst_path : option string;
  src_drive : option string;
  dst_drive : option string
}.

Definition run_key (key : string) (field : option string) : M string :=
  match field with
  | Some value => ret value
  | None => raise (KeyError key)
  end.

(** The WMI query.  The script caches the answer of its first query in a
    global; the host of the model does not change during a run, so a cached
    and a fresh answer are the same. *)
Definition GetLogicalDrivesFromWMI (w : World) : M (list Volume) :=
  match wmi_disks w with
  | Some disks => ret disks
  | None => raise WMIError
  end.

(** The [for] loop of [FindDriveFromSerial] *)
Fixpoint serial_loop (serial : pyval) (disks : list Volume) : option string :=
  match disks with
  | [] => None
  | objItem :: rest =>
      if attr_eq (VolumeSerialNumber objItem) serial then Some (Name objItem)
      else serial_loop serial rest
  end.

Definition FindDriveFromSerial (w : World) (serial : pyval) : M (option string) :=
  disks <- GetLogicalDrivesFromWMI w ;;
  ret (serial_loop serial disks).

(** The [for] loop of [FindDriveFromName] *)
Fixpoint name_loop (name : pyval) (disks : list Volume) : option string :=
  match disks with
  | [] => None
  | objItem :: rest =>
      if attr_eq (VolumeName objItem) name then Some (Name objItem)
      else name_loop name rest
  end.

Definition FindDriveFromName (w : World) (name : pyval) : M (option string) :=
  disks <- GetLogicalDrivesFromWMI w ;;
  ret (name_loop name disks).

(** [if found:] holds for a string that is not empty. *)
Definition truthy (found : option string) : option string :=
  match found with
  | Some EmptyString => None
  | other => other
  end.

Definition ResolveDriveLetter (w : World) (options : pyval) : M string :=
  has_serial <- py_in "serial" options ;;
  first <- (if has_serial : bool then
              serial <- py_getitem options "serial" ;;
              found <- FindDriveFromSerial w serial ;;
              ret (["serial: " ++ format w serial], found)
            else ret ([], None)) ;;
  match truthy (snd first) with
  | Some drive => ret drive
  | None =>
      has_name <- py_in "name" options ;;
      second <- (if has_name : bool then
                   name <- py_getitem options "name" ;;
                   found <- FindDriveFromName w name ;;
                   ret ((fst first ++ [("name: " ++ format w name)%string])%list, found)
                 else ret (fst first, None)) ;;
      match truthy (snd second) with
      | Some drive => ret drive
      | None =>
          raise (RoboException ("Couldn't find drive letter, tried: "
                                ++ PyStr.join ", " (fst second)))
      end
  end.

Definition CheckFlag (w : World) (options : pyval) (path : string) : M bool :=
  has_flag <- py_in "flag" options ;;
  if negb has_flag then ret true
  else
    flag <- py_getitem options "flag" ;;
    flag <- py_replace flag "$drive$" (fst (splitdrive w path)) ;;
    let flag := PyStr.replace "$path$" path flag in
    log DEBUG ("Checking flag: " ++ flag ++ " ") ;;
    os_path_isfile w flag.

(** [DoRobocopy] reads [job['run']] only, which is its argument here.
    [" ".join(cmd)] raises [TypeError] for an item that is not a string;
    the paths and the options are strings by construction, the file types
    are whatever the job file gave. *)
Definition DoRobocopy (w : World) (run : RunSettings) (dry_run : bool) : M bool :=
  src <- run_key "src_path" (src_path run) ;;
  dst <- run_key "dst_path" (dst_path run) ;;
  match file_types run with
  | VStr files =>
      let cmd := "robocopy" :: src :: dst :: files :: options run in
      log DEBUG ("Command: " ++ PyStr.join " " cmd) ;;
      if dry_run then ret true
      else
        proc <- Popen w cmd ;;
        log DEBUG ("Robocopy running (PID: " ++ PyStr.of_Z (fst proc) ++ ")") ;;
        log DEBUG ("Robocopy finished, return code: " ++ PyStr.of_Z (snd proc)) ;;
        if (snd proc >=? 8)%Z then ret false else ret true
  | _ => raise TypeError
  end.

Definition ValidateJob (job : pyval) : M bool :=
  has_name <- py_in "name" job ;;
  if negb has_name then raise (RoboException "A name is required")
  else
    has_source <- py_in "source" job ;;
    if negb has_source then raise (RoboException "Source settings missing!")
    else
      has_destination <- py_in "destination" job ;;
      if negb has_destination then raise (RoboException "Destination settings missing!")
      else
        source <- py_getitem job "source" ;;
        source_path <- py_in "path" source ;;
        if negb source_path then raise (RoboException "Source path not defined")
        else
          destination <- py_getitem job "destination" ;;
          destination_path <- py_in "path" destination ;;
          if negb destination_path
          then raise (RoboException "Destination path not defined")
          else ret true.

(** One turn of the loop of [ExpandEnvironmentVars] on a string *)
Definition expand_var (w : World) (path : string) (var : string) : M string :=
  try_except
    (value <- os_environ w var ;;
     ret (PyStr.replace ("$" ++ var ++ "$") value path))
    (except_KeyError (ret path)).

Fixpoint expand_loop (w : World) (vars : list string) (path : string) : M string :=
  match vars with
  | [] => ret path
  | var :: rest => path' <- expand_var w path var ;; expand_loop w rest path'
  end.

(** [path.replace] is looked up before [os.environ[var]] is read, so a value
    that is not a string raises [AttributeError] in the first turn, whatever
    the environment holds. *)
Definition ExpandEnvironmentVars (w : World) (path : pyval) : M string :=
  match path with
  | VStr s => expand_loop w VALID_ENV_VARS s
  | _ => raise AttributeError
  end.

Definition SubstitutePath (w : World) (path : pyval) (run : RunSettings) : M string :=
  match path with
  | VStr s =>
      src <- run_key "src_path" (src_path run) ;;
      let s := PyStr.replace "$src_path$" src s in
      dst <- run_key "dst_path" (dst_path run) ;;
      let s := PyStr.replace "$dst_path$" dst s in
      sdrive <- run_key "src_drive" (src_drive run) ;;
      let s := PyStr.replace "$src_drive$" sdrive s in
      ddrive <- run_key "dst_drive" (dst_drive run) ;;
      let s := PyStr.replace "$dst_drive$" ddrive s in
      match time_format run with
      | VStr fmt =>
          let timestamp := strftime w (time run) fmt in
          let s := PyStr.replace "$timestamp$" timestamp s in
          ExpandEnvironmentVars w (VStr s)
      | _ => raise TypeError
      end
  | _ => raise AttributeError
  end.

Definition set_time_format (run : RunSettings) (v : pyval) : RunSettings :=
  {| options := options run; file_types := file_types run; time_format := v;
     time := time run; src_path := src_path run; dst_path := dst_path run;
     src_drive := src_drive run; dst_drive := dst_drive run |}.

Definition set_options (run : RunSettings) (l : list string) : RunSettings :=
  {| options := l; file_types := file_types run; time_format := time_format run;
     time := time run; src_path := src_path run; dst_path := dst_path run;
     src_drive := src_drive run; dst_drive := dst_drive run |}.

Definition set_file_types (run : RunSettings) (v : pyval) : RunSettings :=
  {| options := options run; file_types := v; time_format := time_format run;
     time := time run; src_path := src_path run; dst_path := dst_path run;
     src_drive := src_drive run; dst_drive := dst_drive run |}.

Definition set_src (run : RunSettings) (path : option string) (drive : option string)
  : RunSettings :=
  {| options := options run; file_types := file_types run;
     time_format := time_format run; time := time run;
     src_path := path; dst_path := dst_path run;
     src_drive := drive; dst_drive := dst_drive run |}.

Definition set_dst (run : RunSettings) (path : option string) (drive : option string)
  : RunSettings :=
  {| options := options run; file_types := file_types run;
     time_format := time_format run; time := time run;
     src_path := src_path run; dst_path := path;
     src_drive := src_drive run; dst_drive := drive |}.

Definition ParseSettings (job : pyval) (run : RunSettings) : M RunSettings :=
  try_except
    (settings <- py_getitem job "settings" ;;
     fmt <- py_getitem settings "time_format" ;;
     ret (set_time_format run fmt))
    (except_KeyError (ret run)).

Definition ParseRobocopyOptions (w : World) (job : pyval) (run : RunSettings)
  : M RunSettings :=
  run <- try_except
           (robocopy <- py_getitem job "robocopy" ;;
            opts <- py_getitem robocopy "options" ;;
            tokens <- py_split opts ;;
            ret (set_options run tokens))
           (except_KeyError (ret run)) ;;
  run <- try_except
           (robocopy <- py_getitem job "robocopy" ;;
            template <- py_getitem robocopy "log" ;;
            log_path <- SubstitutePath w template run ;;
            log DEBUG ("Log will be saved to: " ++ log_path) ;;
            ret (set_options run (options run ++ [("/LOG:" ++ log_path)%string])%list))
           (except_KeyError (ret run)) ;;
  try_except
    (robocopy <- py_getitem job "robocopy" ;;
     files <- py_getitem robocopy "files" ;;
     ret (set_file_types run files))
    (except_KeyError (ret run)).

(** [any(name in k for name in keys)] with [k = ['serial', 'name']] *)
Definition has_identity (keys : list string) : bool :=
  existsb (fun name => String.eqb name "serial" || String.eqb name "name") keys.

Definition ParseLocations (w : World) (job : pyval) (run : RunSettings) : M RunSettings :=
  source <- py_getitem job "source" ;;
  path <- py_getitem source "path" ;;
  src <- ExpandEnvironmentVars w path ;;
  destination <- py_getitem job "destination" ;;
  path <- py_getitem destination "path" ;;
  dst <- ExpandEnvironmentVars w path ;;
  let run := set_dst (set_src run (Some src) (src_drive run)) (Some dst) (dst_drive run) in
  keys <- py_keys source ;;
  run <- (if has_identity keys then
            drive <- ResolveDriveLetter w source ;;
            ret (set_src run (Some (path_join w [drive; "\"; src])) (Some drive))
          else
            ret (set_src run (Some src) (Some (fst (splitdrive w src))))) ;;
  keys <- py_keys destination ;;
  run <- (if has_identity keys then
            drive <- ResolveDriveLetter w destination ;;
            ret (set_dst run (Some (path_join w [drive; "\"; dst])) (Some drive))
          else
            ret (set_dst run (Some dst) (Some (fst (splitdrive w dst))))) ;;
  src <- run_key "src_path" (src_path run) ;;
  found <- os_path_exists w src ;;
  if negb found then raise (RoboException ("Source doesn't exist: " ++ src))
  else ret run.

Definition DefaultJobSettings (w : World) : M RunSettings :=
  now <- datetime_now w ;;
  ret {| options := []; file_types := VStr "*.*";
         time_format := VStr "%Y-%m-%dT%H%M%S%z"; time := now;
         src_path := None; dst_path := None; src_drive := None; dst_drive := None |}.

(** [LoadJob] answers [None] after a YAML error, and whatever the document
    holds otherwise; [fp.name] is the name the file was opened under. *)
Definition LoadJob (job_file : string) (content : yaml_result) : M pyval :=
  match content with
  | Loaded job => ret job
  | YAMLError exc =>
      log ERROR ("YAML error in job file " ++ job_file ++ " (run with -v for debug)") ;;
      log DEBUG ("YAML parser output: " ++ exc) ;;
      ret VNone
  end.

Definition open_ (w : World) (path : string) : M yaml_result :=
  emit (EvOpen path) ;;
  match open_file w path with
  | Opened content => ret content
  | OpenFails errno => raise (IOError errno)
  end.

(** The four steps that [RunJob] runs under one [try]. *)
Definition BuildJob (w : World) (job : pyval) : M RunSettings :=
  run <- DefaultJobSettings w ;;
  run <- ParseSettings job run ;;
  run <- ParseLocations w job run ;;
  ParseRobocopyOptions w job run.

Definition is_None (v : pyval) : bool :=
  match v with VNone => true | _ => false end.

(** [RunJob], lines 376-386: the safety flags of both sides, then Robocopy. *)
Definition RunChecked (w : World) (job : pyval) (run : RunSettings) (dry_run : bool)
  : M bool :=
  source <- py_getitem job "source" ;;
  drive <- run_key "src_drive" (src_drive run) ;;
  ok <- CheckFlag w source drive ;;
  if negb ok then
    log ERROR "Could not find source safety flag" ;; ret false
  else
    destination <- py_getitem job "destination" ;;
    drive <- run_key "dst_drive" (dst_drive run) ;;
    ok <- CheckFlag w destination drive ;;
    if negb ok then
      log ERROR "Could not find destination safety flag" ;; ret false
    else DoRobocopy w run dry_run.

(** [RunJob], lines 358-386: what happens to a job once it is loaded. *)
Definition RunLoaded (w : World) (job_file : string) (job : pyval) (dry_run : bool)
  : M bool :=
  valid <- try_except
             (ValidateJob job ;;
              name <- py_getitem job "name" ;;
              log DEBUG ("Loaded job: " ++ format w name) ;;
              ret true)
             (except_RoboException
                (fun exc =>
                   log ERROR ("Configuration problem: " ++ exc
                              ++ " (in " ++ job_file ++ ")") ;;
                   ret false)) ;;
  if negb valid then ret false
  else
    built <- try_except
               (run <- BuildJob w job ;; ret (Some run))
               (except_RoboException (fun exc => log ERROR exc ;; ret None)) ;;
    match built with
    | None => ret false
    | Some run => RunChecked w job run dry_run
    end.

(** [except IOError as e]: permission problems are reported, anything else
    is raised again. *)
Definition except_IOError (job_file : string) (e : exn)
  : option (M (option yaml_result)) :=
  match e with
  | IOError errno =>
      if (errno =? EACCES)%Z then
        Some (log ERROR ("Could not access file " ++ job_file ++ " (permission denied)") ;;
              ret None)
      else None
  | _ => None
  end.

Definition RunJob (w : World) (job_file : string) (dry_run : bool) : M bool :=
  is_file <- os_path_isfile w job_file ;;
  if negb is_file then
    log ERROR ("Could not find file " ++ job_file) ;; ret false
  else
    opened <- try_except
                (fp <- open_ w job_file ;; ret (Some fp))
                (except_IOError job_file) ;;
    match opened with
    | None => ret false
    | Some fp =>
        job <- LoadJob job_file fp ;;
        if is_None job then ret false
        else RunLoaded w job_file job dry_run
    end.

(** The loop at the end of [main].  [jobs] lists the set of job files in the
    order the loop visits it; [file] is the variable that the two glob loops
    before it leave behind, the last path that a pattern matched. *)
Fixpoint main_loop (w : World) (file : string) (dry_run : bool) (jobs : list string)
  (succeeded failed : nat) : M (nat * nat) :=
  match jobs with
  | [] => ret (succeeded, failed)
  | job :: rest =>
      if PyStr.endswith file ".yaml" then
        log INFO ("Running job from " ++ job) ;;
        ok <- RunJob w job dry_run ;;
        if ok : bool then
          log DEBUG ("Job status OK " ++ job) ;;
          main_loop w file dry_run rest (S succeeded) failed
        else
          log WARNING ("Job status failed " ++ job) ;;
          main_loop w file dry_run rest succeeded (S failed)
      else
        log WARNING ("Ignoring job with incorrect extension: " ++ job) ;;
        main_loop w file dry_run rest succeeded failed
  end.

Definition run_jobs (w : World) (file : string) (dry_run : bool) (jobs : list string)
  : M (nat * nat) :=
  tally <- main_loop w file dry_run jobs 0 0 ;;
  log INFO ("Finished: " ++ PyStr.of_Z (Z.of_nat (fst tally)) ++ " succeeded and "
            ++ PyStr.of_Z (Z.of_nat (snd tally)) ++ " failed") ;;
  ret tally.

(** ** Notions used by the statements *)

(** Every listed volume has a mount path. *)
Definition mounted (disks : list Volume) : bool :=
  forallb (fun v => negb (String.eqb (Name v) "")) disks.

(** The criteria of a location in the order the resolver tries them, as the
    message of the exception lists them. *)
Definition criteria_tried (w : World) (d : dict) : list string :=
  List.app
    match lookup "serial" d with
    | Some serial => ["serial: " ++ format w serial]
    | None => []
    end
    match lookup "name" d with
    | Some name => ["name: " ++ format w name]
    | None => []
    end.

(** [ntpath.splitdrive] as the Python 2.7 of the script's time defines it:
    [p[0:2], p[2:]] when [p[1:2] == ':'], and ['', p] otherwise.  Used as the
    [splitdrive] of the hosts of the examples. *)
Definition nt_splitdrive (p : string) : string * string :=
  match p with
  | String c (String ":" rest) => (String c (String ":" EmptyString), rest)
  | _ => (EmptyString, p)
  end.

(** A host for the examples: no environment, every path exists, no job
    file, two volumes, a clock that ticks once per reading, a Robocopy that
    exits with 1, and paths joined by plain concatenation, which is what
    [ntpath.join] does for a drive, a backslash and a relative path. *)
Definition example_disks : list Volume :=
  [ {| Name := "C:"; VolumeSerialNumber := Some "AAAA1111"; VolumeName := Some "SYSTEM" |};
    {| Name := "F:"; VolumeSerialNumber := Some "BBBB2222"; VolumeName := Some "KINGSTON" |} ].

Definition example_world : World :=
  {| environ := fun _ => None;
     isfile := fun _ => true;
     path_exists := fun _ => true;
     open_file := fun _ => Opened (Loaded VNone);
     wmi_disks := Some example_disks;
     clock := fun n => Z.of_nat n;
     popen := fun _ => Some (4242%Z, 1%Z);
     splitdrive := nt_splitdrive;
     path_join := String.concat "";
     strftime := fun t fmt => fmt ++ "@" ++ PyStr.of_Z t;
     str_of := fun _ => "?" |}.

(** Variations of the example host. *)
Definition with_popen (w : World) (p : list string -> option (Z * Z)) : World :=
  {| environ := environ w; isfile := isfile w; path_exists := path_exists w;
     open_file := open_file w; wmi_disks := wmi_disks w; clock := clock w;
     popen := p; splitdrive := splitdrive w; path_join := path_join w;
     strftime := strftime w; str_of := str_of w |}.

Definition with_environ (w : World) (env : string -> option string) : World :=
  {| environ := env; isfile := isfile w; path_exists := path_exists w;
     open_file := open_file w; wmi_disks := wmi_disks w; clock := clock w;
     popen := popen w; splitdrive := splitdrive w; path_join := path_join w;
     strftime := strftime w; str_of := str_of w |}.

Definition with_open_file (w : World) (f : string -> open_result) : World :=
  {| environ := environ w; isfile := isfile w; path_exists := path_exists w;
     open_file := f; wmi_disks := wmi_disks w; clock := clock w;
     popen := popen w; splitdrive := splitdrive w; path_join := path_join w;
     strftime := strftime w; str_of := str_of w |}.

Definition with_isfile (w : World) (f : string -> bool) : World :=
  {| environ := environ w; isfile := f; path_exists := path_exists w;
     open_file := open_file w; wmi_disks := wmi_disks w; clock := clock w;
     popen := popen w; splitdrive := splitdrive w; path_join := path_join w;
     strftime := strftime w; str_of := str_of w |}.

(** A resolved job for the examples. *)
Definition example_run : RunSettings :=
  {| options := ["/MIR"; "/R:1"]; file_types := VStr "*.*";
     time_format := VStr "%Y%m%d"; time := 0%Z;
     src_path := Some "C:\data"; dst_path := Some "F:\backup";
     src_drive := Some "C:"; dst_drive := Some "F:" |}.


Fixpoint dollar_free (s : string) : bool :=
  match s with
  | EmptyString => true
  | String c rest => negb (Ascii.eqb c "$") && dollar_free rest
  end.


(** The example host with [TMP] set. *)
Definition tmp_world : World :=
  with_environ example_world
    (fun var => if String.eqb var "TMP" then Some "C:\Temp" else None).

(** *** The shape of a job description

    A job description is a mapping whose [source] and [destination], where
    present, are mappings themselves. *)
Definition is_section (v : option pyval) : bool :=
  match v with
  | None | Some (VDict _) => true
  | Some _ => false
  end.

Definition sections_are_mappings (d : dict) : bool :=
  is_section (lookup "source" d) && is_section (lookup "destination" d).

Definition absent (v : option pyval) : bool :=
  match v with
  | None => true
  | Some _ => false
  end.

(** The section is there and has no [path]. *)
Definition lacks_path (v : option pyval) : bool :=
  match v with
  | Some (VDict section) => absent (lookup "path" section)
  | _ => false
  end.

(** Something required is missing: [name], [source], [destination], or the
    [path] of either section. *)
Definition incomplete (d : dict) : bool :=
  absent (lookup "name" d) || absent (lookup "source" d) ||
  absent (lookup "destination" d) ||
  lacks_path (lookup "source" d) || lacks_path (lookup "destination" d).

(** The example host with one document behind every job file. *)
Definition job_host (job : pyval) : World :=
  with_open_file example_world (fun _ => Opened (Loaded job)).

(** A job whose source names a volume and forgets the path. *)
Definition job_without_source_path : dict :=
  [("name", VStr "backup");
   ("source", VDict [("serial", VStr "AAAA1111")]);
   ("destination", VDict [("path", VStr "F:\backup")])].

(** A job whose [source:] line is left empty, which YAML reads as null. *)
Definition job_with_null_source : dict :=
  [("name", VStr "backup");
   ("source", VNone);
   ("destination", VDict [("path", VStr "F:\backup")])].

(** *** Resolution of the two locations, in the terms of the specification *)

(** The string that the loop of [ExpandEnvironmentVars] computes from a
    string. *)
Definition expanded (w : World) (path : string) : string :=
  fold_left
    (fun path var =>
       match environ w var with
       | Some value => PyStr.replace ("$" ++ var ++ "$") value path
       | None => path
       end)
    VALID_ENV_VARS path.

(** What the resolver answers for a section; it reads the volume list and
    nothing else. *)
Definition resolved_drive (w : World) (section : pyval) : outcome string :=
  fst (ResolveDriveLetter w section []).

(** One side of a job: the path and the drive of a section whose path, once
    its environment variables are expanded, is [path].  With a [serial] or a
    [name] among the keys the drive is the one the resolver finds, and the
    path is joined to it; otherwise the drive is split off the path. *)
Definition resolve_side (w : World) (section : dict) (path : string)
  : outcome (string * string) :=
  if has_identity (map fst section) then
    match resolved_drive w (VDict section) with
    | Ret drive => Ret (path_join w [drive; "\"; path], drive)
    | Raise e => Raise e
    end
  else Ret (path, fst (splitdrive w path)).


(** The example host with [HOMEDRIVE] set, and a job whose source path
    starts with it. *)
Definition homedrive_world : World :=
  with_environ example_world
    (fun var => if String.eqb var "HOMEDRIVE" then Some "C:" else None).

Definition homedrive_job : dict :=
  [("name", VStr "documents");
   ("source", VDict [("path", VStr "$HOMEDRIVE$\data")]);
   ("destination", VDict [("name", VStr "KINGSTON"); ("path", VStr "backup")])].

(** [job['run']] as [DefaultJobSettings] and [ParseSettings] leave it for a
    job without settings, read at instant [now]. *)
Definition default_run (now : Z) : RunSettings :=
  {| options := []; file_types := VStr "*.*";
     time_format := VStr "%Y-%m-%dT%H%M%S%z"; time := now;
     src_path := None; dst_path := None; src_drive := None; dst_drive := None |}.

(** *** The Robocopy settings of a job, in the terms of the specification *)

(** The log path: the template with the four location placeholders, then
    [$timestamp$], then the environment variables replaced. *)
Definition log_path_of (w : World) (src dst sdrive ddrive stamp template : string)
  : string :=
  expanded w
    (PyStr.replace "$timestamp$" stamp
       (PyStr.replace "$dst_drive$" ddrive
          (PyStr.replace "$src_drive$" sdrive
             (PyStr.replace "$dst_path$" dst
                (PyStr.replace "$src_path$" src template))))).

(** [robocopy.options], split at every space. *)
Definition options_setting (robocopy : dict) (run : RunSettings) : outcome RunSettings :=
  match lookup "options" robocopy with
  | None => Ret run
  | Some (VStr tokens) => Ret (set_options run (PyStr.split " " tokens))
  | Some _ => Raise AttributeError
  end.

(** [robocopy.files] *)
Definition files_setting (robocopy : dict) (run : RunSettings) : RunSettings :=
  match lookup "files" robocopy with
  | None => run
  | Some files => set_file_types run files
  end.

(** [settings.time_format] *)
Definition time_format_setting (d : dict) (run : RunSettings) : outcome RunSettings :=
  match lookup "settings" d with
  | None => Ret run
  | Some (VDict settings) =>
      match lookup "time_format" settings with
      | None => Ret run
      | Some fmt => Ret (set_time_format run fmt)
      end
  | Some _ => Raise TypeError
  end.

(** C7 as the specification words it, for a destination found by its path:
    the destination path of the resolved job is the path of the job with
    [$timestamp$] replaced by the formatted time of the run. *)
Definition timestamp_in_destination (w : World) (d : dict) : Prop :=
  forall section path run tr tr' fmt dst,
    lookup "destination" d = Some (VDict section) ->
    has_identity (map fst section) = false ->
    lookup "path" section = Some (VStr path) ->
    BuildJob w (VDict d) tr = (Ret run, tr') ->
    time_format run = VStr fmt ->
    dst_path run = Some dst ->
    dst = PyStr.replace "$timestamp$" (strftime w (time run) fmt) (expanded w path).

(** A job that names a dated folder and a dated log. *)
Definition dated_job : dict :=
  [("name", VStr "nightly");
   ("source", VDict [("path", VStr "C:\data")]);
   ("destination", VDict [("path", VStr "F:\backup\$timestamp$")]);
   ("settings", VDict [("time_format", VStr "%Y%m%d")]);
   ("robocopy", VDict [("options", VStr "/MIR /R:1");
                       ("log", VStr "$dst_drive$\logs\$timestamp$.log")])].

(** The example host on 2024-03-05: [strftime] is only asked for [%Y%m%d]. *)
Definition dated_world : World :=
  {| environ := fun _ => None;
     isfile := fun _ => true;
     path_exists := fun _ => true;
     open_file := fun _ => Opened (Loaded (VDict dated_job));
     wmi_disks := Some example_disks;
     clock := fun n => Z.of_nat n;
     popen := fun _ => Some (4242%Z, 1%Z);
     splitdrive := nt_splitdrive;
     path_join := String.concat "";
     strftime := fun _ fmt => if String.eqb fmt "%Y%m%d" then "20240305" else fmt;
     str_of := fun _ => "?" |}.

(** What [BuildJob] makes of [dated_job] on [dated_world], read off a run
    of the definitions: the destination keeps its [$timestamp$], the log
    path has it replaced. *)
Definition dated_run : RunSettings :=
  {| options := ["/MIR"; "/R:1"; "/LOG:F:\logs\20240305.log"];
     file_types := VStr "*.*";
     time_format := VStr "%Y%m%d"; time := 0%Z;
     src_path := Some "C:\data"; dst_path := Some "F:\backup\$timestamp$";
     src_drive := Some "C:"; dst_drive := Some "F:" |}.

Definition dated_trace : trace :=
  [EvNow; EvExists "C:\data"; EvLog DEBUG "Log will be saved to: F:\logs\20240305.log"].

(** *** The safety gate, in the terms of the specification *)

(** The flag of a section is a template, or there is none. *)
Definition flag_is_text (section : dict) : bool :=
  match lookup "flag" section with
  | None | Some (VStr _) => true
  | Some _ => false
  end.

(** The file that guards a section on a drive: the flag template with both
    [$drive$] and [$path$] replaced by the drive. *)
Definition flag_on_drive (section : dict) (drive : string) : option string :=
  match lookup "flag" section with
  | Some (VStr template) =>
      Some (PyStr.replace "$path$" drive (PyStr.replace "$drive$" drive template))
  | _ => None
  end.

(** The verdict of the gate for a section on a drive, and the trace it
    leaves: a section without a flag passes silently, the flag of any other
    is probed. *)
Definition gate (w : World) (section : dict) (drive : string) (tr : trace) : bool * trace :=
  match flag_on_drive section drive with
  | None => (true, tr)
  | Some flag =>
      (isfile w flag,
       (tr ++ [EvLog DEBUG ("Checking flag: " ++ flag ++ " "); EvIsFile flag])%list)
  end.

(** A job whose two sides are guarded: the source flag is written with
    [$drive$], the destination flag with [$path$]. *)
Definition guarded_job : dict :=
  [("name", VStr "guarded");
   ("source", VDict [("path", VStr "C:\data"); ("flag", VStr "$drive$\SOURCE.FLAG")]);
   ("destination", VDict [("name", VStr "KINGSTON"); ("path", VStr "backup\daily");
                          ("flag", VStr "$path$\TARGET.FLAG")])].

(** [job['run']] of [guarded_job] on the example host at instant 0. *)
Definition guarded_run : RunSettings :=
  {| options := []; file_types := VStr "*.*";
     time_format := VStr "%Y-%m-%dT%H%M%S%z"; time := 0%Z;
     src_path := Some "C:\data"; dst_path := Some "F:\backup\daily";
     src_drive := Some "C:"; dst_drive := Some "F:" |}.

(** *** Job descriptions as the specification types them

    Sections are mappings, and [path], [flag], [time_format], [options],
    [log] and [files], where present, are strings. *)
Definition optional_text (v : option pyval) : bool :=
  match v with
  | None | Some (VStr _) => true
  | Some _ => false
  end.


Definition settings_ok (v : option pyval) : bool :=
  match v with
  | None => true
  | Some (VDict settings) => optional_text (lookup "time_format" settings)
  | Some _ => false
  end.






(** [errno.EMFILE] *)
Definition EMFILE : Z := 24.


(** *** Batches *)

(** The log entry of [main] for the outcome of one job. *)
Definition job_status (ok : bool) (job : string) : event :=
  if ok then EvLog DEBUG ("Job status OK " ++ job)
  else EvLog WARNING ("Job status failed " ++ job).

Definition one_if (b : bool) : nat := if b then 1 else 0.

(** C9 as the specification words it: in a batch of three job files named
    [*.yaml] of which the second is malformed, all three are counted. *)
Definition malformed_job_never_aborts (w : World) : Prop :=
  forall job1 job2 job3 dry_run exc tr,
    forallb (fun job => PyStr.endswith job ".yaml") [job1; job2; job3] = true ->
    isfile w job2 = true ->
    open_file w job2 = Opened (YAMLError exc) ->
    exists tally tr',
      run_jobs w job3 dry_run [job1; job2; job3] tr = (Ret tally, tr') /\
      fst tally + snd tally = 3.

(** A batch on the 2024-03-05 host: the dated job, a file that is not
    YAML, and a job that forgot the path of its source. *)
Definition batch_world : World :=
  with_open_file dated_world
    (fun job_file =>
       if String.eqb job_file "second.yaml" then
         Opened (YAMLError "mapping values are not allowed here")
       else if String.eqb job_file "third.yaml" then
         Opened (Loaded (VDict job_without_source_path))
       else Opened (Loaded (VDict dated_job))).

(** The same batch when the first job file cannot be opened for want of
    file descriptors. *)
Definition exhausted_batch_world : World :=
  with_open_file dated_world
    (fun job_file =>
       if String.eqb job_file "second.yaml" then
         Opened (YAMLError "mapping values are not allowed here")
       else if String.eqb job_file "first.yaml" then OpenFails EMFILE
       else Opened (Loaded (VDict dated_job))).

(** *** The cache of the WMI query

    [GetLogicalDrivesFromWMI] with its global made explicit: the state holds
    the value of [wmiLogicalDisks] and the number of queries sent so far;
    [query n] is what the host answers to the [n]-th query ([None] when the
    query fails, which raises before the global is assigned). *)
Module Cache.

Record state : Type := {
  wmiLogicalDisks : option (list Volume);
  queries : nat
}.

Definition GetLogicalDrivesFromWMI (query : nat -> option (list Volume)) (st : state)
  : outcome (list Volume) * state :=
  match wmiLogicalDisks st with
  | Some disks => (Ret disks, st)
  | None =>
      match query (queries st) with
      | Some disks =>
          (Ret disks, {| wmiLogicalDisks := Some disks; queries := S (queries st) |})
      | None =>
          (Raise WMIError, {| wmiLogicalDisks := None; queries := S (queries st) |})
      end
  end.

(** [n] calls in a row. *)
Fixpoint calls (query : nat -> option (list Volume)) (n : nat) (st : state)
  : list (outcome (list Volume)) * state :=
  match n with
  | O => ([], st)
  | S k =>
      let (answer, st1) := GetLogicalDrivesFromWMI query st in
      let (answers, st2) := calls query k st1 in
      (answer :: answers, st2)
  end.

End Cache.

(** The file that [CheckFlag] probes for a section when it is given [path]:
    the flag template with [$drive$] replaced by the drive part of [path]
    and [$path$] by [path]. *)
Definition flag_probe (w : World) (section : dict) (path : string) : option string :=
  match lookup "flag" section with
  | Some (VStr template) =>
      Some (PyStr.replace "$path$" path
              (PyStr.replace "$drive$" (fst (splitdrive w path)) template))
  | _ => None
  end.

(** The events of a flag check. *)
Definition flag_events (probe : option string) : trace :=
  match probe with
  | Some flag => [EvLog DEBUG ("Checking flag: " ++ flag ++ " "); EvIsFile flag]
  | None => []
  end.

(** A host that plugs a second stick in between two queries. *)
Definition growing_host (n : nat) : option (list Volume) :=
  match n with
  | O => Some [ {| Name := "C:"; VolumeSerialNumber := Some "AAAA1111";
                   VolumeName := Some "SYSTEM" |} ]
  | _ => Some example_disks
  end.

(** The example host when the WMI service does not answer. *)
Definition offline_world (job : pyval) : World :=
  {| environ := environ example_world; isfile := isfile example_world;
     path_exists := path_exists example_world;
     open_file := fun _ => Opened (Loaded job);
     wmi_disks := None; clock := clock example_world;
     popen := popen example_world; splitdrive := nt_splitdrive;
     path_join := String.concat ""; strftime := strftime example_world;
     str_of := str_of example_world |}.

(** *** Counting events

    [grows_by P n m]: whatever trace [m] starts from, the events it adds that
    satisfy [P] are at most [n], and the earlier ones stay. *)
Definition grows_by {A : Type} (P : event -> bool) (n : nat) (m : M A) : Prop :=
  forall tr, exists evs,
    filter P (snd (m tr)) = (filter P tr ++ evs)%list /\ List.length evs <= n.

Definition is_spawn (e : event) : bool :=
  match e with EvSpawn _ => true | _ => false end.

(** The commands launched so far, and the number of them. *)
Definition launched (tr : trace) : list event := filter is_spawn tr.

(** *** [main]

    The parsed command line, and [main] from the parsed arguments on.  What
    [main] prints (the banner, the table of [ListDrives]) goes to standard
    output and is not part of the trace; [ListDrives] answers with the rows
    of its table.  The level that [-v] sets on the logger decides which
    entries reach the console; the trace keeps every entry.  [glob] is
    [glob.glob]; the job files are collected in a set, which is iterated in
    an order of its own: [iterate] is that order.  [sys.exit] ends [main]
    with its code. *)
Record Args : Type := {
  arg_job : list string;
  arg_dry_run : bool;
  arg_verbosity : nat;
  arg_drives : bool
}.

Inductive ending : Type :=
| SystemExit (code : Z)
| Finished (succeeded failed : nat).

Definition ListDrives (w : World) : M (list (string * option string * option string)) :=
  disks <- GetLogicalDrivesFromWMI w ;;
  ret (map (fun objItem =>
              (Name objItem, VolumeSerialNumber objItem, VolumeName objItem)) disks).

(** Every path the patterns match, in the order the two loops meet them;
    the variable [file] is left at the last of them. *)
Definition globbed (glob : string -> list string) (patterns : list string) : list string :=
  flat_map glob patterns.

Definition main (w : World) (glob : string -> list string)
  (iterate : list string -> list string) (args : Args) : M ending :=
  if arg_drives args then
    ListDrives w ;; ret (SystemExit 0)
  else if Nat.eqb (List.length (arg_job args)) 0 then
    log ERROR "Need at least one job (or --drives), see --help" ;;
    ret (SystemExit 1)
  else
    let found := globbed glob (arg_job args) in
    let jobs := nodup string_dec found in
    log INFO ("Found " ++ PyStr.of_Z (Z.of_nat (List.length jobs)) ++ " job(s) to run") ;;
    (if arg_dry_run args
     then log WARNING "--dry-run option given, won't execute Robocopy"
     else ret tt) ;;
    tally <- run_jobs w (last found EmptyString) (arg_dry_run args) (iterate jobs) ;;
    ret (Finished (fst tally) (snd tally)).

(** A directory for the examples, holding [first.yaml] and [second.yaml]:
    two of the patterns match [second.yaml] and nothing else. *)
Definition example_glob (pattern : string) : list string :=
  if String.eqb pattern "*.yaml" then ["first.yaml"; "second.yaml"]
  else if String.eqb pattern "s*.yaml" then ["second.yaml"]
  else if String.eqb pattern "*d.yaml" then ["second.yaml"]
  else [].

Definition example_args : Args :=
  {| arg_job := ["s*.yaml"; "*d.yaml"]; arg_dry_run := false;
     arg_verbosity := 0; arg_drives := false |}.

(** * Properties *)

(** ** Strings *)

Example replace_drive :
  PyStr.replace "$drive$" "E:" "$drive$\FLAG.TXT" = "E:\FLAG.TXT".
Proof. reflexivity. Qed.

Example replace_leftmost : PyStr.replace "aa" "b" "aaaaa" = "bba".
Proof. reflexivity. Qed.

Example replace_empty_old : PyStr.replace "" "-" "abc" = "-a-b-c-".
Proof. reflexivity. Qed.

Example split_keeps_empty_fields :
  PyStr.split " " "/MIR  /R:1" = ["/MIR"; ""; "/R:1"] /\ PyStr.split " " "" = [""].
Proof. split; reflexivity. Qed.

Example endswith_yaml :
  PyStr.endswith "backup.yaml" ".yaml" = true /\
  PyStr.endswith "notes.txt" ".yaml" = false /\
  PyStr.endswith "aml" ".yaml" = false.
Proof. repeat split; reflexivity. Qed.

Example of_Z_decimal : PyStr.of_Z 16 = "16" /\ PyStr.of_Z 0 = "0".
Proof. split; reflexivity. Qed.

Lemma contains_cons (needle : string) (c : ascii) (rest : string) :
  PyStr.contains needle (String c rest) = false ->
  prefix needle (String c rest) = false /\ PyStr.contains needle rest = false.
Proof.
  intros H. cbn [PyStr.contains] in H. apply orb_false_iff in H. exact H.
Qed.

(** A string in which [old] does not occur is left alone by [replace]. *)
Lemma replace_from_absent (old new s : string) :
  PyStr.contains old s = false -> PyStr.replace_from old new 0 s = s.
Proof.
  induction s as [|c rest IH]; intros H.
  - reflexivity.
  - apply contains_cons in H. destruct H as [Hp Hc].
    cbn [PyStr.replace_from]. rewrite Hp. rewrite (IH Hc). reflexivity.
Qed.

Lemma replace_absent (old new s : string) :
  old <> EmptyString -> PyStr.contains old s = false -> PyStr.replace old new s = s.
Proof.
  intros Hne H. destruct old as [|c old'].
  - contradiction.
  - unfold PyStr.replace. apply replace_from_absent. exact H.
Qed.

(** ** The monad *)

Lemma bind_ret (A B : Type) (m : M A) (k : A -> M B) (tr tr' : trace) (a : A) :
  m tr = (Ret a, tr') -> bind m k tr = k a tr'.
Proof. intros H. unfold bind. rewrite H. reflexivity. Qed.

Lemma bind_raise (A B : Type) (m : M A) (k : A -> M B) (tr tr' : trace) (e : exn) :
  m tr = (Raise e, tr') -> bind m k tr = (Raise e, tr').
Proof. intros H. unfold bind. rewrite H. reflexivity. Qed.

Lemma try_ret (A : Type) (m : M A) (h : exn -> option (M A)) (tr tr' : trace) (a : A) :
  m tr = (Ret a, tr') -> try_except m h tr = (Ret a, tr').
Proof. intros H. unfold try_except. rewrite H. reflexivity. Qed.

Lemma try_caught (A : Type) (m : M A) (h : exn -> option (M A)) (tr tr' : trace)
  (e : exn) (handler : M A) :
  m tr = (Raise e, tr') -> h e = Some handler -> try_except m h tr = handler tr'.
Proof. intros H Hh. unfold try_except. rewrite H, Hh. reflexivity. Qed.

Lemma try_passed (A : Type) (m : M A) (h : exn -> option (M A)) (tr tr' : trace)
  (e : exn) :
  m tr = (Raise e, tr') -> h e = None -> try_except m h tr = (Raise e, tr').
Proof. intros H Hh. unfold try_except. rewrite H, Hh. reflexivity. Qed.

Arguments bind_ret {A B m} k {tr tr' a} _.
Arguments bind_raise {A B m} k {tr tr' e} _.
Arguments try_ret {A m} h {tr tr' a} _.
Arguments try_caught {A m} h {tr tr' e handler} _ _.
Arguments try_passed {A m} h {tr tr' e} _ _.

(** ** Drive resolver *)

Lemma serial_loop_first (serial : pyval) (before : list Volume) (v : Volume)
  (after : list Volume) :
  (forall u, In u before -> attr_eq (VolumeSerialNumber u) serial = false) ->
  attr_eq (VolumeSerialNumber v) serial = true ->
  serial_loop serial (before ++ v :: after) = Some (Name v).
Proof.
  intros Hbefore Hv. induction before as [|u before IH]; cbn [serial_loop List.app].
  - rewrite Hv. reflexivity.
  - rewrite (Hbefore u (or_introl eq_refl)).
    apply IH. intros u' Hu'. apply Hbefore. right. exact Hu'.
Qed.

Lemma serial_loop_none (serial : pyval) (disks : list Volume) :
  (forall u, In u disks -> attr_eq (VolumeSerialNumber u) serial = false) ->
  serial_loop serial disks = None.
Proof.
  intros H. induction disks as [|u disks IH]; cbn [serial_loop].
  - reflexivity.
  - rewrite (H u (or_introl eq_refl)). apply IH. intros u' Hu'. apply H. right. exact Hu'.
Qed.

Lemma name_loop_first (name : pyval) (before : list Volume) (v : Volume)
  (after : list Volume) :
  (forall u, In u before -> attr_eq (VolumeName u) name = false) ->
  attr_eq (VolumeName v) name = true ->
  name_loop name (before ++ v :: after) = Some (Name v).
Proof.
  intros Hbefore Hv. induction before as [|u before IH]; cbn [name_loop List.app].
  - rewrite Hv. reflexivity.
  - rewrite (Hbefore u (or_introl eq_refl)).
    apply IH. intros u' Hu'. apply Hbefore. right. exact Hu'.
Qed.

Lemma name_loop_none (name : pyval) (disks : list Volume) :
  (forall u, In u disks -> attr_eq (VolumeName u) name = false) ->
  name_loop name disks = None.
Proof.
  intros H. induction disks as [|u disks IH]; cbn [name_loop].
  - reflexivity.
  - rewrite (H u (or_introl eq_refl)). apply IH. intros u' Hu'. apply H. right. exact Hu'.
Qed.

Lemma mounted_truthy (disks : list Volume) (v : Volume) :
  mounted disks = true -> In v disks -> truthy (Some (Name v)) = Some (Name v).
Proof.
  intros Hm Hin. unfold mounted in Hm. rewrite forallb_forall in Hm.
  specialize (Hm v Hin). destruct (Name v); [discriminate | reflexivity].
Qed.

Lemma attr_eq_exact (a s : string) : attr_eq (Some a) (VStr s) = true <-> a = s.
Proof. cbn [attr_eq]. apply String.eqb_eq. Qed.

(** What the serial step of the resolver leaves behind. *)
Lemma resolve_unfold (w : World) (disks : list Volume) (d : dict) (tr : trace) :
  wmi_disks w = Some disks ->
  ResolveDriveLetter w (VDict d) tr =
  match truthy (match lookup "serial" d with
                | Some serial => serial_loop serial disks
                | None => None
                end) with
  | Some drive => (Ret drive, tr)
  | None =>
      match truthy (match lookup "name" d with
                    | Some name => name_loop name disks
                    | None => None
                    end) with
      | Some drive => (Ret drive, tr)
      | None =>
          (Raise (RoboException ("Couldn't find drive letter, tried: "
                                 ++ PyStr.join ", " (criteria_tried w d))), tr)
      end
  end.
Proof.
  intros Hw.
  unfold ResolveDriveLetter, criteria_tried, py_in, py_getitem,
    FindDriveFromSerial, FindDriveFromName, GetLogicalDrivesFromWMI.
  rewrite Hw.
  destruct (lookup "serial" d) as [serial|]; cbv [bind ret raise fst snd].
  - destruct (truthy (serial_loop serial disks)); [reflexivity|].
    destruct (lookup "name" d) as [name|].
    + destruct (truthy (name_loop name disks)); reflexivity.
    + reflexivity.
  - cbn [truthy].
    destruct (lookup "name" d) as [name|].
    + destruct (truthy (name_loop name disks)); reflexivity.
    + reflexivity.
Qed.

(** C2.  The drive resolver, on a volume list in which every volume has a
    mount path.  If [serial] is given and some volume carries exactly that
    serial number, the mount path of the first such volume is returned,
    whatever [name] says.  Only when [serial] is absent or matches no volume
    is [name] compared with the labels, and the first volume with exactly
    that label is returned.  When no given criterion matches, the resolver
    raises [RoboException] with the criteria it tried, serial before name.
    A match is equality of the two strings. *)
Theorem ResolveDriveLetter_serial_before_name
  (w : World) (disks : list Volume) (d : dict) (tr : trace) :
  wmi_disks w = Some disks ->
  mounted disks = true ->
  (forall serial before v after,
      lookup "serial" d = Some serial ->
      disks = (before ++ v :: after)%list ->
      (forall u, In u before -> attr_eq (VolumeSerialNumber u) serial = false) ->
      attr_eq (VolumeSerialNumber v) serial = true ->
      ResolveDriveLetter w (VDict d) tr = (Ret (Name v), tr))
  /\
  (forall name before v after,
      (forall serial, lookup "serial" d = Some serial ->
        forall u, In u disks -> attr_eq (VolumeSerialNumber u) serial = false) ->
      lookup "name" d = Some name ->
      disks = (before ++ v :: after)%list ->
      (forall u, In u before -> attr_eq (VolumeName u) name = false) ->
      attr_eq (VolumeName v) name = true ->
      ResolveDriveLetter w (VDict d) tr = (Ret (Name v), tr))
  /\
  ((forall serial, lookup "serial" d = Some serial ->
      forall u, In u disks -> attr_eq (VolumeSerialNumber u) serial = false) ->
   (forall name, lookup "name" d = Some name ->
      forall u, In u disks -> attr_eq (VolumeName u) name = false) ->
   ResolveDriveLetter w (VDict d) tr =
   (Raise (RoboException ("Couldn't find drive letter, tried: "
                          ++ PyStr.join ", " (criteria_tried w d))), tr))
  /\
  (forall a s, attr_eq (Some a) (VStr s) = true <-> a = s).
Proof.
  intros Hw Hm. repeat split.
  - intros serial before v after Hs Hd Hbefore Hv.
    rewrite (resolve_unfold w disks d tr Hw), Hs, Hd.
    rewrite (serial_loop_first serial before v after Hbefore Hv).
    rewrite (mounted_truthy disks v Hm); [reflexivity|].
    rewrite Hd. apply in_or_app. right. left. reflexivity.
  - intros name before v after Hserial Hn Hd Hbefore Hv.
    rewrite (resolve_unfold w disks d tr Hw), Hn.
    assert (Hnone : truthy (match lookup "serial" d with
                            | Some serial => serial_loop serial disks
                            | None => None
                            end) = None).
    { destruct (lookup "serial" d) as [serial|]; [|reflexivity].
      rewrite (serial_loop_none serial disks (Hserial serial eq_refl)). reflexivity. }
    rewrite Hnone, Hd.
    rewrite (name_loop_first name before v after Hbefore Hv).
    rewrite (mounted_truthy disks v Hm); [reflexivity|].
    rewrite Hd. apply in_or_app. right. left. reflexivity.
  - intros Hserial Hname.
    rewrite (resolve_unfold w disks d tr Hw).
    destruct (lookup "serial" d) as [serial|].
    + rewrite (serial_loop_none serial disks (Hserial serial eq_refl)). cbn [truthy].
      destruct (lookup "name" d) as [name|]; [|reflexivity].
      rewrite (name_loop_none name disks (Hname name eq_refl)). reflexivity.
    + cbn [truthy].
      destruct (lookup "name" d) as [name|]; [|reflexivity].
      rewrite (name_loop_none name disks (Hname name eq_refl)). reflexivity.
  - apply attr_eq_exact.
  - apply attr_eq_exact.
Qed.

Ltac no_match := intros ? [<-|[<-|[]]]; reflexivity.

(** The resolver on the two example volumes: a serial that matches wins over
    a label that matches another volume; a serial that matches nothing falls
    through to the label; two misses raise with both criteria listed. *)
Lemma ResolveDriveLetter_serial_before_name_witness :
  ResolveDriveLetter example_world
    (VDict [("serial", VStr "BBBB2222"); ("name", VStr "SYSTEM")]) [] = (Ret "F:", [])
  /\
  ResolveDriveLetter example_world
    (VDict [("serial", VStr "0000FFFF"); ("name", VStr "KINGSTON")]) [] = (Ret "F:", [])
  /\
  ResolveDriveLetter example_world
    (VDict [("serial", VStr "BBBB"); ("name", VStr "KING")]) [] =
  (Raise (RoboException "Couldn't find drive letter, tried: serial: BBBB, name: KING"), []).
Proof.
  split; [|split].
  - destruct (ResolveDriveLetter_serial_before_name example_world example_disks
                [("serial", VStr "BBBB2222"); ("name", VStr "SYSTEM")] []
                eq_refl eq_refl) as [H _].
    refine (H (VStr "BBBB2222") [_] _ [] eq_refl eq_refl _ eq_refl).
    intros u [<-|[]]. reflexivity.
  - destruct (ResolveDriveLetter_serial_before_name example_world example_disks
                [("serial", VStr "0000FFFF"); ("name", VStr "KINGSTON")] []
                eq_refl eq_refl) as [_ [H _]].
    refine (H (VStr "KINGSTON") [_] _ [] _ eq_refl eq_refl _ eq_refl).
    + intros serial Hs. injection Hs as <-. no_match.
    + intros u [<-|[]]. reflexivity.
  - destruct (ResolveDriveLetter_serial_before_name example_world example_disks
                [("serial", VStr "BBBB"); ("name", VStr "KING")] []
                eq_refl eq_refl) as [_ [_ [H _]]].
    refine (H _ _).
    + intros serial Hs. injection Hs as <-. no_match.
    + intros name Hn. injection Hn as <-. no_match.
Defined.

(** ** Safety gate *)

Lemma CheckFlag_no_flag (w : World) (d : dict) (path : string) (tr : trace) :
  lookup "flag" d = None -> CheckFlag w (VDict d) path tr = (Ret true, tr).
Proof. intros Hnone. unfold CheckFlag, py_in. rewrite Hnone. reflexivity. Qed.

Lemma CheckFlag_flag (w : World) (d : dict) (path template : string) (tr : trace) :
  lookup "flag" d = Some (VStr template) ->
  CheckFlag w (VDict d) path tr =
  (Ret (isfile w (PyStr.replace "$path$" path
                    (PyStr.replace "$drive$" (fst (splitdrive w path)) template))),
   (tr ++ [EvLog DEBUG ("Checking flag: "
                        ++ PyStr.replace "$path$" path
                             (PyStr.replace "$drive$" (fst (splitdrive w path)) template)
                        ++ " ");
           EvIsFile (PyStr.replace "$path$" path
                       (PyStr.replace "$drive$" (fst (splitdrive w path)) template))])%list).
Proof.
  intros Hflag. unfold CheckFlag, py_in, py_getitem. rewrite Hflag.
  cbv [bind ret negb py_replace log os_path_isfile emit].
  rewrite <- app_assoc. reflexivity.
Qed.

(** C5.  [CheckFlag] on the settings of a location.  Without a [flag] key it
    returns true, whatever the path.  With a flag template it replaces
    [$drive$] by the drive part of the path it is given and then [$path$] by
    that path, probes the resulting string with [os.path.isfile], and returns
    what the probe says; nothing is raised. *)
Theorem CheckFlag_opt_in (w : World) (d : dict) (path : string) (tr : trace) :
  (lookup "flag" d = None -> CheckFlag w (VDict d) path tr = (Ret true, tr))
  /\
  (forall template, lookup "flag" d = Some (VStr template) ->
     let flag := PyStr.replace "$path$" path
                   (PyStr.replace "$drive$" (fst (splitdrive w path)) template) in
     CheckFlag w (VDict d) path tr =
     (Ret (isfile w flag),
      (tr ++ [EvLog DEBUG ("Checking flag: " ++ flag ++ " "); EvIsFile flag])%list)).
Proof.
  split.
  - apply CheckFlag_no_flag.
  - intros template Hflag flag. apply CheckFlag_flag. exact Hflag.
Qed.

(** The flag of the specification's example, on drive [E:], and a location
    without a flag. *)
Lemma CheckFlag_opt_in_witness :
  CheckFlag example_world (VDict [("path", VStr "data")]) "E:" [] = (Ret true, [])
  /\
  CheckFlag (with_isfile example_world (String.eqb "E:\FLAG.TXT"))
    (VDict [("path", VStr "data"); ("flag", VStr "$drive$\FLAG.TXT")]) "E:" [] =
  (Ret true, [EvLog DEBUG "Checking flag: E:\FLAG.TXT "; EvIsFile "E:\FLAG.TXT"]).
Proof.
  split.
  - apply (proj1 (CheckFlag_opt_in example_world [("path", VStr "data")] "E:" [])).
    reflexivity.
  - apply (proj2 (CheckFlag_opt_in (with_isfile example_world (String.eqb "E:\FLAG.TXT"))
                    [("path", VStr "data"); ("flag", VStr "$drive$\FLAG.TXT")] "E:" [])
             "$drive$\FLAG.TXT").
    reflexivity.
Defined.

Example CheckFlag_missing_file :
  CheckFlag (with_isfile example_world (fun _ => false))
    (VDict [("flag", VStr "$drive$\FLAG.TXT")]) "E:" [] =
  (Ret false, [EvLog DEBUG "Checking flag: E:\FLAG.TXT "; EvIsFile "E:\FLAG.TXT"]).
Proof. reflexivity. Qed.

(** A flag that is not a string is outside the job format: [flag.replace]
    raises. *)
Example CheckFlag_flag_not_a_string :
  CheckFlag example_world (VDict [("flag", VInt 1)]) "E:" [] = (Raise AttributeError, []).
Proof. reflexivity. Qed.

(** ** Execution *)

(** C3.  [DoRobocopy] on a resolved job.  In a dry run it returns true after
    logging the command line, and launches nothing.  Otherwise it launches
    [robocopy src dst files options...], waits, and returns true exactly
    when the exit code is below 8. *)
Theorem DoRobocopy_exit_code
  (w : World) (run : RunSettings) (src dst files : string) (tr : trace) :
  src_path run = Some src ->
  dst_path run = Some dst ->
  file_types run = VStr files ->
  let cmd := "robocopy" :: src :: dst :: files :: options run in
  let announced := (tr ++ [EvLog DEBUG ("Command: " ++ PyStr.join " " cmd)])%list in
  DoRobocopy w run true tr = (Ret true, announced)
  /\
  (forall pid code, popen w cmd = Some (pid, code) ->
     exists ok,
       DoRobocopy w run false tr =
       (Ret ok,
        (announced ++
         [EvSpawn cmd;
          EvLog DEBUG ("Robocopy running (PID: " ++ PyStr.of_Z pid ++ ")");
          EvLog DEBUG ("Robocopy finished, return code: " ++ PyStr.of_Z code)])%list)
       /\ (ok = true <-> (code < 8)%Z)).
Proof.
  intros Hsrc Hdst Hfiles cmd announced. split.
  - unfold DoRobocopy. rewrite Hsrc, Hdst, Hfiles. reflexivity.
  - intros pid code Hp.
    exists (if (code >=? 8)%Z then false else true). split.
    + unfold DoRobocopy. rewrite Hsrc, Hdst, Hfiles.
      cbv [run_key bind ret log emit Popen]. fold cmd. rewrite Hp.
      cbv [fst snd]. fold announced.
      rewrite <- !app_assoc. cbn [List.app].
      destruct (code >=? 8)%Z; reflexivity.
    + destruct (code >=? 8)%Z eqn:E.
      * split; [discriminate|]. intros Hlt. exfalso.
        apply Z.geb_le in E. lia.
      * split; [|reflexivity]. intros _.
        rewrite Z.geb_leb in E. apply Z.leb_gt in E. exact E.
Qed.

(** The example job: a dry run launches nothing, exit code 7 is a success. *)
Lemma DoRobocopy_exit_code_witness :
  DoRobocopy example_world example_run true [] =
  (Ret true, [EvLog DEBUG "Command: robocopy C:\data F:\backup *.* /MIR /R:1"])
  /\
  exists ok,
    DoRobocopy (with_popen example_world (fun _ => Some (4242, 7)%Z)) example_run false [] =
    (Ret ok,
     [EvLog DEBUG "Command: robocopy C:\data F:\backup *.* /MIR /R:1";
      EvSpawn ["robocopy"; "C:\data"; "F:\backup"; "*.*"; "/MIR"; "/R:1"];
      EvLog DEBUG "Robocopy running (PID: 4242)";
      EvLog DEBUG "Robocopy finished, return code: 7"])
    /\ (ok = true <-> (7 < 8)%Z).
Proof.
  split.
  - apply (proj1 (DoRobocopy_exit_code example_world example_run "C:\data"
                    "F:\backup" "*.*" [] eq_refl eq_refl eq_refl)).
  - apply (proj2 (DoRobocopy_exit_code
                    (with_popen example_world (fun _ => Some (4242, 7)%Z))
                    example_run "C:\data" "F:\backup" "*.*" []
                    eq_refl eq_refl eq_refl) 4242%Z 7%Z).
    reflexivity.
Defined.

(** The four exit codes of the specification. *)
Example DoRobocopy_codes :
  let run code := fst (DoRobocopy (with_popen example_world (fun _ => Some (4242, code)%Z))
                         example_run false []) in
  run 0%Z = Ret true /\ run 7%Z = Ret true /\ run 8%Z = Ret false /\ run 16%Z = Ret false.
Proof. repeat split; reflexivity. Qed.

(** File types that are not a string are outside the job format: the
    command line cannot be joined, dry run or not. *)
Example DoRobocopy_files_not_a_string :
  DoRobocopy example_world (set_file_types example_run (VInt 5)) true [] =
  (Raise TypeError, []).
Proof. reflexivity. Qed.

(** ** Environment expansion *)

Lemma expand_var_eq (w : World) (path var : string) (tr : trace) :
  expand_var w path var tr =
  (Ret match environ w var with
       | Some value => PyStr.replace ("$" ++ var ++ "$") value path
       | None => path
       end, tr).
Proof.
  unfold expand_var, try_except, bind, os_environ.
  destruct (environ w var); reflexivity.
Qed.


Lemma expand_loop_untouched (w : World) (vars : list string) (path : string) (tr : trace) :
  (forall var value, In var vars -> environ w var = Some value ->
     PyStr.contains ("$" ++ var ++ "$") path = false) ->
  expand_loop w vars path tr = (Ret path, tr).
Proof.
  induction vars as [|var vars IH]; intros H; cbn [expand_loop].
  - reflexivity.
  - rewrite (bind_ret _ (expand_var_eq w path var tr)).
    destruct (environ w var) as [value|] eqn:E.
    + rewrite replace_absent.
      * apply IH. intros var' value' Hin. apply H. right. exact Hin.
      * discriminate.
      * apply (H var value); [left; reflexivity | exact E].
    + apply IH. intros var' value' Hin. apply H. right. exact Hin.
Qed.


(** *** A token between texts without a dollar sign *)

Lemma dollar_free_app (a b : string) :
  dollar_free (a ++ b) = dollar_free a && dollar_free b.
Proof.
  induction a as [|c a IH]; cbn [dollar_free String.append].
  - reflexivity.
  - rewrite IH. apply andb_assoc.
Qed.

(** A needle with a dollar sign in it is no prefix of a text without. *)
Lemma prefix_dollar (x post : string) :
  dollar_free x = false -> dollar_free post = true -> prefix x post = false.
Proof.
  revert post. induction x as [|c x IH]; intros post Hx Hpost.
  - discriminate.
  - destruct post as [|p post]; [reflexivity|].
    cbn [prefix]. cbn [dollar_free] in Hx, Hpost.
    apply andb_true_iff in Hpost. destruct Hpost as [Hp Hpost].
    destruct (ascii_dec c p) as [->|Hne]; [|reflexivity].
    rewrite Hp in Hx. cbn [andb] in Hx. apply IH; assumption.
Qed.

Lemma contains_dollar (x hay : string) :
  dollar_free x = false -> dollar_free hay = true -> PyStr.contains x hay = false.
Proof.
  intros Hx. induction hay as [|c hay IH]; intros Hhay.
  - cbn [PyStr.contains]. apply prefix_dollar; [exact Hx | reflexivity].
  - cbn [PyStr.contains]. rewrite (prefix_dollar x (String c hay) Hx Hhay).
    cbn [dollar_free] in Hhay. apply andb_true_iff in Hhay.
    rewrite (IH (proj2 Hhay)). reflexivity.
Qed.

(** [var$] begins [name$post] only when [var] is [name]. *)
Lemma prefix_token_name (var name post : string) :
  dollar_free var = true -> dollar_free name = true -> dollar_free post = true ->
  prefix (var ++ "$") (name ++ "$" ++ post) = true -> var = name.
Proof.
  revert name. induction var as [|c var IH]; intros name Hvar Hname Hpost H.
  - destruct name as [|n name]; [reflexivity|].
    cbn [String.append prefix] in H. cbn [dollar_free] in Hname.
    destruct (ascii_dec "$" n) as [<-|Hne]; discriminate.
  - cbn [dollar_free] in Hvar. apply andb_true_iff in Hvar. destruct Hvar as [Hc Hvar].
    destruct name as [|n name].
    + cbn [String.append prefix] in H.
      destruct (ascii_dec c "$") as [->|Hne]; discriminate.
    + cbn [String.append prefix] in H. cbn [dollar_free] in Hname.
      apply andb_true_iff in Hname.
      destruct (ascii_dec c n) as [->|Hne]; [|discriminate].
      f_equal. apply IH; [exact Hvar | exact (proj2 Hname) | exact Hpost | exact H].
Qed.

Lemma token_dollar (var : string) : dollar_free ("$" ++ var ++ "$") = false.
Proof. reflexivity. Qed.

(** Behind the first dollar of the token no other token starts. *)
Lemma contains_behind_token (var name post : string) :
  dollar_free name = true -> dollar_free post = true ->
  PyStr.contains ("$" ++ var ++ "$") (name ++ "$" ++ post) = false.
Proof.
  intros Hname Hpost. induction name as [|n name IH].
  - cbn [String.append PyStr.contains prefix].
    destruct (ascii_dec "$" "$") as [_|Hne]; [|contradiction].
    rewrite prefix_dollar.
    + apply (contains_dollar ("$" ++ var ++ "$") post (token_dollar var) Hpost).
    + rewrite dollar_free_app. rewrite andb_false_r. reflexivity.
    + exact Hpost.
  - cbn [dollar_free] in Hname. apply andb_true_iff in Hname. destruct Hname as [Hn Hname].
    change ((String n name) ++ "$" ++ post) with (String n (name ++ "$" ++ post)).
    cbn [PyStr.contains]. rewrite (IH Hname). rewrite orb_false_r.
    cbn [String.append prefix].
    destruct (ascii_dec "$" n) as [<-|Hne]; [discriminate | reflexivity].
Qed.

Lemma contains_token_name (var pre name post : string) :
  dollar_free var = true -> dollar_free pre = true ->
  dollar_free name = true -> dollar_free post = true ->
  PyStr.contains ("$" ++ var ++ "$") (pre ++ "$" ++ name ++ "$" ++ post) = true ->
  var = name.
Proof.
  intros Hvar Hpre Hname Hpost. induction pre as [|p pre IH]; intros H.
  - pose proof (contains_behind_token var name post Hname Hpost) as Hb.
    pose proof (prefix_token_name var name post Hvar Hname Hpost) as Hp.
    cbn [String.append PyStr.contains] in H, Hb, Hp.
    rewrite Hb in H.
    rewrite orb_false_r in H. cbn [prefix] in H.
    destruct (ascii_dec "$" "$") as [_|Hne]; [|contradiction].
    apply Hp. exact H.
  - cbn [dollar_free] in Hpre. apply andb_true_iff in Hpre. destruct Hpre as [Hp Hpre].
    change ((String p pre) ++ "$" ++ name ++ "$" ++ post)
      with (String p (pre ++ "$" ++ name ++ "$" ++ post)) in H.
    cbn [PyStr.contains] in H. apply orb_true_iff in H. destruct H as [H|H].
    + cbn [String.append prefix] in H.
      destruct (ascii_dec "$" p) as [<-|Hne]; discriminate.
    + apply IH; assumption.
Qed.

Lemma allow_list_dollar_free : forallb dollar_free VALID_ENV_VARS = true.
Proof. reflexivity. Qed.




(** An allow-listed name that is set is expanded, at every occurrence. *)
Example ExpandEnvironmentVars_expands :
  ExpandEnvironmentVars tmp_world (VStr "$TMP$\a;$TMP$\b;$tmp$") [] =
  (Ret "C:\Temp\a;C:\Temp\b;$tmp$", []).
Proof. reflexivity. Qed.

(** A path that is not a string is outside the job format. *)
Example ExpandEnvironmentVars_not_a_string :
  ExpandEnvironmentVars tmp_world VNone [] = (Raise AttributeError, []).
Proof. reflexivity. Qed.

(** ** Validation *)

Lemma ValidateJob_complete (d : dict) (tr : trace) :
  sections_are_mappings d = true -> incomplete d = false ->
  ValidateJob (VDict d) tr = (Ret true, tr).
Proof.
  unfold sections_are_mappings, incomplete, ValidateJob, py_in, py_getitem.
  intros Hs Hi.
  destruct (lookup "name" d) as [name|]; [|discriminate].
  destruct (lookup "source" d) as [[| | | | |s]|]; try discriminate.
  destruct (lookup "destination" d) as [[| | | | |t]|]; try discriminate.
  cbn [absent lacks_path orb] in Hi. cbv [bind ret raise negb].
  destruct (lookup "path" s); [|discriminate].
  destruct (lookup "path" t); [|discriminate].
  reflexivity.
Qed.


(** ** The front of [RunJob] *)



(** Any other error of [open] leaves [RunJob] as the exception it is. *)
Lemma RunJob_reraises (w : World) (job_file : string) (dry_run : bool) (tr : trace)
  (errno : Z) :
  isfile w job_file = true ->
  open_file w job_file = OpenFails errno ->
  errno <> EACCES ->
  RunJob w job_file dry_run tr =
  (Raise (IOError errno), (tr ++ [EvIsFile job_file; EvOpen job_file])%list).
Proof.
  intros H Ho Hne.
  cbv [RunJob os_path_isfile try_except open_ bind emit log ret raise].
  rewrite H, Ho. cbn [negb except_IOError].
  destruct (errno =? EACCES)%Z eqn:E.
  - apply Z.eqb_eq in E. contradiction.
  - rewrite <- !app_assoc. reflexivity.
Qed.

Lemma RunJob_yaml_error (w : World) (job_file : string) (dry_run : bool) (tr : trace)
  (exc : string) :
  isfile w job_file = true ->
  open_file w job_file = Opened (YAMLError exc) ->
  RunJob w job_file dry_run tr =
  (Ret false,
   (tr ++ [EvIsFile job_file; EvOpen job_file;
           EvLog ERROR ("YAML error in job file " ++ job_file ++ " (run with -v for debug)");
           EvLog DEBUG ("YAML parser output: " ++ exc)])%list).
Proof.
  intros H Ho.
  cbv [RunJob os_path_isfile try_except open_ LoadJob bind emit log ret raise].
  rewrite H, Ho. cbn [negb is_None]. rewrite <- !app_assoc. reflexivity.
Qed.

Lemma RunJob_loaded (w : World) (job_file : string) (dry_run : bool) (tr : trace)
  (job : pyval) :
  isfile w job_file = true ->
  open_file w job_file = Opened (Loaded job) ->
  RunJob w job_file dry_run tr =
  if is_None job
  then (Ret false, (tr ++ [EvIsFile job_file; EvOpen job_file])%list)
  else RunLoaded w job_file job dry_run (tr ++ [EvIsFile job_file; EvOpen job_file])%list.
Proof.
  intros H Ho.
  cbv [RunJob os_path_isfile try_except open_ LoadJob bind emit log ret raise].
  rewrite H, Ho. cbn [negb]. rewrite <- !app_assoc. cbn [List.app].
  destruct (is_None job); reflexivity.
Qed.




Example incomplete_job_message :
  RunJob (job_host (VDict job_without_source_path)) "backup.yaml" false [] =
  (Ret false,
   [EvIsFile "backup.yaml"; EvOpen "backup.yaml";
    EvLog ERROR "Configuration problem: Source path not defined (in backup.yaml)"]).
Proof. reflexivity. Qed.

(** Outside the shape of a job description [ValidateJob] is no guard: on a
    section that is null, ['path' not in job['source']] is a [TypeError],
    which no [except] clause of [RunJob] names. *)
Example null_section_raises :
  sections_are_mappings job_with_null_source = false /\
  RunJob (job_host (VDict job_with_null_source)) "backup.yaml" false [] =
  (Raise TypeError, [EvIsFile "backup.yaml"; EvOpen "backup.yaml"]).
Proof. split; reflexivity. Qed.

(** ** Locations *)

Lemma expand_loop_eq (w : World) (vars : list string) (path : string) (tr : trace) :
  expand_loop w vars path tr =
  (Ret (fold_left
          (fun path var =>
             match environ w var with
             | Some value => PyStr.replace ("$" ++ var ++ "$") value path
             | None => path
             end) vars path), tr).
Proof.
  revert path. induction vars as [|var vars IH]; intros path; cbn [expand_loop fold_left].
  - reflexivity.
  - rewrite (bind_ret _ (expand_var_eq w path var tr)). apply IH.
Qed.

Lemma ExpandEnvironmentVars_eq (w : World) (path : string) (tr : trace) :
  ExpandEnvironmentVars w (VStr path) tr = (Ret (expanded w path), tr).
Proof. apply expand_loop_eq. Qed.

(** The resolver leaves no event: its outcome does not depend on the trace. *)
Lemma ResolveDriveLetter_pure (w : World) (section : pyval) (tr : trace) :
  ResolveDriveLetter w section tr = (resolved_drive w section, tr).
Proof.
  unfold resolved_drive, ResolveDriveLetter, py_in, py_getitem,
    FindDriveFromSerial, FindDriveFromName, GetLogicalDrivesFromWMI.
  destruct section as [| | |s|l|d]; try reflexivity.
  - cbv [bind ret raise fst snd].
    destruct (PyStr.contains "serial" s); [reflexivity|]. cbn [truthy].
    destruct (PyStr.contains "name" s); reflexivity.
  - cbv [bind ret raise fst snd].
    destruct (existsb _ l); [reflexivity|]. cbn [truthy].
    destruct (existsb _ l); reflexivity.
  - destruct (wmi_disks w) as [disks|]; cbv [bind ret raise fst snd].
    + destruct (lookup "serial" d) as [serial|].
      * destruct (truthy (serial_loop serial disks)); [reflexivity|].
        destruct (lookup "name" d) as [name|]; [|reflexivity].
        destruct (truthy (name_loop name disks)); reflexivity.
      * cbn [truthy].
        destruct (lookup "name" d) as [name|]; [|reflexivity].
        destruct (truthy (name_loop name disks)); reflexivity.
    + destruct (lookup "serial" d) as [serial|]; [reflexivity|]. cbn [truthy].
      destruct (lookup "name" d) as [name|]; reflexivity.
Qed.

Lemma py_getitem_found (d : dict) (key : string) (v : pyval) (tr : trace) :
  lookup key d = Some v -> py_getitem (VDict d) key tr = (Ret v, tr).
Proof. intros H. unfold py_getitem. rewrite H. reflexivity. Qed.

Lemma py_getitem_missing (d : dict) (key : string) (tr : trace) :
  lookup key d = None -> py_getitem (VDict d) key tr = (Raise (KeyError key), tr).
Proof. intros H. unfold py_getitem. rewrite H. reflexivity. Qed.

(** [ParseLocations] on a validated job, side by side. *)
Lemma ParseLocations_eq
  (w : World) (d s t : dict) (sp tp : string) (run : RunSettings) (tr : trace) :
  lookup "source" d = Some (VDict s) ->
  lookup "destination" d = Some (VDict t) ->
  lookup "path" s = Some (VStr sp) ->
  lookup "path" t = Some (VStr tp) ->
  ParseLocations w (VDict d) run tr =
  match resolve_side w s (expanded w sp) with
  | Raise e => (Raise e, tr)
  | Ret (src, sdrive) =>
      match resolve_side w t (expanded w tp) with
      | Raise e => (Raise e, tr)
      | Ret (dst, ddrive) =>
          if path_exists w src
          then (Ret (set_dst (set_src run (Some src) (Some sdrive)) (Some dst) (Some ddrive)),
                (tr ++ [EvExists src])%list)
          else (Raise (RoboException ("Source doesn't exist: " ++ src)),
                (tr ++ [EvExists src])%list)
      end
  end.
Proof.
  intros Hs Ht Hsp Htp. unfold ParseLocations.
  rewrite (bind_ret _ (py_getitem_found d "source" _ tr Hs)).
  rewrite (bind_ret _ (py_getitem_found s "path" _ tr Hsp)).
  rewrite (bind_ret _ (ExpandEnvironmentVars_eq w sp tr)).
  rewrite (bind_ret _ (py_getitem_found d "destination" _ tr Ht)).
  rewrite (bind_ret _ (py_getitem_found t "path" _ tr Htp)).
  rewrite (bind_ret _ (ExpandEnvironmentVars_eq w tp tr)).
  unfold resolve_side. cbv [bind ret py_keys].
  destruct (has_identity (map fst s)).
  - rewrite (ResolveDriveLetter_pure w (VDict s) tr).
    destruct (resolved_drive w (VDict s)) as [sdrive|e]; [|reflexivity].
    cbv beta iota.
    destruct (has_identity (map fst t)).
    + rewrite (ResolveDriveLetter_pure w (VDict t) tr).
      destruct (resolved_drive w (VDict t)) as [ddrive|e]; [|reflexivity].
      cbv [raise run_key set_src set_dst src_path os_path_exists emit bind ret].
      destruct (path_exists w _); reflexivity.
    + cbv [raise run_key set_src set_dst src_path os_path_exists emit bind ret].
      destruct (path_exists w _); reflexivity.
  - destruct (has_identity (map fst t)).
    + rewrite (ResolveDriveLetter_pure w (VDict t) tr).
      destruct (resolved_drive w (VDict t)) as [ddrive|e]; [|reflexivity].
      cbv [raise run_key set_src set_dst src_path os_path_exists emit bind ret].
      destruct (path_exists w _); reflexivity.
    + cbv [raise run_key set_src set_dst src_path os_path_exists emit bind ret].
      destruct (path_exists w _); reflexivity.
Qed.




(** The source must exist; nothing asks whether the destination does. *)
Example ParseLocations_missing_source :
  ParseLocations
    {| environ := environ homedrive_world; isfile := isfile homedrive_world;
       path_exists := fun path => negb (String.eqb path "C:\data");
       open_file := open_file homedrive_world; wmi_disks := wmi_disks homedrive_world;
       clock := clock homedrive_world; popen := popen homedrive_world;
       splitdrive := nt_splitdrive; path_join := String.concat "";
       strftime := strftime homedrive_world; str_of := str_of homedrive_world |}
    (VDict homedrive_job) (default_run 0) [] =
  (Raise (RoboException "Source doesn't exist: C:\data"), [EvExists "C:\data"]).
Proof. reflexivity. Qed.

(** ** Settings *)

Lemma DefaultJobSettings_eq (w : World) (tr : trace) :
  DefaultJobSettings w tr = (Ret (default_run (clock w (clock_reads tr))), (tr ++ [EvNow])%list).
Proof. reflexivity. Qed.

Lemma ParseSettings_eq (d : dict) (run : RunSettings) (tr : trace) :
  ParseSettings (VDict d) run tr = (time_format_setting d run, tr).
Proof.
  unfold ParseSettings, time_format_setting, try_except, bind, py_getitem.
  destruct (lookup "settings" d) as [[| | | | |settings]|]; try reflexivity.
  cbv [ret raise]. destruct (lookup "time_format" settings); reflexivity.
Qed.

Lemma SubstitutePath_eq (w : World) (template : string) (run : RunSettings)
  (src dst sdrive ddrive fmt : string) (tr : trace) :
  src_path run = Some src -> dst_path run = Some dst ->
  src_drive run = Some sdrive -> dst_drive run = Some ddrive ->
  time_format run = VStr fmt ->
  SubstitutePath w (VStr template) run tr =
  (Ret (log_path_of w src dst sdrive ddrive (strftime w (time run) fmt) template), tr).
Proof.
  intros H1 H2 H3 H4 H5. unfold SubstitutePath. rewrite H1, H2, H3, H4, H5.
  cbv [run_key bind ret]. apply ExpandEnvironmentVars_eq.
Qed.

Lemma SubstitutePath_bad_format (w : World) (template : string) (run : RunSettings)
  (src dst sdrive ddrive : string) (tr : trace) :
  src_path run = Some src -> dst_path run = Some dst ->
  src_drive run = Some sdrive -> dst_drive run = Some ddrive ->
  (forall fmt, time_format run <> VStr fmt) ->
  SubstitutePath w (VStr template) run tr = (Raise TypeError, tr).
Proof.
  intros H1 H2 H3 H4 H5. unfold SubstitutePath. rewrite H1, H2, H3, H4.
  cbv [run_key bind ret raise].
  destruct (time_format run) as [| | |fmt| |]; try reflexivity.
  exfalso. apply (H5 fmt). reflexivity.
Qed.

Lemma try_options_eq (d robocopy : dict) (run : RunSettings) (tr : trace) :
  lookup "robocopy" d = Some (VDict robocopy) ->
  try_except
    (robocopy <- py_getitem (VDict d) "robocopy" ;;
     opts <- py_getitem robocopy "options" ;;
     tokens <- py_split opts ;;
     ret (set_options run tokens))
    (except_KeyError (ret run)) tr =
  (options_setting robocopy run, tr).
Proof.
  intros Hr. unfold try_except, options_setting.
  rewrite (bind_ret _ (py_getitem_found d "robocopy" _ tr Hr)).
  destruct (lookup "options" robocopy) as [opts|] eqn:Ho.
  - rewrite (bind_ret _ (py_getitem_found robocopy "options" _ tr Ho)).
    destruct opts; reflexivity.
  - rewrite (bind_raise _ (py_getitem_missing robocopy "options" tr Ho)). reflexivity.
Qed.

Lemma try_files_eq (d robocopy : dict) (run : RunSettings) (tr : trace) :
  lookup "robocopy" d = Some (VDict robocopy) ->
  try_except
    (robocopy <- py_getitem (VDict d) "robocopy" ;;
     files <- py_getitem robocopy "files" ;;
     ret (set_file_types run files))
    (except_KeyError (ret run)) tr =
  (Ret (files_setting robocopy run), tr).
Proof.
  intros Hr. unfold try_except, files_setting.
  rewrite (bind_ret _ (py_getitem_found d "robocopy" _ tr Hr)).
  destruct (lookup "files" robocopy) as [files|] eqn:Hf.
  - rewrite (bind_ret _ (py_getitem_found robocopy "files" _ tr Hf)). reflexivity.
  - rewrite (bind_raise _ (py_getitem_missing robocopy "files" tr Hf)). reflexivity.
Qed.

Lemma try_log_eq (w : World) (d robocopy : dict) (run : RunSettings)
  (src dst sdrive ddrive : string) (tr : trace) :
  lookup "robocopy" d = Some (VDict robocopy) ->
  src_path run = Some src -> dst_path run = Some dst ->
  src_drive run = Some sdrive -> dst_drive run = Some ddrive ->
  try_except
    (robocopy <- py_getitem (VDict d) "robocopy" ;;
     template <- py_getitem robocopy "log" ;;
     log_path <- SubstitutePath w template run ;;
     log DEBUG ("Log will be saved to: " ++ log_path) ;;
     ret (set_options run (options run ++ [("/LOG:" ++ log_path)%string])%list))
    (except_KeyError (ret run)) tr =
  match lookup "log" robocopy with
  | None => (Ret run, tr)
  | Some (VStr template) =>
      match time_format run with
      | VStr fmt =>
          let log_path :=
            log_path_of w src dst sdrive ddrive (strftime w (time run) fmt) template in
          (Ret (set_options run (options run ++ [("/LOG:" ++ log_path)%string])%list),
           (tr ++ [EvLog DEBUG ("Log will be saved to: " ++ log_path)])%list)
      | _ => (Raise TypeError, tr)
      end
  | Some _ => (Raise AttributeError, tr)
  end.
Proof.
  intros Hr H1 H2 H3 H4. unfold try_except.
  rewrite (bind_ret _ (py_getitem_found d "robocopy" _ tr Hr)).
  destruct (lookup "log" robocopy) as [template|] eqn:Hl.
  - rewrite (bind_ret _ (py_getitem_found robocopy "log" _ tr Hl)).
    destruct template as [| | |template| |]; try reflexivity.
    destruct (time_format run) as [| | |fmt| |] eqn:Hf;
      try (rewrite (bind_raise _ (SubstitutePath_bad_format w template run
                                    src dst sdrive ddrive tr H1 H2 H3 H4
                                    ltac:(rewrite Hf; discriminate)));
           reflexivity).
    rewrite (bind_ret _ (SubstitutePath_eq w template run src dst sdrive ddrive fmt tr
                           H1 H2 H3 H4 Hf)).
    reflexivity.
  - rewrite (bind_raise _ (py_getitem_missing robocopy "log" tr Hl)). reflexivity.
Qed.

(** [ParseRobocopyOptions] on a job whose locations are resolved. *)
Lemma ParseRobocopyOptions_eq (w : World) (d : dict) (run : RunSettings)
  (src dst sdrive ddrive : string) (tr : trace) :
  src_path run = Some src -> dst_path run = Some dst ->
  src_drive run = Some sdrive -> dst_drive run = Some ddrive ->
  ParseRobocopyOptions w (VDict d) run tr =
  match lookup "robocopy" d with
  | None => (Ret run, tr)
  | Some (VDict robocopy) =>
      match options_setting robocopy run with
      | Raise e => (Raise e, tr)
      | Ret run1 =>
          match lookup "log" robocopy with
          | None => (Ret (files_setting robocopy run1), tr)
          | Some (VStr template) =>
              match time_format run with
              | VStr fmt =>
                  let log_path :=
                    log_path_of w src dst sdrive ddrive (strftime w (time run) fmt) template in
                  (Ret (files_setting robocopy
                          (set_options run1
                             (options run1 ++ [("/LOG:" ++ log_path)%string])%list)),
                   (tr ++ [EvLog DEBUG ("Log will be saved to: " ++ log_path)])%list)
              | _ => (Raise TypeError, tr)
              end
          | Some _ => (Raise AttributeError, tr)
          end
      end
  | Some _ => (Raise TypeError, tr)
  end.
Proof.
  intros H1 H2 H3 H4. unfold ParseRobocopyOptions.
  destruct (lookup "robocopy" d) as [robocopy|] eqn:Hr.
  2:{ pose proof (py_getitem_missing d "robocopy" tr Hr) as Hm.
      rewrite (bind_ret (a := run) (tr' := tr) _
                 (try_caught _ (bind_raise _ Hm) eq_refl)).
      rewrite (bind_ret (a := run) (tr' := tr) _
                 (try_caught _ (bind_raise _ Hm) eq_refl)).
      apply (try_caught _ (bind_raise _ Hm) eq_refl). }
  destruct robocopy as [| | | | |robocopy];
    try (unfold try_except, bind, py_getitem; rewrite Hr; reflexivity).
  unfold bind at 1. rewrite (try_options_eq d robocopy run tr Hr).
  unfold options_setting.
  assert (Hrest : forall run1,
             src_path run1 = Some src -> dst_path run1 = Some dst ->
             src_drive run1 = Some sdrive -> dst_drive run1 = Some ddrive ->
             time_format run1 = time_format run -> time run1 = time run ->
             (run2 <- try_except
                        (robocopy <- py_getitem (VDict d) "robocopy" ;;
                         template <- py_getitem robocopy "log" ;;
                         log_path <- SubstitutePath w template run1 ;;
                         log DEBUG ("Log will be saved to: " ++ log_path) ;;
                         ret (set_options run1
                                (options run1 ++ [("/LOG:" ++ log_path)%string])%list))
                        (except_KeyError (ret run1)) ;;
              try_except
                (robocopy <- py_getitem (VDict d) "robocopy" ;;
                 files <- py_getitem robocopy "files" ;;
                 ret (set_file_types run2 files))
                (except_KeyError (ret run2))) tr =
             match lookup "log" robocopy with
             | None => (Ret (files_setting robocopy run1), tr)
             | Some (VStr template) =>
                 match time_format run with
                 | VStr fmt =>
                     let log_path :=
                       log_path_of w src dst sdrive ddrive (strftime w (time run) fmt)
                         template in
                     (Ret (files_setting robocopy
                             (set_options run1
                                (options run1 ++ [("/LOG:" ++ log_path)%string])%list)),
                      (tr ++ [EvLog DEBUG ("Log will be saved to: " ++ log_path)])%list)
                 | _ => (Raise TypeError, tr)
                 end
             | Some _ => (Raise AttributeError, tr)
             end).
  { intros run1 S1 S2 S3 S4 S5 S6. unfold bind at 1.
    rewrite (try_log_eq w d robocopy run1 src dst sdrive ddrive tr Hr S1 S2 S3 S4).
    rewrite S5, S6.
    destruct (lookup "log" robocopy) as [[| | |template| |]|]; try reflexivity.
    - destruct (time_format run); try reflexivity. apply (try_files_eq d robocopy _ _ Hr).
    - apply (try_files_eq d robocopy _ _ Hr). }
  destruct (lookup "options" robocopy) as [[| | |tokens| |]|]; try reflexivity.
  - apply Hrest; assumption || reflexivity.
  - apply Hrest; assumption || reflexivity.
Qed.

(** ** Building the resolved job *)

Lemma clock_reads_app (tr evs : trace) :
  clock_reads (tr ++ evs)%list = clock_reads tr + clock_reads evs.
Proof. unfold clock_reads. rewrite filter_app, length_app. reflexivity. Qed.

(** What a successful [BuildJob] went through. *)
Lemma BuildJob_ret (w : World) (d s t : dict) (sp tp : string) (tr tr' : trace)
  (run : RunSettings) :
  lookup "source" d = Some (VDict s) ->
  lookup "destination" d = Some (VDict t) ->
  lookup "path" s = Some (VStr sp) ->
  lookup "path" t = Some (VStr tp) ->
  BuildJob w (VDict d) tr = (Ret run, tr') ->
  exists run1 src sdrive dst ddrive,
    time_format_setting d (default_run (clock w (clock_reads tr))) = Ret run1 /\
    resolve_side w s (expanded w sp) = Ret (src, sdrive) /\
    resolve_side w t (expanded w tp) = Ret (dst, ddrive) /\
    path_exists w src = true /\
    ParseRobocopyOptions w (VDict d)
      (set_dst (set_src run1 (Some src) (Some sdrive)) (Some dst) (Some ddrive))
      (tr ++ [EvNow; EvExists src])%list = (Ret run, tr').
Proof.
  intros Hs Ht Hsp Htp H. unfold BuildJob in H.
  rewrite (bind_ret _ (DefaultJobSettings_eq w tr)) in H.
  unfold bind at 1 in H. rewrite ParseSettings_eq in H.
  destruct (time_format_setting d (default_run (clock w (clock_reads tr)))) as [run1|e];
    [|discriminate].
  unfold bind at 1 in H.
  rewrite (ParseLocations_eq w d s t sp tp run1 _ Hs Ht Hsp Htp) in H.
  destruct (resolve_side w s (expanded w sp)) as [[src sdrive]|e]; [|discriminate].
  destruct (resolve_side w t (expanded w tp)) as [[dst ddrive]|e]; [|discriminate].
  destruct (path_exists w src) eqn:Hex; [|discriminate].
  rewrite <- app_assoc in H. cbn [List.app] in H.
  exists run1, src, sdrive, dst, ddrive. repeat split; assumption || reflexivity.
Qed.

Lemma time_format_setting_time (d : dict) (run run1 : RunSettings) :
  time_format_setting d run = Ret run1 ->
  time run1 = time run /\ options run1 = options run /\ file_types run1 = file_types run.
Proof.
  unfold time_format_setting. intros H.
  destruct (lookup "settings" d) as [[| | | | |settings]|]; try discriminate.
  - destruct (lookup "time_format" settings); injection H as <-; repeat split.
  - injection H as <-. repeat split.
Qed.

(** What a successful [ParseRobocopyOptions] leaves of a located job: the
    locations, the time and its format stay; the trace grows by at most the
    note about the log; a log template adds the last option. *)
Lemma ParseRobocopyOptions_ret (w : World) (d : dict) (run run' : RunSettings)
  (src dst sdrive ddrive : string) (tr tr' : trace) :
  src_path run = Some src -> dst_path run = Some dst ->
  src_drive run = Some sdrive -> dst_drive run = Some ddrive ->
  ParseRobocopyOptions w (VDict d) run tr = (Ret run', tr') ->
  src_path run' = Some src /\ dst_path run' = Some dst /\
  src_drive run' = Some sdrive /\ dst_drive run' = Some ddrive /\
  time run' = time run /\ time_format run' = time_format run /\
  (tr' = tr \/ exists msg, tr' = (tr ++ [EvLog DEBUG msg])%list) /\
  (forall robocopy template,
      lookup "robocopy" d = Some (VDict robocopy) ->
      lookup "log" robocopy = Some (VStr template) ->
      exists fmt before,
        time_format run = VStr fmt /\
        options run' =
        (before ++ [("/LOG:" ++ log_path_of w src dst sdrive ddrive
                                  (strftime w (time run) fmt) template)%string])%list).
Proof.
  intros H1 H2 H3 H4 H.
  rewrite (ParseRobocopyOptions_eq w d run src dst sdrive ddrive tr H1 H2 H3 H4) in H.
  destruct (lookup "robocopy" d) as [[| | | | |robocopy]|]; try discriminate.
  2:{ injection H as <- <-. repeat split; try assumption.
      - left. reflexivity.
      - intros robocopy template Hr. discriminate. }
  assert (Hfiles : forall r, src_path (files_setting robocopy r) = src_path r /\
                             dst_path (files_setting robocopy r) = dst_path r /\
                             src_drive (files_setting robocopy r) = src_drive r /\
                             dst_drive (files_setting robocopy r) = dst_drive r /\
                             time (files_setting robocopy r) = time r /\
                             time_format (files_setting robocopy r) = time_format r /\
                             options (files_setting robocopy r) = options r).
  { intros r. unfold files_setting. destruct (lookup "files" robocopy); repeat split. }
  assert (Hopts : forall run1, options_setting robocopy run = Ret run1 ->
                    src_path run1 = src_path run /\ dst_path run1 = dst_path run /\
                    src_drive run1 = src_drive run /\ dst_drive run1 = dst_drive run /\
                    time run1 = time run /\ time_format run1 = time_format run).
  { intros run1 Ho. unfold options_setting in Ho.
    destruct (lookup "options" robocopy) as [[| | |tokens| |]|]; try discriminate;
      injection Ho as <-; repeat split. }
  destruct (options_setting robocopy run) as [run1|e]; [|discriminate].
  destruct (Hopts run1 eq_refl) as (O1 & O2 & O3 & O4 & O5 & O6).
  destruct (lookup "log" robocopy) as [[| | |template| |]|] eqn:Hlog; try discriminate.
  - destruct (time_format run) as [| | |fmt| |] eqn:Hf; try discriminate.
    cbv zeta in H. injection H as <- <-.
    match goal with
    | |- context [files_setting robocopy ?r] =>
        destruct (Hfiles r) as (F1 & F2 & F3 & F4 & F5 & F6 & F7)
    end.
    rewrite F1, F2, F3, F4, F5, F6, F7. cbn [set_options src_path dst_path src_drive
                                          dst_drive time time_format options].
    rewrite O1, O2, O3, O4, O5, O6. repeat split; try assumption.
    + right. eexists. reflexivity.
    + intros robocopy' template' Hr Hl. injection Hr as <-.
      rewrite Hlog in Hl. injection Hl as <-.
      exists fmt, (options run1). split; reflexivity.
  - injection H as <- <-.
    destruct (Hfiles run1) as (F1 & F2 & F3 & F4 & F5 & F6 & F7).
    rewrite F1, F2, F3, F4, F5, F6. rewrite O1, O2, O3, O4, O5, O6.
    repeat split; try assumption.
    + left. reflexivity.
    + intros robocopy' template' Hr Hl. injection Hr as <-.
      rewrite Hlog in Hl. discriminate.
Qed.

Example BuildJob_dated :
  BuildJob dated_world (VDict dated_job) [] = (Ret dated_run, dated_trace).
Proof. reflexivity. Qed.

(** C7 (amended).  Building a resolved job reads the clock exactly once, in
    [DefaultJobSettings], and [time] is that reading.  [$timestamp$] is
    expanded in one place, the log path template: the option that
    [robocopy.log] adds is [/LOG:] followed by the template in which the
    location placeholders, then [$timestamp$] (the time of the run in the
    format of the job), then the environment variables are replaced.  The
    source and destination paths are the sides resolved from the paths
    with their environment variables expanded; the time does not enter
    them. *)
Theorem one_timestamp_per_job
  (w : World) (d s t : dict) (sp tp : string) (tr tr' : trace) (run : RunSettings) :
  lookup "source" d = Some (VDict s) ->
  lookup "destination" d = Some (VDict t) ->
  lookup "path" s = Some (VStr sp) ->
  lookup "path" t = Some (VStr tp) ->
  BuildJob w (VDict d) tr = (Ret run, tr') ->
  clock_reads tr' = S (clock_reads tr) /\
  time run = clock w (clock_reads tr) /\
  exists src sdrive dst ddrive,
    resolve_side w s (expanded w sp) = Ret (src, sdrive) /\
    resolve_side w t (expanded w tp) = Ret (dst, ddrive) /\
    src_path run = Some src /\ dst_path run = Some dst /\
    forall robocopy template,
      lookup "robocopy" d = Some (VDict robocopy) ->
      lookup "log" robocopy = Some (VStr template) ->
      exists fmt before,
        time_format run = VStr fmt /\
        options run =
        (before ++ [("/LOG:" ++ log_path_of w src dst sdrive ddrive
                                  (strftime w (time run) fmt) template)%string])%list.
Proof.
  intros Hs Ht Hsp Htp H.
  destruct (BuildJob_ret w d s t sp tp tr tr' run Hs Ht Hsp Htp H)
    as (run1 & src & sdrive & dst & ddrive & Hfmt & Hsrc & Hdst & Hex & Hopt).
  destruct (time_format_setting_time d _ run1 Hfmt) as (Htime & _ & _).
  destruct (ParseRobocopyOptions_ret w d
              (set_dst (set_src run1 (Some src) (Some sdrive)) (Some dst) (Some ddrive))
              run src dst sdrive ddrive _ tr'
              eq_refl eq_refl eq_refl eq_refl Hopt)
    as (P1 & P2 & P3 & P4 & P5 & P6 & Ptr & Plog).
  cbn [set_dst set_src time time_format] in P5, P6, Plog.
  split; [|split].
  - destruct Ptr as [-> | [msg ->]]; rewrite ?clock_reads_app; cbn; lia.
  - rewrite P5, Htime. reflexivity.
  - exists src, sdrive, dst, ddrive. repeat split; try assumption.
    intros robocopy template Hr Hl.
    destruct (Plog robocopy template Hr Hl) as (fmt & before & Hf & Ho).
    exists fmt, before. rewrite P5, P6. split; assumption.
Qed.

(** The dated job: one reading of the clock, the log path dated with it. *)
Lemma one_timestamp_per_job_witness :
  clock_reads dated_trace = 1 /\
  time dated_run = clock dated_world 0 /\
  exists src sdrive dst ddrive,
    resolve_side dated_world [("path", VStr "C:\data")] (expanded dated_world "C:\data")
    = Ret (src, sdrive) /\
    resolve_side dated_world [("path", VStr "F:\backup\$timestamp$")]
      (expanded dated_world "F:\backup\$timestamp$") = Ret (dst, ddrive) /\
    src_path dated_run = Some src /\ dst_path dated_run = Some dst /\
    forall robocopy template,
      lookup "robocopy" dated_job = Some (VDict robocopy) ->
      lookup "log" robocopy = Some (VStr template) ->
      exists fmt before,
        time_format dated_run = VStr fmt /\
        options dated_run =
        (before ++ [("/LOG:" ++ log_path_of dated_world src dst sdrive ddrive
                                  (strftime dated_world (time dated_run) fmt)
                                  template)%string])%list.
Proof.
  exact (one_timestamp_per_job dated_world dated_job
           [("path", VStr "C:\data")] [("path", VStr "F:\backup\$timestamp$")]
           "C:\data" "F:\backup\$timestamp$" [] dated_trace dated_run
           eq_refl eq_refl eq_refl eq_refl eq_refl).
Defined.

(** The specification's example of a log path. *)
Example log_path_example :
  log_path_of dated_world "C:\data" "F:\backup" "C:" "F:" "20240305"
    "$dst_drive$\logs\$timestamp$.log" = "F:\logs\20240305.log".
Proof. reflexivity. Qed.

(** The destination of the dated job keeps the token [$timestamp$]: the
    resolved path is not the path with the time of the run in it. *)
Lemma timestamp_in_destination_fails : ~ timestamp_in_destination dated_world dated_job.
Proof.
  intros H.
  specialize (H [("path", VStr "F:\backup\$timestamp$")] "F:\backup\$timestamp$"
                dated_run [] dated_trace "%Y%m%d" "F:\backup\$timestamp$"
                eq_refl eq_refl eq_refl eq_refl eq_refl eq_refl).
  discriminate H.
Qed.

(** ** From the loaded job to Robocopy *)

Lemma CheckFlag_gate (w : World) (section : dict) (drive : string) (tr : trace) :
  flag_is_text section = true ->
  fst (splitdrive w drive) = drive ->
  CheckFlag w (VDict section) drive tr =
  (Ret (fst (gate w section drive tr)), snd (gate w section drive tr)).
Proof.
  intros Hflag Hdrive. unfold gate, flag_on_drive, flag_is_text in *.
  destruct (lookup "flag" section) as [[| | |template| |]|] eqn:Hl; try discriminate.
  - rewrite (CheckFlag_flag w section drive template tr Hl).
    rewrite Hdrive. reflexivity.
  - rewrite (CheckFlag_no_flag w section drive tr Hl). reflexivity.
Qed.

Lemma RunChecked_eq (w : World) (d s t : dict) (run : RunSettings) (dry_run : bool)
  (sdrive ddrive : string) (tr : trace) :
  lookup "source" d = Some (VDict s) ->
  lookup "destination" d = Some (VDict t) ->
  src_drive run = Some sdrive ->
  dst_drive run = Some ddrive ->
  flag_is_text s = true ->
  flag_is_text t = true ->
  fst (splitdrive w sdrive) = sdrive ->
  fst (splitdrive w ddrive) = ddrive ->
  RunChecked w (VDict d) run dry_run tr =
  if fst (gate w s sdrive tr) then
    if fst (gate w t ddrive (snd (gate w s sdrive tr))) then
      DoRobocopy w run dry_run (snd (gate w t ddrive (snd (gate w s sdrive tr))))
    else
      (Ret false,
       (snd (gate w t ddrive (snd (gate w s sdrive tr)))
        ++ [EvLog ERROR "Could not find destination safety flag"])%list)
  else
    (Ret false,
     (snd (gate w s sdrive tr) ++ [EvLog ERROR "Could not find source safety flag"])%list).
Proof.
  intros Hs Ht Hsd Hdd Hfs Hft Hfix1 Hfix2. unfold RunChecked.
  rewrite (bind_ret _ (py_getitem_found d "source" _ tr Hs)).
  rewrite Hsd, Hdd. cbn [run_key].
  rewrite (bind_ret (a := sdrive) (tr' := tr) _ eq_refl).
  rewrite (bind_ret _ (CheckFlag_gate w s sdrive tr Hfs Hfix1)).
  destruct (fst (gate w s sdrive tr)); cbn [negb]; [|reflexivity].
  rewrite (bind_ret _ (py_getitem_found d "destination" _ _ Ht)).
  rewrite (bind_ret (a := ddrive) _ eq_refl).
  rewrite (bind_ret _ (CheckFlag_gate w t ddrive _ Hft Hfix2)).
  destruct (fst (gate w t ddrive _)); reflexivity.
Qed.

(** A valid job that [BuildJob] resolves goes on to the safety gate. *)
Lemma RunLoaded_built (w : World) (job_file : string) (d : dict) (name : pyval)
  (dry_run : bool) (run : RunSettings) (tr tr2 : trace) :
  ValidateJob (VDict d) tr = (Ret true, tr) ->
  lookup "name" d = Some name ->
  BuildJob w (VDict d) (tr ++ [EvLog DEBUG ("Loaded job: " ++ format w name)])%list
  = (Ret run, tr2) ->
  RunLoaded w job_file (VDict d) dry_run tr = RunChecked w (VDict d) run dry_run tr2.
Proof.
  intros Hv Hn Hb. unfold RunLoaded.
  rewrite (bind_ret (a := true)
             (tr' := (tr ++ [EvLog DEBUG ("Loaded job: " ++ format w name)])%list) _).
  - cbn [negb].
    rewrite (bind_ret (a := Some run) (tr' := tr2) _); [reflexivity|].
    apply try_ret. rewrite (bind_ret _ Hb). reflexivity.
  - apply try_ret. rewrite (bind_ret _ Hv).
    rewrite (bind_ret _ (py_getitem_found d "name" _ tr Hn)). reflexivity.
Qed.


Lemma ValidateJob_paths (d s t : dict) (name sp tp : pyval) (tr : trace) :
  lookup "name" d = Some name ->
  lookup "source" d = Some (VDict s) ->
  lookup "destination" d = Some (VDict t) ->
  lookup "path" s = Some sp ->
  lookup "path" t = Some tp ->
  ValidateJob (VDict d) tr = (Ret true, tr).
Proof.
  intros Hn Hs Ht Hsp Htp. apply ValidateJob_complete.
  - unfold sections_are_mappings. rewrite Hs, Ht. reflexivity.
  - unfold incomplete. rewrite Hn, Hs, Ht. cbn [absent lacks_path orb].
    rewrite Hsp, Htp. reflexivity.
Qed.

(** [ntpath.splitdrive] finds a drive it has split off whole again. *)
Lemma nt_splitdrive_idem (p : string) :
  fst (nt_splitdrive (fst (nt_splitdrive p))) = fst (nt_splitdrive p).
Proof.
  destruct p as [|c [|c' rest]]; try reflexivity.
  unfold nt_splitdrive.
  destruct c' as [[] [] [] [] [] [] [] []]; reflexivity.
Qed.

(** C10.  In [RunJob] the safety flags are checked with the drive of each
    side ([src_drive], [dst_drive]) as the path argument of [CheckFlag], not
    with the resolved path.  For a drive that [splitdrive] returns whole,
    [$drive$] and [$path$] of a flag template are therefore both replaced by
    that drive: the file probed for a side is [flag_on_drive], a function of
    the template and the drive alone, and the resolved source and
    destination paths do not enter it.  A side without a flag is not
    probed. *)
Theorem flags_are_checked_on_the_drive
  (w : World) (job_file : string) (dry_run : bool) (d s t : dict) (name sp tp : pyval)
  (run : RunSettings) (sdrive ddrive : string) (tr tr2 : trace) :
  isfile w job_file = true ->
  open_file w job_file = Opened (Loaded (VDict d)) ->
  lookup "name" d = Some name ->
  lookup "source" d = Some (VDict s) ->
  lookup "destination" d = Some (VDict t) ->
  lookup "path" s = Some sp ->
  lookup "path" t = Some tp ->
  BuildJob w (VDict d)
    (tr ++ [EvIsFile job_file; EvOpen job_file;
            EvLog DEBUG ("Loaded job: " ++ format w name)])%list = (Ret run, tr2) ->
  src_drive run = Some sdrive ->
  dst_drive run = Some ddrive ->
  flag_is_text s = true ->
  flag_is_text t = true ->
  fst (splitdrive w sdrive) = sdrive ->
  fst (splitdrive w ddrive) = ddrive ->
  RunJob w job_file dry_run tr =
  if fst (gate w s sdrive tr2) then
    if fst (gate w t ddrive (snd (gate w s sdrive tr2))) then
      DoRobocopy w run dry_run (snd (gate w t ddrive (snd (gate w s sdrive tr2))))
    else
      (Ret false,
       (snd (gate w t ddrive (snd (gate w s sdrive tr2)))
        ++ [EvLog ERROR "Could not find destination safety flag"])%list)
  else
    (Ret false,
     (snd (gate w s sdrive tr2) ++ [EvLog ERROR "Could not find source safety flag"])%list).
Proof.
  intros Hf Ho Hn Hs Ht Hsp Htp Hb Hsd Hdd Hfs Hft Hfix1 Hfix2.
  rewrite (RunJob_loaded w job_file dry_run tr (VDict d) Hf Ho). cbn [is_None].
  rewrite (RunLoaded_built w job_file d name dry_run run _ tr2
             (ValidateJob_paths d s t name sp tp _ Hn Hs Ht Hsp Htp) Hn).
  - apply (RunChecked_eq w d s t run dry_run sdrive ddrive tr2); assumption.
  - rewrite <- app_assoc. exact Hb.
Qed.

(** The guarded job in a dry run: the destination flag [$path$\TARGET.FLAG]
    is looked for at [F:\TARGET.FLAG], not under [F:\backup\daily]. *)
Lemma flags_are_checked_on_the_drive_witness :
  RunJob (job_host (VDict guarded_job)) "guarded.yaml" true [] =
  (Ret true,
   [EvIsFile "guarded.yaml"; EvOpen "guarded.yaml"; EvLog DEBUG "Loaded job: guarded";
    EvNow; EvExists "C:\data";
    EvLog DEBUG "Checking flag: C:\SOURCE.FLAG "; EvIsFile "C:\SOURCE.FLAG";
    EvLog DEBUG "Checking flag: F:\TARGET.FLAG "; EvIsFile "F:\TARGET.FLAG";
    EvLog DEBUG "Command: robocopy C:\data F:\backup\daily *.*"]).
Proof.
  rewrite (flags_are_checked_on_the_drive (job_host (VDict guarded_job)) "guarded.yaml"
             true guarded_job
             [("path", VStr "C:\data"); ("flag", VStr "$drive$\SOURCE.FLAG")]
             [("name", VStr "KINGSTON"); ("path", VStr "backup\daily");
              ("flag", VStr "$path$\TARGET.FLAG")]
             (VStr "guarded") (VStr "C:\data") (VStr "backup\daily")
             guarded_run "C:" "F:" []
             [EvIsFile "guarded.yaml"; EvOpen "guarded.yaml";
              EvLog DEBUG "Loaded job: guarded"; EvNow; EvExists "C:\data"]
             eq_refl eq_refl eq_refl eq_refl eq_refl eq_refl eq_refl eq_refl
             eq_refl eq_refl eq_refl eq_refl eq_refl eq_refl).
  reflexivity.
Defined.

(** ** The boundary of [RunJob] *)




Lemma time_format_setting_ok (d : dict) (run : RunSettings) (fmt : string) :
  settings_ok (lookup "settings" d) = true ->
  time_format run = VStr fmt ->
  exists run1 fmt1,
    time_format_setting d run = Ret run1 /\ time_format run1 = VStr fmt1 /\
    file_types run1 = file_types run.
Proof.
  unfold settings_ok, time_format_setting, optional_text. intros Hs Hf.
  destruct (lookup "settings" d) as [[| | | | |settings]|]; try discriminate.
  - destruct (lookup "time_format" settings) as [[| | |fmt1| |]|]; try discriminate.
    + exists (set_time_format run (VStr fmt1)), fmt1. repeat split.
    + exists run, fmt. repeat split. exact Hf.
  - exists run, fmt. repeat split. exact Hf.
Qed.



(** [BuildJob] on a validated job, step by step. *)
Lemma BuildJob_eq (w : World) (d s t : dict) (sp tp : string) (tr : trace) :
  lookup "source" d = Some (VDict s) ->
  lookup "destination" d = Some (VDict t) ->
  lookup "path" s = Some (VStr sp) ->
  lookup "path" t = Some (VStr tp) ->
  BuildJob w (VDict d) tr =
  match time_format_setting d (default_run (clock w (clock_reads tr))) with
  | Raise e => (Raise e, (tr ++ [EvNow])%list)
  | Ret run1 =>
      match resolve_side w s (expanded w sp) with
      | Raise e => (Raise e, (tr ++ [EvNow])%list)
      | Ret (src, sdrive) =>
          match resolve_side w t (expanded w tp) with
          | Raise e => (Raise e, (tr ++ [EvNow])%list)
          | Ret (dst, ddrive) =>
              if path_exists w src then
                ParseRobocopyOptions w (VDict d)
                  (set_dst (set_src run1 (Some src) (Some sdrive)) (Some dst) (Some ddrive))
                  (tr ++ [EvNow; EvExists src])%list
              else
                (Raise (RoboException ("Source doesn't exist: " ++ src)),
                 (tr ++ [EvNow; EvExists src])%list)
          end
      end
  end.
Proof.
  intros Hs Ht Hsp Htp. unfold BuildJob.
  rewrite (bind_ret _ (DefaultJobSettings_eq w tr)).
  unfold bind at 1. rewrite ParseSettings_eq.
  destruct (time_format_setting d (default_run (clock w (clock_reads tr)))) as [run1|e];
    [|reflexivity].
  unfold bind at 1.
  rewrite (ParseLocations_eq w d s t sp tp run1 _ Hs Ht Hsp Htp).
  destruct (resolve_side w s (expanded w sp)) as [[src sdrive]|e]; [|reflexivity].
  destruct (resolve_side w t (expanded w tp)) as [[dst ddrive]|e]; [|reflexivity].
  rewrite <- app_assoc. cbn [List.app].
  destruct (path_exists w src); reflexivity.
Qed.









Example RunJob_dated :
  RunJob dated_world "nightly.yaml" false [] =
  (Ret true,
   [EvIsFile "nightly.yaml"; EvOpen "nightly.yaml"; EvLog DEBUG "Loaded job: nightly";
    EvNow; EvExists "C:\data";
    EvLog DEBUG "Log will be saved to: F:\logs\20240305.log";
    EvLog DEBUG
      "Command: robocopy C:\data F:\backup\$timestamp$ *.* /MIR /R:1 /LOG:F:\logs\20240305.log";
    EvSpawn ["robocopy"; "C:\data"; "F:\backup\$timestamp$"; "*.*"; "/MIR"; "/R:1";
             "/LOG:F:\logs\20240305.log"];
    EvLog DEBUG "Robocopy running (PID: 4242)";
    EvLog DEBUG "Robocopy finished, return code: 1"]).
Proof. reflexivity. Qed.


(** What else the provisos of C6 keep out: a host whose volume query fails,
    a host without Robocopy, and a job whose options are a list. *)
Example RunJob_volume_query_fails :
  fst (RunJob {| environ := environ example_world; isfile := isfile example_world;
                 path_exists := path_exists example_world;
                 open_file := fun _ => Opened (Loaded (VDict guarded_job));
                 wmi_disks := None; clock := clock example_world;
                 popen := popen example_world; splitdrive := nt_splitdrive;
                 path_join := String.concat ""; strftime := strftime example_world;
                 str_of := str_of example_world |} "guarded.yaml" true [])
  = Raise WMIError.
Proof. reflexivity. Qed.

Example RunJob_launch_fails :
  fst (RunJob (with_popen (job_host (VDict guarded_job)) (fun _ => None))
         "guarded.yaml" false [])
  = Raise OSError.
Proof. reflexivity. Qed.

Example RunJob_options_not_a_string :
  fst (RunJob (job_host
                 (VDict [("name", VStr "listed");
                         ("source", VDict [("path", VStr "C:\data")]);
                         ("destination", VDict [("path", VStr "F:\backup")]);
                         ("robocopy", VDict [("options", VList [VStr "/MIR"])])]))
         "listed.yaml" true [])
  = Raise AttributeError.
Proof. reflexivity. Qed.

(** ** Batches *)

Lemma main_loop_step (w : World) (file : string) (dry_run : bool) (job : string)
  (rest : list string) (succeeded failed : nat) (ok : bool) (tr tr' : trace) :
  PyStr.endswith file ".yaml" = true ->
  RunJob w job dry_run (tr ++ [EvLog INFO ("Running job from " ++ job)])%list
  = (Ret ok, tr') ->
  main_loop w file dry_run (job :: rest) succeeded failed tr =
  main_loop w file dry_run rest (one_if ok + succeeded) (one_if (negb ok) + failed)
    (tr' ++ [job_status ok job])%list.
Proof.
  intros Hfile Hrun. cbn [main_loop]. rewrite Hfile.
  cbv [bind log emit] in *. rewrite Hrun. destruct ok; reflexivity.
Qed.

Lemma main_loop_raise (w : World) (file : string) (dry_run : bool) (job : string)
  (rest : list string) (succeeded failed : nat) (e : exn) (tr tr' : trace) :
  PyStr.endswith file ".yaml" = true ->
  RunJob w job dry_run (tr ++ [EvLog INFO ("Running job from " ++ job)])%list
  = (Raise e, tr') ->
  main_loop w file dry_run (job :: rest) succeeded failed tr = (Raise e, tr').
Proof.
  intros Hfile Hrun. cbn [main_loop]. rewrite Hfile.
  cbv [bind log emit] in *. rewrite Hrun. reflexivity.
Qed.

(** When [RunJob] returns for every job, every job is counted. *)
Lemma main_loop_counts (w : World) (file : string) (dry_run : bool) (jobs : list string) :
  PyStr.endswith file ".yaml" = true ->
  (forall job, In job jobs ->
     forall tr, exists ok tr', RunJob w job dry_run tr = (Ret ok, tr')) ->
  forall succeeded failed tr,
  exists succeeded' failed' tr',
    main_loop w file dry_run jobs succeeded failed tr = (Ret (succeeded', failed'), tr') /\
    succeeded' + failed' = List.length jobs + succeeded + failed.
Proof.
  intros Hfile. induction jobs as [|job rest IH]; intros Hall succeeded failed tr.
  - exists succeeded, failed, tr. split; reflexivity.
  - destruct (Hall job (or_introl eq_refl)
                (tr ++ [EvLog INFO ("Running job from " ++ job)])%list) as (ok & tr' & Hrun).
    rewrite (main_loop_step w file dry_run job rest succeeded failed ok tr tr' Hfile Hrun).
    destruct (IH (fun j Hj => Hall j (or_intror Hj))
                (one_if ok + succeeded) (one_if (negb ok) + failed)
                (tr' ++ [job_status ok job])%list) as (s' & f' & tr'' & Hloop & Hsum).
    exists s', f', tr''. split; [exact Hloop|].
    rewrite Hsum. cbn [List.length]. destruct ok; cbn [one_if negb]; lia.
Qed.

(** C9 (amended).  Take a batch of job files for which the extension test
    of the loop lets jobs run ([file], the last path the patterns matched,
    ends in [.yaml], as it does when every file of the batch does).  If the
    second of three job files is malformed, and [RunJob] returns on the
    first and on the third, all three are processed: the first and the
    third are counted by their own outcome, the second as one failure, and
    the tally is reported.  More generally, whenever [RunJob] returns on
    every job of a batch, every job is counted once.  (A job on which
    [RunJob] raises ends the batch, see [main_loop_raise].) *)
Theorem malformed_job_counts_once
  (w : World) (file job1 job2 job3 : string) (dry_run : bool) (exc : string)
  (ok1 ok3 : bool) (tr tr1 tr3 : trace) :
  PyStr.endswith file ".yaml" = true ->
  isfile w job2 = true ->
  open_file w job2 = Opened (YAMLError exc) ->
  RunJob w job1 dry_run (tr ++ [EvLog INFO ("Running job from " ++ job1)])%list
  = (Ret ok1, tr1) ->
  RunJob w job3 dry_run
    (tr1 ++ [job_status ok1 job1;
             EvLog INFO ("Running job from " ++ job2);
             EvIsFile job2; EvOpen job2;
             EvLog ERROR ("YAML error in job file " ++ job2 ++ " (run with -v for debug)");
             EvLog DEBUG ("YAML parser output: " ++ exc);
             EvLog WARNING ("Job status failed " ++ job2);
             EvLog INFO ("Running job from " ++ job3)])%list
  = (Ret ok3, tr3) ->
  run_jobs w file dry_run [job1; job2; job3] tr =
  (Ret (one_if ok1 + one_if ok3, 1 + one_if (negb ok1) + one_if (negb ok3)),
   (tr3 ++ [job_status ok3 job3;
            EvLog INFO ("Finished: "
                        ++ PyStr.of_Z (Z.of_nat (one_if ok1 + one_if ok3))
                        ++ " succeeded and "
                        ++ PyStr.of_Z (Z.of_nat (1 + one_if (negb ok1) + one_if (negb ok3)))
                        ++ " failed")])%list)
  /\
  (forall jobs,
     (forall job, In job jobs ->
        forall tr0, exists ok tr', RunJob w job dry_run tr0 = (Ret ok, tr')) ->
     exists succeeded failed tr',
       run_jobs w file dry_run jobs tr = (Ret (succeeded, failed), tr') /\
       succeeded + failed = List.length jobs).
Proof.
  intros Hfile Hf2 Ho2 Hrun1 Hrun3. split.
  - unfold run_jobs.
    rewrite (bind_ret
               (a := (one_if ok1 + one_if ok3, 1 + one_if (negb ok1) + one_if (negb ok3)))
               (tr' := (tr3 ++ [job_status ok3 job3])%list) _).
    + cbv [bind log emit ret fst snd]. rewrite <- app_assoc. reflexivity.
    + rewrite (main_loop_step w file dry_run job1 _ 0 0 ok1 tr tr1 Hfile Hrun1).
      rewrite (main_loop_step w file dry_run job2 _ _ _ false _ _ Hfile
                 (RunJob_yaml_error w job2 dry_run _ exc Hf2 Ho2)).
      rewrite (main_loop_step w file dry_run job3 _ _ _ ok3 _ tr3 Hfile).
      * cbn [main_loop ret]. f_equal. f_equal.
        destruct ok1, ok3; reflexivity.
      * rewrite <- !app_assoc. exact Hrun3.
  - intros jobs Hall.
    destruct (main_loop_counts w file dry_run jobs Hfile Hall 0 0 tr)
      as (succeeded & failed & tr' & Hloop & Hsum).
    exists succeeded, failed. eexists. split.
    + unfold run_jobs. rewrite (bind_ret _ Hloop). reflexivity.
    + rewrite Hsum. lia.
Qed.

(** The batch of three: the dated job succeeds, the second file is not
    YAML, the third forgot a path; one success and two failures. *)
Lemma malformed_job_counts_once_witness :
  exists tr',
    run_jobs batch_world "third.yaml" false ["first.yaml"; "second.yaml"; "third.yaml"] []
    = (Ret (1, 2), tr').
Proof.
  eexists.
  refine (eq_trans
            (proj1 (malformed_job_counts_once batch_world "third.yaml"
                      "first.yaml" "second.yaml" "third.yaml" false
                      "mapping values are not allowed here" true false [] _ _
                      eq_refl eq_refl eq_refl eq_refl eq_refl)) _).
  reflexivity.
Defined.

(** The first job file cannot be opened for want of file descriptors: the
    batch ends there, and neither the malformed second job nor the third
    is counted. *)
Lemma malformed_job_never_aborts_fails : ~ malformed_job_never_aborts exhausted_batch_world.
Proof.
  intros H.
  destruct (H "first.yaml" "second.yaml" "third.yaml" false
              "mapping values are not allowed here" [] eq_refl eq_refl eq_refl)
    as (tally & tr' & Hrun & _).
  unfold run_jobs in Hrun.
  rewrite (bind_raise _ (main_loop_raise exhausted_batch_world "third.yaml" false
                           "first.yaml" _ 0 0 (IOError EMFILE) [] _ eq_refl eq_refl))
    in Hrun.
  discriminate Hrun.
Qed.

(** The extension test of the loop reads [file], not [job]: when the last
    path that a pattern matched is no [.yaml] file, no job of the batch is
    run. *)
Example extension_test_reads_file :
  run_jobs batch_world "notes.txt" false ["first.yaml"; "second.yaml"; "notes.txt"] [] =
  (Ret (0, 0),
   [EvLog WARNING "Ignoring job with incorrect extension: first.yaml";
    EvLog WARNING "Ignoring job with incorrect extension: second.yaml";
    EvLog WARNING "Ignoring job with incorrect extension: notes.txt";
    EvLog INFO "Finished: 0 succeeded and 0 failed"]).
Proof. reflexivity. Qed.

(** ** Remarks on the provisos *)

(** The resolver tests what it found with [if found:], so a volume that
    matches but has an empty mount path counts as no match; this is why C2
    is stated for volumes that are mounted. *)
Example volume_without_mount_path :
  ResolveDriveLetter
    {| environ := environ example_world; isfile := isfile example_world;
       path_exists := path_exists example_world; open_file := open_file example_world;
       wmi_disks :=
         Some [ {| Name := ""; VolumeSerialNumber := Some "BBBB2222";
                   VolumeName := Some "GHOST" |};
                {| Name := "F:"; VolumeSerialNumber := Some "BBBB2222";
                   VolumeName := Some "KINGSTON" |} ];
       clock := clock example_world; popen := popen example_world;
       splitdrive := nt_splitdrive; path_join := String.concat "";
       strftime := strftime example_world; str_of := str_of example_world |}
    (VDict [("serial", VStr "BBBB2222")]) [] =
  (Raise (RoboException "Couldn't find drive letter, tried: serial: BBBB2222"), []).
Proof. reflexivity. Qed.

(** On the hosts of the examples every drive the script derives from a path
    is one that [splitdrive] returns whole, as C10 asks of the drives. *)
Lemma derived_drive_is_whole (w : World) (path : string) :
  splitdrive w = nt_splitdrive ->
  fst (splitdrive w (fst (splitdrive w path))) = fst (splitdrive w path).
Proof. intros ->. apply nt_splitdrive_idem. Qed.

(** * Further properties of the script *)

(** ** The two scans of the volume list *)

Lemma serial_loop_sound (serial : pyval) (disks : list Volume) (drive : string) :
  serial_loop serial disks = Some drive ->
  exists v, In v disks /\ attr_eq (VolumeSerialNumber v) serial = true /\ Name v = drive.
Proof.
  induction disks as [|u disks IH]; cbn [serial_loop]; intros H.
  - discriminate.
  - destruct (attr_eq (VolumeSerialNumber u) serial) eqn:E.
    + injection H as <-. exists u. repeat split; [left; reflexivity | exact E].
    + destruct (IH H) as (v & Hin & Hv & Hn). exists v. repeat split; [right|..]; assumption.
Qed.

Lemma name_loop_sound (name : pyval) (disks : list Volume) (drive : string) :
  name_loop name disks = Some drive ->
  exists v, In v disks /\ attr_eq (VolumeName v) name = true /\ Name v = drive.
Proof.
  induction disks as [|u disks IH]; cbn [name_loop]; intros H.
  - discriminate.
  - destruct (attr_eq (VolumeName u) name) eqn:E.
    + injection H as <-. exists u. repeat split; [left; reflexivity | exact E].
    + destruct (IH H) as (v & Hin & Hv & Hn). exists v. repeat split; [right|..]; assumption.
Qed.







Lemma truthy_some (found : option string) (drive : string) :
  truthy found = Some drive -> found = Some drive /\ drive <> EmptyString.
Proof.
  destruct found as [[|c s]|]; cbn [truthy]; intros H; try discriminate.
  injection H as <-. split; [reflexivity | discriminate].
Qed.

(** X2.  A drive that [ResolveDriveLetter] returns is never the empty
    string, and it is the name of a listed volume whose serial number is the
    [serial] of the criteria or whose label is their [name]; the resolver
    leaves no event. *)
Theorem ResolveDriveLetter_sound
  (w : World) (disks : list Volume) (d : dict) (drive : string) (tr tr' : trace) :
  wmi_disks w = Some disks ->
  ResolveDriveLetter w (VDict d) tr = (Ret drive, tr') ->
  tr' = tr /\ drive <> EmptyString /\
  exists v, In v disks /\ Name v = drive /\
    ((exists serial, lookup "serial" d = Some serial /\
                     attr_eq (VolumeSerialNumber v) serial = true) \/
     (exists name, lookup "name" d = Some name /\ attr_eq (VolumeName v) name = true)).
Proof.
  intros Hw H. rewrite (resolve_unfold w disks d tr Hw) in H.
  destruct (truthy (match lookup "serial" d with
                    | Some serial => serial_loop serial disks
                    | None => None
                    end)) as [found|] eqn:E1.
  - injection H as <- <-. destruct (truthy_some _ _ E1) as [Hf Hne].
    split; [reflexivity|]. split; [exact Hne|].
    destruct (lookup "serial" d) as [serial|]; [|discriminate].
    destruct (serial_loop_sound serial disks found Hf) as (v & Hin & Hv & Hn).
    exists v. repeat split; try assumption. left. exists serial. split; [reflexivity|exact Hv].
  - destruct (truthy (match lookup "name" d with
                      | Some name => name_loop name disks
                      | None => None
                      end)) as [found|] eqn:E2; [|discriminate].
    injection H as <- <-. destruct (truthy_some _ _ E2) as [Hf Hne].
    split; [reflexivity|]. split; [exact Hne|].
    destruct (lookup "name" d) as [name|]; [|discriminate].
    destruct (name_loop_sound name disks found Hf) as (v & Hin & Hv & Hn).
    exists v. repeat split; try assumption. right. exists name. split; [reflexivity|exact Hv].
Qed.

Lemma ResolveDriveLetter_sound_witness :
  [] = ([] : trace) /\ "F:" <> EmptyString /\
  exists v, In v example_disks /\ Name v = "F:" /\
    ((exists serial, lookup "serial" [("name", VStr "KINGSTON")] = Some serial /\
                     attr_eq (VolumeSerialNumber v) serial = true) \/
     (exists name, lookup "name" [("name", VStr "KINGSTON")] = Some name /\
                   attr_eq (VolumeName v) name = true)).
Proof.
  exact (ResolveDriveLetter_sound example_world example_disks [("name", VStr "KINGSTON")]
           "F:" [] [] eq_refl eq_refl).
Defined.

(** ** The cache of the volume list *)

(** X3.  Once [GetLogicalDrivesFromWMI] has answered, every later call
    gives the same volume list without another query, whatever the host
    would answer by then; a query that fails leaves the cache empty, so the
    next call asks again. *)
Theorem volume_list_is_cached
  (query : nat -> option (list Volume)) (st : Cache.state) :
  (forall disks st',
     Cache.GetLogicalDrivesFromWMI query st = (Ret disks, st') ->
     forall n, Cache.calls query n st' = (repeat (Ret disks) n, st'))
  /\
  (forall e st',
     Cache.GetLogicalDrivesFromWMI query st = (Raise e, st') ->
     Cache.wmiLogicalDisks st' = None /\ Cache.queries st' = S (Cache.queries st) /\
     Cache.GetLogicalDrivesFromWMI query st' =
     match query (S (Cache.queries st)) with
     | Some disks =>
         (Ret disks, {| Cache.wmiLogicalDisks := Some disks;
                        Cache.queries := S (S (Cache.queries st)) |})
     | None =>
         (Raise WMIError, {| Cache.wmiLogicalDisks := None;
                             Cache.queries := S (S (Cache.queries st)) |})
     end).
Proof.
  split.
  - intros disks st' H.
    assert (Hc : Cache.wmiLogicalDisks st' = Some disks).
    { unfold Cache.GetLogicalDrivesFromWMI in H.
      destruct (Cache.wmiLogicalDisks st) as [cached|] eqn:E.
      - injection H as <- <-. exact E.
      - destruct (query (Cache.queries st)); [|discriminate].
        injection H as <- <-. reflexivity. }
    induction n as [|n IH]; cbn [Cache.calls repeat].
    + reflexivity.
    + unfold Cache.GetLogicalDrivesFromWMI at 1. rewrite Hc, IH. reflexivity.
  - intros e st' H. unfold Cache.GetLogicalDrivesFromWMI in H.
    destruct (Cache.wmiLogicalDisks st) as [cached|]; [discriminate|].
    destruct (query (Cache.queries st)); [discriminate|].
    injection H as <- <-. repeat split.
Qed.

(** The second stick is not seen by the calls after the first. *)
Lemma volume_list_is_cached_witness :
  Cache.calls growing_host 3
    {| Cache.wmiLogicalDisks :=
         Some [ {| Name := "C:"; VolumeSerialNumber := Some "AAAA1111";
                   VolumeName := Some "SYSTEM" |} ];
       Cache.queries := 1 |} =
  (repeat (Ret [ {| Name := "C:"; VolumeSerialNumber := Some "AAAA1111";
                    VolumeName := Some "SYSTEM" |} ]) 3,
   {| Cache.wmiLogicalDisks :=
        Some [ {| Name := "C:"; VolumeSerialNumber := Some "AAAA1111";
                  VolumeName := Some "SYSTEM" |} ];
      Cache.queries := 1 |}).
Proof.
  exact (proj1 (volume_list_is_cached growing_host
                  {| Cache.wmiLogicalDisks := None; Cache.queries := 0 |})
           _ _ eq_refl 3).
Defined.

(** ** A failing volume query *)

Lemma has_identity_lookup (section : dict) :
  has_identity (map fst section) = true ->
  lookup "serial" section <> None \/ lookup "name" section <> None.
Proof.
  induction section as [|[k v] rest IH]; cbn [map fst has_identity existsb lookup].
  - discriminate.
  - intros H. apply orb_true_iff in H. destruct H as [H|H].
    + apply orb_true_iff in H. destruct H as [H|H]; rewrite H.
      * left. discriminate.
      * right. discriminate.
    + destruct (IH H) as [Hs|Hn].
      * left. destruct (k =? "serial"); [discriminate | exact Hs].
      * right. destruct (k =? "name"); [discriminate | exact Hn].
Qed.

Lemma resolved_drive_offline (w : World) (section : dict) :
  wmi_disks w = None ->
  has_identity (map fst section) = true ->
  resolved_drive w (VDict section) = Raise WMIError.
Proof.
  intros Hw Hid. unfold resolved_drive, ResolveDriveLetter, py_in, py_getitem,
    FindDriveFromSerial, FindDriveFromName, GetLogicalDrivesFromWMI.
  rewrite Hw. cbv [bind ret raise fst snd].
  destruct (lookup "serial" section) as [serial|] eqn:Es; [reflexivity|].
  cbn [truthy].
  destruct (lookup "name" section) as [name|] eqn:En; [reflexivity|].
  destruct (has_identity_lookup section Hid) as [H|H]; contradiction.
Qed.

(** An exception of [BuildJob] other than [RoboException] leaves [RunJob]. *)
Lemma RunLoaded_build_raises (w : World) (job_file : string) (d : dict) (name : pyval)
  (dry_run : bool) (e : exn) (tr tr2 : trace) :
  ValidateJob (VDict d) tr = (Ret true, tr) ->
  lookup "name" d = Some name ->
  BuildJob w (VDict d) (tr ++ [EvLog DEBUG ("Loaded job: " ++ format w name)])%list
  = (Raise e, tr2) ->
  (forall msg, e <> RoboException msg) ->
  RunLoaded w job_file (VDict d) dry_run tr = (Raise e, tr2).
Proof.
  intros Hv Hn Hb He. unfold RunLoaded.
  rewrite (bind_ret (a := true)
             (tr' := (tr ++ [EvLog DEBUG ("Loaded job: " ++ format w name)])%list) _).
  - cbn [negb]. apply bind_raise. apply (try_passed _ (bind_raise _ Hb)).
    destruct e; try reflexivity. exfalso. apply (He msg). reflexivity.
  - apply try_ret. rewrite (bind_ret _ Hv).
    rewrite (bind_ret _ (py_getitem_found d "name" _ tr Hn)). reflexivity.
Qed.

(** X4.  When the volume query fails, a job that names a volume by serial
    or label on either side does not end in a logged failure: [RunJob]
    raises the error of the query, right after the clock is read, before
    any path is probed. *)
Theorem volume_query_failure_is_fatal
  (w : World) (job_file : string) (dry_run : bool) (d s t : dict)
  (name : pyval) (sp tp : string) (tr : trace) :
  isfile w job_file = true ->
  open_file w job_file = Opened (Loaded (VDict d)) ->
  lookup "name" d = Some name ->
  lookup "source" d = Some (VDict s) ->
  lookup "destination" d = Some (VDict t) ->
  lookup "path" s = Some (VStr sp) ->
  lookup "path" t = Some (VStr tp) ->
  settings_ok (lookup "settings" d) = true ->
  wmi_disks w = None ->
  has_identity (map fst s) || has_identity (map fst t) = true ->
  RunJob w job_file dry_run tr =
  (Raise WMIError,
   (tr ++ [EvIsFile job_file; EvOpen job_file;
           EvLog DEBUG ("Loaded job: " ++ format w name); EvNow])%list).
Proof.
  intros Hf Ho Hn Hs Ht Hsp Htp Hset Hw Hid.
  rewrite (RunJob_loaded w job_file dry_run tr (VDict d) Hf Ho). cbn [is_None].
  apply (RunLoaded_build_raises w job_file d name dry_run WMIError).
  - apply (ValidateJob_paths d s t name (VStr sp) (VStr tp) _ Hn Hs Ht Hsp Htp).
  - exact Hn.
  - rewrite (BuildJob_eq w d s t sp tp _ Hs Ht Hsp Htp).
    destruct (time_format_setting_ok d (default_run (clock w (clock_reads
                ((tr ++ [EvIsFile job_file; EvOpen job_file]) ++
                 [EvLog DEBUG ("Loaded job: " ++ format w name)])%list)))
                "%Y-%m-%dT%H%M%S%z" Hset eq_refl) as (run1 & fmt1 & -> & _).
    unfold resolve_side.
    destruct (has_identity (map fst s)) eqn:E1.
    + rewrite (resolved_drive_offline w s Hw E1). rewrite <- !app_assoc. reflexivity.
    + cbn [orb] in Hid. rewrite Hid.
      rewrite (resolved_drive_offline w t Hw Hid). rewrite <- !app_assoc. reflexivity.
  - discriminate.
Qed.

Lemma volume_query_failure_is_fatal_witness :
  RunJob (offline_world (VDict guarded_job)) "guarded.yaml" true [] =
  (Raise WMIError,
   [EvIsFile "guarded.yaml"; EvOpen "guarded.yaml"; EvLog DEBUG "Loaded job: guarded";
    EvNow]).
Proof.
  exact (volume_query_failure_is_fatal (offline_world (VDict guarded_job)) "guarded.yaml"
           true guarded_job
           [("path", VStr "C:\data"); ("flag", VStr "$drive$\SOURCE.FLAG")]
           [("name", VStr "KINGSTON"); ("path", VStr "backup\daily");
            ("flag", VStr "$path$\TARGET.FLAG")]
           (VStr "guarded") "C:\data" "backup\daily" []
           eq_refl eq_refl eq_refl eq_refl eq_refl eq_refl eq_refl eq_refl eq_refl eq_refl).
Defined.

(** ** More on the safety gate *)



Lemma CheckFlag_probe (w : World) (section : dict) (path : string) (tr : trace) :
  flag_is_text section = true ->
  CheckFlag w (VDict section) path tr =
  (Ret match flag_probe w section path with
       | Some flag => isfile w flag
       | None => true
       end,
   (tr ++ flag_events (flag_probe w section path))%list).
Proof.
  unfold flag_is_text, flag_probe. intros H.
  destruct (lookup "flag" section) as [[| | |template| |]|] eqn:Hl; try discriminate.
  - apply (CheckFlag_flag w section path template tr Hl).
  - cbn [flag_events]. rewrite app_nil_r. apply (CheckFlag_no_flag w section path tr Hl).
Qed.

(** X6.  A safety flag that is not there stops the job before Robocopy, in
    a dry run and in earnest.  When the flag file of the source is missing,
    [RunJob] returns false after logging the error, and the destination is
    not looked at.  When the source passes (no flag, or its file is there)
    and the flag file of the destination is missing, [RunJob] returns false
    as well.  In both cases nothing follows the error entry: no command
    line, no launch. *)
Theorem missing_flag_stops_the_job
  (w : World) (job_file : string) (dry_run : bool) (d s t : dict) (name sp tp : pyval)
  (run : RunSettings) (sdrive ddrive : string) (tr tr2 : trace) :
  isfile w job_file = true ->
  open_file w job_file = Opened (Loaded (VDict d)) ->
  lookup "name" d = Some name ->
  lookup "source" d = Some (VDict s) ->
  lookup "destination" d = Some (VDict t) ->
  lookup "path" s = Some sp ->
  lookup "path" t = Some tp ->
  BuildJob w (VDict d)
    (tr ++ [EvIsFile job_file; EvOpen job_file;
            EvLog DEBUG ("Loaded job: " ++ format w name)])%list = (Ret run, tr2) ->
  src_drive run = Some sdrive ->
  dst_drive run = Some ddrive ->
  flag_is_text s = true ->
  flag_is_text t = true ->
  (forall flag,
     flag_probe w s sdrive = Some flag -> isfile w flag = false ->
     RunJob w job_file dry_run tr =
     (Ret false,
      (tr2 ++ [EvLog DEBUG ("Checking flag: " ++ flag ++ " "); EvIsFile flag;
               EvLog ERROR "Could not find source safety flag"])%list))
  /\
  (forall flag,
     match flag_probe w s sdrive with
     | Some source_flag => isfile w source_flag = true
     | None => True
     end ->
     flag_probe w t ddrive = Some flag -> isfile w flag = false ->
     RunJob w job_file dry_run tr =
     (Ret false,
      (tr2 ++ flag_events (flag_probe w s sdrive)
           ++ [EvLog DEBUG ("Checking flag: " ++ flag ++ " "); EvIsFile flag;
               EvLog ERROR "Could not find destination safety flag"])%list)).
Proof.
  intros Hf Ho Hn Hs Ht Hsp Htp Hb Hsd Hdd Hfs Hft.
  assert (Hrun : RunJob w job_file dry_run tr = RunChecked w (VDict d) run dry_run tr2).
  { rewrite (RunJob_loaded w job_file dry_run tr (VDict d) Hf Ho). cbn [is_None].
    apply (RunLoaded_built w job_file d name dry_run run _ tr2
             (ValidateJob_paths d s t name sp tp _ Hn Hs Ht Hsp Htp) Hn).
    rewrite <- app_assoc. exact Hb. }
  rewrite Hrun. unfold RunChecked.
  rewrite (bind_ret _ (py_getitem_found d "source" _ tr2 Hs)).
  rewrite Hsd, Hdd. cbn [run_key].
  rewrite (bind_ret (a := sdrive) (tr' := tr2) _ eq_refl).
  rewrite (bind_ret _ (CheckFlag_probe w s sdrive tr2 Hfs)).
  split.
  - intros flag Hp Hmiss. rewrite Hp, Hmiss. cbn [negb flag_events].
    cbv [bind log emit ret]. rewrite <- app_assoc. reflexivity.
  - intros flag Hpass Hp Hmiss.
    assert (Hok : match flag_probe w s sdrive with
                  | Some source_flag => isfile w source_flag
                  | None => true
                  end = true).
    { destruct (flag_probe w s sdrive); [exact Hpass | reflexivity]. }
    rewrite Hok. cbn [negb].
    rewrite (bind_ret _ (py_getitem_found d "destination" _ _ Ht)).
    rewrite (bind_ret (a := ddrive) _ eq_refl).
    rewrite (bind_ret _ (CheckFlag_probe w t ddrive _ Hft)).
    rewrite Hp, Hmiss. cbn [negb flag_events].
    cbv [bind log emit ret]. rewrite <- !app_assoc. reflexivity.
Qed.

(** The guarded job when the stick in [F:] is not the one with the flag. *)
Lemma missing_flag_stops_the_job_witness :
  RunJob (with_isfile (job_host (VDict guarded_job))
            (fun path => negb (String.eqb path "F:\TARGET.FLAG")))
    "guarded.yaml" false [] =
  (Ret false,
   [EvIsFile "guarded.yaml"; EvOpen "guarded.yaml"; EvLog DEBUG "Loaded job: guarded";
    EvNow; EvExists "C:\data";
    EvLog DEBUG "Checking flag: C:\SOURCE.FLAG "; EvIsFile "C:\SOURCE.FLAG";
    EvLog DEBUG "Checking flag: F:\TARGET.FLAG "; EvIsFile "F:\TARGET.FLAG";
    EvLog ERROR "Could not find destination safety flag"]).
Proof.
  exact (proj2 (missing_flag_stops_the_job
                  (with_isfile (job_host (VDict guarded_job))
                     (fun path => negb (String.eqb path "F:\TARGET.FLAG")))
                  "guarded.yaml" false guarded_job
                  [("path", VStr "C:\data"); ("flag", VStr "$drive$\SOURCE.FLAG")]
                  [("name", VStr "KINGSTON"); ("path", VStr "backup\daily");
                   ("flag", VStr "$path$\TARGET.FLAG")]
                  (VStr "guarded") (VStr "C:\data") (VStr "backup\daily")
                  guarded_run "C:" "F:" []
                  [EvIsFile "guarded.yaml"; EvOpen "guarded.yaml";
                   EvLog DEBUG "Loaded job: guarded"; EvNow; EvExists "C:\data"]
                  eq_refl eq_refl eq_refl eq_refl eq_refl eq_refl eq_refl eq_refl
                  eq_refl eq_refl eq_refl eq_refl)
           "F:\TARGET.FLAG" eq_refl eq_refl eq_refl).
Defined.

(** ** What a run adds to the trace *)

Section Growth.

Variable P : event -> bool.
Variable w : World.

Hypothesis P_log : forall lvl msg, P (EvLog lvl msg) = false.
Hypothesis P_isfile : forall path, P (EvIsFile path) = false.
Hypothesis P_exists : forall path, P (EvExists path) = false.
Hypothesis P_open : forall path, P (EvOpen path) = false.

Lemma grows_ret (A : Type) (n : nat) (x : A) : grows_by P n (ret x).
Proof. intros tr. exists []. rewrite app_nil_r. split; [reflexivity | cbn; lia]. Qed.

Lemma grows_raise (A : Type) (n : nat) (e : exn) : grows_by P n (raise e : M A).
Proof. intros tr. exists []. rewrite app_nil_r. split; [reflexivity | cbn; lia]. Qed.

Lemma grows_emit (n : nat) (e : event) : P e = false -> grows_by P n (emit e).
Proof.
  intros He tr. exists []. cbn [emit snd]. rewrite filter_app. cbn [filter].
  rewrite He. split; [reflexivity | cbn; lia].
Qed.

Lemma grows_emit_one (n : nat) (e : event) : 1 <= n -> grows_by P n (emit e).
Proof.
  intros Hn tr. cbn [emit snd]. rewrite filter_app. cbn [filter].
  destruct (P e).
  - exists [e]. split; [reflexivity | exact Hn].
  - exists []. split; [reflexivity | cbn; lia].
Qed.

Lemma grows_bind (A B : Type) (n1 n2 : nat) (m : M A) (k : A -> M B) :
  grows_by P n1 m -> (forall x, grows_by P n2 (k x)) -> grows_by P (n1 + n2) (bind m k).
Proof.
  intros Hm Hk tr. destruct (Hm tr) as (evs1 & H1 & L1). unfold bind.
  destruct (m tr) as [[x|e] tr1]; cbn [snd] in *.
  - destruct (Hk x tr1) as (evs2 & H2 & L2).
    exists (evs1 ++ evs2)%list. rewrite H2, H1, <- app_assoc.
    split; [reflexivity | rewrite length_app; lia].
  - exists evs1. split; [exact H1 | lia].
Qed.

Lemma grows_bind0 (A B : Type) (n : nat) (m : M A) (k : A -> M B) :
  grows_by P 0 m -> (forall x, grows_by P n (k x)) -> grows_by P n (bind m k).
Proof. intros Hm Hk. apply (grows_bind _ _ 0 n m k Hm Hk). Qed.

Lemma grows_bind_l (A B : Type) (n : nat) (m : M A) (k : A -> M B) :
  grows_by P n m -> (forall x, grows_by P 0 (k x)) -> grows_by P n (bind m k).
Proof.
  intros Hm Hk tr. destruct (grows_bind _ _ n 0 m k Hm Hk tr) as (evs & H & L).
  exists evs. split; [exact H | lia].
Qed.

Lemma grows_try (A : Type) (n : nat) (body : M A) (handler : exn -> option (M A)) :
  grows_by P n body ->
  (forall e h, handler e = Some h -> grows_by P 0 h) ->
  grows_by P n (try_except body handler).
Proof.
  intros Hb Hh tr. destruct (Hb tr) as (evs1 & H1 & L1). unfold try_except.
  destruct (body tr) as [[x|e] tr1]; cbn [snd] in *.
  - exists evs1. split; assumption.
  - destruct (handler e) as [h|] eqn:E.
    + destruct (Hh e h E tr1) as (evs2 & H2 & L2).
      exists (evs1 ++ evs2)%list. rewrite H2, H1, <- app_assoc.
      split; [reflexivity | rewrite length_app; lia].
    + exists evs1. split; assumption.
Qed.

Lemma grows_try_KeyError (A : Type) (n : nat) (body h : M A) :
  grows_by P n body -> grows_by P 0 h ->
  grows_by P n (try_except body (except_KeyError h)).
Proof.
  intros Hb Hh. apply grows_try; [exact Hb|].
  intros e h' He. destruct e; try discriminate. injection He as <-. exact Hh.
Qed.

Lemma grows_try_RoboException (A : Type) (n : nat) (body : M A) (h : string -> M A) :
  grows_by P n body -> (forall msg, grows_by P 0 (h msg)) ->
  grows_by P n (try_except body (except_RoboException h)).
Proof.
  intros Hb Hh. apply grows_try; [exact Hb|].
  intros e h' He. destruct e; try discriminate. injection He as <-. apply Hh.
Qed.

Lemma grows_log (n : nat) (lvl : level) (msg : string) : grows_by P n (log lvl msg).
Proof. apply grows_emit. apply P_log. Qed.

Ltac neutral :=
  repeat first
    [ apply grows_ret
    | apply grows_raise
    | apply grows_log
    | apply grows_emit; solve [auto]
    | solve [auto]
    | apply grows_try_KeyError
    | apply grows_try_RoboException; [|intros ?]
    | apply grows_bind0; [|intros ?]
    | progress cbv zeta
    | match goal with
      | |- grows_by _ _ (if ?c then _ else _) => destruct c
      | |- grows_by _ _ (match ?x with _ => _ end) => destruct x
      end ].

Lemma grows_py_in (n : nat) (key : string) (v : pyval) : grows_by P n (py_in key v).
Proof. unfold py_in. neutral. Qed.

Lemma grows_py_getitem (n : nat) (v : pyval) (key : string) :
  grows_by P n (py_getitem v key).
Proof. unfold py_getitem. neutral. Qed.

Lemma grows_py_keys (n : nat) (v : pyval) : grows_by P n (py_keys v).
Proof. unfold py_keys. neutral. Qed.

Lemma grows_py_replace (n : nat) (v : pyval) (old new : string) :
  grows_by P n (py_replace v old new).
Proof. unfold py_replace. neutral. Qed.

Lemma grows_py_split (n : nat) (v : pyval) : grows_by P n (py_split v).
Proof. unfold py_split. neutral. Qed.

Lemma grows_run_key (n : nat) (key : string) (field : option string) :
  grows_by P n (run_key key field).
Proof. unfold run_key. neutral. Qed.

Lemma grows_os_environ (n : nat) (var : string) : grows_by P n (os_environ w var).
Proof. unfold os_environ. neutral. Qed.

Lemma grows_isfile (n : nat) (path : string) : grows_by P n (os_path_isfile w path).
Proof. unfold os_path_isfile. neutral. Qed.

Lemma grows_exists (n : nat) (path : string) : grows_by P n (os_path_exists w path).
Proof. unfold os_path_exists. neutral. Qed.

Lemma grows_open (n : nat) (path : string) : grows_by P n (open_ w path).
Proof. unfold open_. neutral. Qed.

Hint Resolve grows_py_in grows_py_getitem grows_py_keys grows_py_replace grows_py_split
  grows_run_key grows_os_environ grows_isfile grows_exists grows_open : core.

Lemma grows_wmi (n : nat) : grows_by P n (GetLogicalDrivesFromWMI w).
Proof. unfold GetLogicalDrivesFromWMI. neutral. Qed.

Hint Resolve grows_wmi : core.

Lemma grows_find_serial (n : nat) (serial : pyval) :
  grows_by P n (FindDriveFromSerial w serial).
Proof. unfold FindDriveFromSerial. neutral. Qed.

Lemma grows_find_name (n : nat) (name : pyval) : grows_by P n (FindDriveFromName w name).
Proof. unfold FindDriveFromName. neutral. Qed.

Hint Resolve grows_find_serial grows_find_name : core.

Lemma grows_resolve (n : nat) (options : pyval) :
  grows_by P n (ResolveDriveLetter w options).
Proof. unfold ResolveDriveLetter. neutral. Qed.

Lemma grows_validate (n : nat) (job : pyval) : grows_by P n (ValidateJob job).
Proof. unfold ValidateJob. neutral. Qed.

Lemma grows_expand_var (n : nat) (path var : string) :
  grows_by P n (expand_var w path var).
Proof. unfold expand_var. neutral. Qed.

Hint Resolve grows_resolve grows_validate grows_expand_var : core.

Lemma grows_expand_loop (n : nat) (vars : list string) (path : string) :
  grows_by P n (expand_loop w vars path).
Proof. revert path. induction vars as [|var vars IH]; intros path; cbn [expand_loop]; neutral. Qed.

Hint Resolve grows_expand_loop : core.

Lemma grows_expand (n : nat) (path : pyval) : grows_by P n (ExpandEnvironmentVars w path).
Proof. unfold ExpandEnvironmentVars. neutral. Qed.

Hint Resolve grows_expand : core.

Lemma grows_substitute (n : nat) (path : pyval) (run : RunSettings) :
  grows_by P n (SubstitutePath w path run).
Proof. unfold SubstitutePath. neutral. Qed.

Lemma grows_check_flag (n : nat) (options : pyval) (path : string) :
  grows_by P n (CheckFlag w options path).
Proof. unfold CheckFlag. neutral. Qed.

Lemma grows_parse_settings (n : nat) (job : pyval) (run : RunSettings) :
  grows_by P n (ParseSettings job run).
Proof. unfold ParseSettings. neutral. Qed.

Hint Resolve grows_substitute grows_check_flag grows_parse_settings : core.

Lemma grows_parse_locations (n : nat) (job : pyval) (run : RunSettings) :
  grows_by P n (ParseLocations w job run).
Proof. unfold ParseLocations. neutral. Qed.

Lemma grows_parse_robocopy (n : nat) (job : pyval) (run : RunSettings) :
  grows_by P n (ParseRobocopyOptions w job run).
Proof. unfold ParseRobocopyOptions. neutral. Qed.

Lemma grows_load (n : nat) (job_file : string) (content : yaml_result) :
  grows_by P n (LoadJob job_file content).
Proof. unfold LoadJob. neutral. Qed.

Hint Resolve grows_parse_locations grows_parse_robocopy grows_load : core.

(** The clock adds at most [a] such events, a launch at most [b]. *)
Variables a b : nat.
Hypothesis P_now : P EvNow = false \/ 1 <= a.
Hypothesis P_spawn : (forall cmd, P (EvSpawn cmd) = false) \/ 1 <= b.

Lemma grows_now : grows_by P a (datetime_now w).
Proof.
  intros tr. cbn [datetime_now snd]. rewrite filter_app. cbn [filter].
  destruct P_now as [H|H].
  - rewrite H. exists []. split; [reflexivity | cbn; lia].
  - destruct (P EvNow).
    + exists [EvNow]. split; [reflexivity | exact H].
    + exists []. split; [reflexivity | cbn; lia].
Qed.

Lemma grows_popen (cmd : list string) : grows_by P b (Popen w cmd).
Proof.
  unfold Popen. apply grows_bind_l.
  - destruct P_spawn as [H|H]; [apply grows_emit; apply H | apply grows_emit_one; exact H].
  - intros _. neutral.
Qed.

Lemma grows_defaults : grows_by P a (DefaultJobSettings w).
Proof. unfold DefaultJobSettings. apply grows_bind_l; [apply grows_now | intros ?; neutral]. Qed.

Lemma grows_build (job : pyval) : grows_by P a (BuildJob w job).
Proof. unfold BuildJob. apply grows_bind_l; [apply grows_defaults | intros ?; neutral]. Qed.

Lemma grows_robocopy_dry (run : RunSettings) : grows_by P 0 (DoRobocopy w run true).
Proof. unfold DoRobocopy. neutral. Qed.

Lemma grows_robocopy (run : RunSettings) (dry_run : bool) :
  grows_by P b (DoRobocopy w run dry_run).
Proof.
  unfold DoRobocopy. apply grows_bind0; [auto|]. intros src.
  apply grows_bind0; [auto|]. intros dst.
  destruct (file_types run); try apply grows_raise.
  apply grows_bind0; [apply grows_log|]. intros _.
  destruct dry_run; [apply grows_ret|].
  apply grows_bind_l; [apply grows_popen | intros ?; neutral].
Qed.

(** [c] bounds what Robocopy adds: [0] in a dry run, [b] otherwise. *)
Lemma grows_checked (job : pyval) (run : RunSettings) (dry_run : bool) (c : nat) :
  grows_by P c (DoRobocopy w run dry_run) ->
  grows_by P c (RunChecked w job run dry_run).
Proof. intros Hc. unfold RunChecked. neutral. Qed.

Lemma grows_loaded (job_file : string) (job : pyval) (dry_run : bool) (c : nat) :
  (forall run, grows_by P c (DoRobocopy w run dry_run)) ->
  grows_by P (a + c) (RunLoaded w job_file job dry_run).
Proof.
  intros Hc. unfold RunLoaded. apply grows_bind0.
  - neutral.
  - intros valid. destruct (negb valid); [apply grows_ret|].
    apply grows_bind.
    + apply grows_try_RoboException.
      * apply grows_bind_l; [apply grows_build | intros ?; neutral].
      * intros msg. neutral.
    + intros [run|]; [|apply grows_ret]. apply grows_checked. apply Hc.
Qed.

Lemma grows_run_job (job_file : string) (dry_run : bool) (c : nat) :
  (forall run, grows_by P c (DoRobocopy w run dry_run)) ->
  grows_by P (a + c) (RunJob w job_file dry_run).
Proof.
  intros Hc. unfold RunJob. apply grows_bind0; [auto|]. intros is_file.
  destruct (negb is_file); [neutral|].
  apply grows_bind0.
  - apply grows_try; [neutral|].
    intros e h He. unfold except_IOError in He.
    destruct e; try discriminate.
    destruct (errno =? EACCES)%Z; [|discriminate].
    injection He as <-. neutral.
  - intros [fp|]; [|apply grows_ret].
    apply grows_bind0; [auto|]. intros job.
    destruct (is_None job); [apply grows_ret|].
    apply grows_loaded. exact Hc.
Qed.

End Growth.

Lemma grows_weaken (A : Type) (P : event -> bool) (n n' : nat) (m : M A) :
  grows_by P n m -> n <= n' -> grows_by P n' m.
Proof.
  intros H Hle tr. destruct (H tr) as (evs & He & Hl). exists evs. split; [exact He | lia].
Qed.

Lemma spawn_not_log (lvl : level) (msg : string) : is_spawn (EvLog lvl msg) = false.
Proof. reflexivity. Qed.

Lemma now_not_log (lvl : level) (msg : string) : is_now (EvLog lvl msg) = false.
Proof. reflexivity. Qed.

(** Launches of one job: none in a dry run, at most one otherwise. *)
Lemma RunJob_launches (w : World) (job_file : string) (dry_run : bool) :
  grows_by is_spawn (if dry_run then 0 else 1) (RunJob w job_file dry_run).
Proof.
  apply (grows_run_job is_spawn w spawn_not_log (fun _ => eq_refl) (fun _ => eq_refl)
           (fun _ => eq_refl) 0 1 (or_introl eq_refl) (or_intror (le_n 1))
           job_file dry_run (if dry_run then 0 else 1)).
  intros run. destruct dry_run.
  - apply (grows_robocopy_dry is_spawn w spawn_not_log).
  - apply (grows_robocopy is_spawn w spawn_not_log 1 (or_intror (le_n 1))).
Qed.

Lemma main_loop_launches (w : World) (file : string) (dry_run : bool) (jobs : list string)
  (succeeded failed : nat) :
  grows_by is_spawn (List.length jobs * (if dry_run then 0 else 1))
    (main_loop w file dry_run jobs succeeded failed).
Proof.
  revert succeeded failed.
  induction jobs as [|job rest IH]; intros succeeded failed; cbn [main_loop List.length].
  - apply grows_ret.
  - destruct (PyStr.endswith file ".yaml").
    + apply grows_bind0; [apply (grows_log is_spawn spawn_not_log)|]. intros _.
      cbn [Nat.mul]. apply grows_bind; [apply RunJob_launches|].
      intros ok. destruct ok.
      * apply grows_bind0; [apply (grows_log is_spawn spawn_not_log) | intros _; apply IH].
      * apply grows_bind0; [apply (grows_log is_spawn spawn_not_log) | intros _; apply IH].
    + apply grows_bind0; [apply (grows_log is_spawn spawn_not_log)|]. intros _.
      apply (grows_weaken _ _ _ _ _ (IH succeeded failed)). cbn [Nat.mul]. lia.
Qed.

Lemma grows_nothing (A : Type) (P : event -> bool) (m : M A) (tr : trace) :
  grows_by P 0 m -> filter P (snd (m tr)) = filter P tr.
Proof.
  intros H. destruct (H tr) as (evs & He & Hl).
  destruct evs; [|cbn in Hl; lia]. rewrite app_nil_r in He. exact He.
Qed.

(** X7.  In a dry run nothing is ever launched: not by [RunJob], whatever
    the job file holds and whatever the host answers, not even on the way to
    an exception, and so not by a whole batch. *)
Theorem dry_run_launches_nothing
  (w : World) (file : string) (jobs : list string) (job_file : string) (tr : trace) :
  launched (snd (RunJob w job_file true tr)) = launched tr /\
  launched (snd (run_jobs w file true jobs tr)) = launched tr.
Proof.
  split.
  - apply (grows_nothing _ is_spawn (RunJob w job_file true) tr).
    apply (RunJob_launches w job_file true).
  - apply (grows_nothing _ is_spawn (run_jobs w file true jobs) tr).
    unfold run_jobs. apply grows_bind0.
    + apply (grows_weaken _ _ _ _ _ (main_loop_launches w file true jobs 0 0)). lia.
    + intros tally. apply grows_bind0; [apply (grows_log is_spawn spawn_not_log)|].
      intros _. apply grows_ret.
Qed.

(** X8.  [RunJob] launches at most one process, and a batch at most one per
    job file; the launches recorded before stay as they are. *)
Theorem one_launch_per_job
  (w : World) (file : string) (dry_run : bool) (jobs : list string) (job_file : string)
  (tr : trace) :
  (exists evs,
     launched (snd (RunJob w job_file dry_run tr)) = (launched tr ++ evs)%list /\
     List.length evs <= 1)
  /\
  (exists evs,
     launched (snd (run_jobs w file dry_run jobs tr)) = (launched tr ++ evs)%list /\
     List.length evs <= List.length jobs).
Proof.
  split.
  - destruct (RunJob_launches w job_file dry_run tr) as (evs & He & Hl).
    exists evs. split; [exact He | destruct dry_run; lia].
  - assert (H : grows_by is_spawn (List.length jobs) (run_jobs w file dry_run jobs)).
    { unfold run_jobs. apply grows_bind_l.
      - apply (grows_weaken _ _ _ _ _ (main_loop_launches w file dry_run jobs 0 0)).
        destruct dry_run; lia.
      - intros tally. apply grows_bind0; [apply (grows_log is_spawn spawn_not_log)|].
        intros _. apply grows_ret. }
    destruct (H tr) as (evs & He & Hl). exists evs. split; assumption.
Qed.

(** X9.  [RunJob] reads the clock at most once, whatever the job file holds
    and however the run ends. *)
Theorem clock_is_read_at_most_once
  (w : World) (job_file : string) (dry_run : bool) (tr : trace) :
  clock_reads (snd (RunJob w job_file dry_run tr)) <= clock_reads tr + 1.
Proof.
  assert (H : grows_by is_now (1 + 0) (RunJob w job_file dry_run)).
  { apply (grows_run_job is_now w now_not_log (fun _ => eq_refl) (fun _ => eq_refl)
             (fun _ => eq_refl) 1 0 (or_intror (le_n 1)) (or_introl (fun _ => eq_refl))
             job_file dry_run 0).
    intros run.
    apply (grows_robocopy is_now w now_not_log 0 (or_introl (fun _ => eq_refl))). }
  destruct (H tr) as (evs & He & Hl). unfold clock_reads.
  rewrite He, length_app. lia.
Qed.

(** ** More on the placeholders *)

Lemma replace_dollar_free (old new s : string) :
  dollar_free old = false -> dollar_free s = true -> PyStr.replace old new s = s.
Proof.
  intros Hold Hs. apply replace_absent.
  - intros ->. discriminate.
  - apply contains_dollar; assumption.
Qed.

Lemma expanded_dollar_free (w : World) (path : string) :
  dollar_free path = true -> expanded w path = path.
Proof.
  intros H. pose proof (ExpandEnvironmentVars_eq w path []) as He.
  unfold ExpandEnvironmentVars in He.
  rewrite expand_loop_untouched in He.
  - injection He as <-. reflexivity.
  - intros var value _ _. apply contains_dollar; [apply token_dollar | exact H].
Qed.

(** X10.  A path without a dollar sign goes through both substitutions
    unchanged: [ExpandEnvironmentVars] returns it as it is whatever the
    environment holds, and so does [SubstitutePath] on a job whose locations
    are resolved and whose time format is a string. *)
Theorem path_without_dollar_is_kept
  (w : World) (path : string) (run : RunSettings) (src dst sdrive ddrive fmt : string)
  (tr : trace) :
  dollar_free path = true ->
  ExpandEnvironmentVars w (VStr path) tr = (Ret path, tr) /\
  (src_path run = Some src -> dst_path run = Some dst ->
   src_drive run = Some sdrive -> dst_drive run = Some ddrive ->
   time_format run = VStr fmt ->
   SubstitutePath w (VStr path) run tr = (Ret path, tr)).
Proof.
  intros H. split.
  - rewrite ExpandEnvironmentVars_eq, (expanded_dollar_free w path H). reflexivity.
  - intros H1 H2 H3 H4 H5.
    rewrite (SubstitutePath_eq w path run src dst sdrive ddrive fmt tr H1 H2 H3 H4 H5).
    unfold log_path_of.
    rewrite (replace_dollar_free "$src_path$" src path eq_refl H).
    rewrite (replace_dollar_free "$dst_path$" dst path eq_refl H).
    rewrite (replace_dollar_free "$src_drive$" sdrive path eq_refl H).
    rewrite (replace_dollar_free "$dst_drive$" ddrive path eq_refl H).
    rewrite (replace_dollar_free "$timestamp$" _ path eq_refl H).
    rewrite (expanded_dollar_free w path H). reflexivity.
Qed.

Lemma path_without_dollar_is_kept_witness :
  ExpandEnvironmentVars tmp_world (VStr "C:\Users\me\TMP") [] = (Ret "C:\Users\me\TMP", [])
  /\
  (src_path example_run = Some "C:\data" -> dst_path example_run = Some "F:\backup" ->
   src_drive example_run = Some "C:" -> dst_drive example_run = Some "F:" ->
   time_format example_run = VStr "%Y%m%d" ->
   SubstitutePath tmp_world (VStr "C:\Users\me\TMP") example_run [] =
   (Ret "C:\Users\me\TMP", [])).
Proof.
  exact (path_without_dollar_is_kept tmp_world "C:\Users\me\TMP" example_run
           "C:\data" "F:\backup" "C:" "F:" "%Y%m%d" [] eq_refl).
Defined.

(** [replace_from] behind a match: the rest of the match is skipped. *)
Lemma replace_from_skip (old new skipped rest : string) :
  PyStr.replace_from old new (String.length skipped) (skipped ++ rest) =
  PyStr.replace_from old new 0 rest.
Proof.
  induction skipped as [|c skipped IH]; cbn [String.length String.append].
  - reflexivity.
  - cbn [PyStr.replace_from]. exact IH.
Qed.

Lemma prefix_app (s rest : string) : prefix s (s ++ rest) = true.
Proof.
  induction s as [|c s IH]; cbn [String.append prefix].
  - destruct rest; reflexivity.
  - destruct (ascii_dec c c) as [_|Hne]; [exact IH | contradiction].
Qed.

(** One token between texts free of dollar signs is replaced in place. *)
Lemma replace_token (name new pre post : string) :
  dollar_free pre = true -> dollar_free post = true ->
  PyStr.replace ("$" ++ name ++ "$") new (pre ++ "$" ++ name ++ "$" ++ post) =
  pre ++ new ++ post.
Proof.
  intros Hpre Hpost.
  change (PyStr.replace ("$" ++ name ++ "$") new (pre ++ "$" ++ name ++ "$" ++ post))
    with (PyStr.replace_from ("$" ++ name ++ "$") new 0 (pre ++ "$" ++ name ++ "$" ++ post)).
  induction pre as [|c pre IH].
  - change ("" ++ "$" ++ name ++ "$" ++ post) with (String "$" (name ++ "$" ++ post)).
    cbn [PyStr.replace_from].
    replace (prefix ("$" ++ name ++ "$") (String "$" (name ++ "$" ++ post))) with true.
    + replace (name ++ "$" ++ post) with ((name ++ "$") ++ post).
      * replace (String.length ("$" ++ name ++ "$") - 1)
          with (String.length (name ++ "$")) by (cbn [String.append String.length]; lia).
        rewrite replace_from_skip.
        rewrite (replace_from_absent ("$" ++ name ++ "$") new post
                   (contains_dollar _ post (token_dollar name) Hpost)).
        reflexivity.
      * clear. induction name as [|c name IH]; cbn [String.append].
        -- reflexivity.
        -- rewrite IH. reflexivity.
    + symmetry.
      replace (String "$" (name ++ "$" ++ post)) with (("$" ++ name ++ "$") ++ post).
      * apply prefix_app.
      * cbn [String.append]. f_equal. clear.
        induction name as [|c name IH]; cbn [String.append].
        -- reflexivity.
        -- rewrite IH. reflexivity.
  - cbn [dollar_free] in Hpre. apply andb_true_iff in Hpre. destruct Hpre as [Hc Hpre].
    change ((String c pre) ++ "$" ++ name ++ "$" ++ post)
      with (String c (pre ++ "$" ++ name ++ "$" ++ post)).
    cbn [PyStr.replace_from].
    replace (prefix ("$" ++ name ++ "$") (String c (pre ++ "$" ++ name ++ "$" ++ post)))
      with false.
    + rewrite (IH Hpre). reflexivity.
    + cbn [String.append prefix].
      destruct (ascii_dec "$" c) as [<-|Hne]; [discriminate Hc | reflexivity].
Qed.

Lemma expand_loop_token (w : World) (vars : list string) (name value pre post : string)
  (tr : trace) :
  forallb dollar_free vars = true ->
  In name vars ->
  environ w name = Some value ->
  dollar_free name = true ->
  dollar_free pre = true -> dollar_free value = true -> dollar_free post = true ->
  expand_loop w vars (pre ++ "$" ++ name ++ "$" ++ post) tr = (Ret (pre ++ value ++ post), tr).
Proof.
  intros Hvars Hin Henv Hname Hpre Hvalue Hpost.
  induction vars as [|var vars IH]; [destruct Hin|].
  cbn [forallb] in Hvars. apply andb_true_iff in Hvars. destruct Hvars as [Hvar Hvars].
  cbn [expand_loop]. rewrite (bind_ret _ (expand_var_eq w _ var tr)).
  destruct (string_dec var name) as [->|Hne].
  - rewrite Henv, (replace_token name value pre post Hpre Hpost).
    apply expand_loop_untouched. intros var' value' _ _.
    apply contains_dollar; [apply token_dollar|].
    rewrite !dollar_free_app, Hpre, Hvalue, Hpost. reflexivity.
  - assert (Hno : PyStr.contains ("$" ++ var ++ "$") (pre ++ "$" ++ name ++ "$" ++ post)
                  = false).
    { destruct (PyStr.contains ("$" ++ var ++ "$") (pre ++ "$" ++ name ++ "$" ++ post))
        eqn:E; [|reflexivity].
      exfalso. apply Hne.
      apply (contains_token_name var pre name post Hvar Hpre Hname Hpost E). }
    destruct Hin as [Heq|Hin]; [contradiction|].
    destruct (environ w var) as [value'|].
    + rewrite (replace_absent ("$" ++ var ++ "$") value' _ ltac:(cbn; discriminate) Hno).
      apply (IH Hvars Hin).
    + apply (IH Hvars Hin).
Qed.

(** X11.  The token of an allow-listed variable that the environment
    defines is replaced by its value: between texts free of dollar signs,
    and for a value free of them, [pre$NAME$post] becomes [pre value post]. *)
Theorem defined_variable_is_expanded
  (w : World) (name value pre post : string) (tr : trace) :
  In name VALID_ENV_VARS ->
  environ w name = Some value ->
  dollar_free pre = true -> dollar_free value = true -> dollar_free post = true ->
  ExpandEnvironmentVars w (VStr (pre ++ "$" ++ name ++ "$" ++ post)) tr =
  (Ret (pre ++ value ++ post), tr).
Proof.
  intros Hin Henv Hpre Hvalue Hpost. cbn [ExpandEnvironmentVars].
  apply expand_loop_token; try assumption.
  - apply allow_list_dollar_free.
  - pose proof allow_list_dollar_free as Hall. rewrite forallb_forall in Hall.
    apply Hall. exact Hin.
Qed.

Lemma defined_variable_is_expanded_witness :
  ExpandEnvironmentVars tmp_world (VStr ("D:\cache\" ++ "$" ++ "TMP" ++ "$" ++ "\x")) [] =
  (Ret ("D:\cache\" ++ "C:\Temp" ++ "\x"), []).
Proof.
  apply (defined_variable_is_expanded tmp_world "TMP" "C:\Temp" "D:\cache\" "\x" []).
  - right. left. reflexivity.
  - reflexivity.
  - reflexivity.
  - reflexivity.
  - reflexivity.
Defined.

(** ** More on the Robocopy settings *)

Lemma split_not_empty (sep : ascii) (s : string) : PyStr.split sep s <> [].
Proof.
  destruct s as [|c s]; cbn [PyStr.split]; [discriminate|].
  destruct (Ascii.eqb c sep); [discriminate|].
  destruct (PyStr.split sep s); discriminate.
Qed.

Lemma concat_cons (sep x : string) (l : list string) :
  l <> [] -> String.concat sep (x :: l) = x ++ sep ++ String.concat sep l.
Proof. destruct l; [contradiction | reflexivity]. Qed.

(** Joining the fields of a split with the separator gives the string back. *)
Lemma join_split (sep : ascii) (s : string) :
  PyStr.join (String sep EmptyString) (PyStr.split sep s) = s.
Proof.
  unfold PyStr.join. induction s as [|c s IH]; cbn [PyStr.split].
  - reflexivity.
  - pose proof (split_not_empty sep s) as Hne.
    destruct (Ascii.eqb c sep) eqn:E.
    + apply Ascii.eqb_eq in E. subst c.
      rewrite (concat_cons _ _ _ Hne), IH. reflexivity.
    + destruct (PyStr.split sep s) as [|field fields]; [contradiction|].
      destruct fields as [|field' fields].
      * cbn [String.concat] in *. rewrite IH. reflexivity.
      * rewrite concat_cons by discriminate.
        rewrite concat_cons in IH by discriminate.
        rewrite <- IH. reflexivity.
Qed.

Lemma try_log_absent (w : World) (d robocopy : dict) (run : RunSettings) (tr : trace) :
  lookup "robocopy" d = Some (VDict robocopy) ->
  lookup "log" robocopy = None ->
  try_except
    (robocopy <- py_getitem (VDict d) "robocopy" ;;
     template <- py_getitem robocopy "log" ;;
     log_path <- SubstitutePath w template run ;;
     log DEBUG ("Log will be saved to: " ++ log_path) ;;
     ret (set_options run (options run ++ [("/LOG:" ++ log_path)%string])%list))
    (except_KeyError (ret run)) tr = (Ret run, tr).
Proof.
  intros Hr Hl. unfold try_except.
  rewrite (bind_ret _ (py_getitem_found d "robocopy" _ tr Hr)).
  rewrite (bind_raise _ (py_getitem_missing robocopy "log" tr Hl)). reflexivity.
Qed.

(** X12.  [robocopy.options] is cut at every single space and replaces the
    default options; no token is lost or altered, so joining the options of
    the resolved job with spaces gives the string of the job file back, and
    there is always at least one token (the empty one for an empty string).
    Nothing is logged. *)
Theorem options_are_split_at_spaces
  (w : World) (d robocopy : dict) (tokens : string) (run : RunSettings) (tr : trace) :
  lookup "robocopy" d = Some (VDict robocopy) ->
  lookup "options" robocopy = Some (VStr tokens) ->
  lookup "log" robocopy = None ->
  exists run',
    ParseRobocopyOptions w (VDict d) run tr = (Ret run', tr) /\
    options run' = PyStr.split " " tokens /\
    PyStr.join " " (options run') = tokens /\
    options run' <> [].
Proof.
  intros Hr Ho Hl.
  exists (files_setting robocopy (set_options run (PyStr.split " " tokens))).
  assert (Hopts : options (files_setting robocopy (set_options run (PyStr.split " " tokens)))
                  = PyStr.split " " tokens).
  { unfold files_setting. destruct (lookup "files" robocopy); reflexivity. }
  split; [|rewrite Hopts; repeat split; [apply join_split | apply split_not_empty]].
  unfold ParseRobocopyOptions.
  unfold bind at 1. rewrite (try_options_eq d robocopy run tr Hr).
  unfold options_setting. rewrite Ho.
  unfold bind at 1. rewrite (try_log_absent w d robocopy _ tr Hr Hl).
  apply (try_files_eq d robocopy _ tr Hr).
Qed.

Lemma options_are_split_at_spaces_witness :
  exists run',
    ParseRobocopyOptions example_world
      (VDict [("robocopy", VDict [("options", VStr "/MIR  /XD C:\a")])])
      (default_run 0) [] = (Ret run', []) /\
    options run' = PyStr.split " " "/MIR  /XD C:\a" /\
    PyStr.join " " (options run') = "/MIR  /XD C:\a" /\
    options run' <> [].
Proof.
  exact (options_are_split_at_spaces example_world
           [("robocopy", VDict [("options", VStr "/MIR  /XD C:\a")])]
           [("options", VStr "/MIR  /XD C:\a")] "/MIR  /XD C:\a" (default_run 0) []
           eq_refl eq_refl eq_refl).
Defined.

(** X13.  With both [robocopy.options] and [robocopy.log] given, the options
    of the resolved job are the tokens of the job file in their order
    followed by one [/LOG:] option, which comes last and carries the
    substituted log path; the log option is built from the time format the
    job had before, and one debug entry names the log. *)
Theorem log_option_comes_last
  (w : World) (d robocopy : dict) (tokens template fmt : string) (run : RunSettings)
  (src dst sdrive ddrive : string) (tr : trace) :
  src_path run = Some src -> dst_path run = Some dst ->
  src_drive run = Some sdrive -> dst_drive run = Some ddrive ->
  time_format run = VStr fmt ->
  lookup "robocopy" d = Some (VDict robocopy) ->
  lookup "options" robocopy = Some (VStr tokens) ->
  lookup "log" robocopy = Some (VStr template) ->
  exists run',
    ParseRobocopyOptions w (VDict d) run tr =
    (Ret run',
     (tr ++ [EvLog DEBUG ("Log will be saved to: "
                          ++ log_path_of w src dst sdrive ddrive
                               (strftime w (time run) fmt) template)])%list) /\
    options run' =
    (PyStr.split " " tokens
     ++ [("/LOG:" ++ log_path_of w src dst sdrive ddrive
                       (strftime w (time run) fmt) template)%string])%list.
Proof.
  intros H1 H2 H3 H4 Hf Hr Ho Hl.
  rewrite (ParseRobocopyOptions_eq w d run src dst sdrive ddrive tr H1 H2 H3 H4).
  rewrite Hr. unfold options_setting. rewrite Ho, Hl, Hf. cbv zeta.
  eexists. split; [reflexivity|].
  unfold files_setting. destruct (lookup "files" robocopy); reflexivity.
Qed.

Lemma log_option_comes_last_witness :
  exists run',
    ParseRobocopyOptions dated_world (VDict dated_job)
      {| options := []; file_types := VStr "*.*"; time_format := VStr "%Y%m%d";
         time := 0%Z; src_path := Some "C:\data"; dst_path := Some "F:\backup";
         src_drive := Some "C:"; dst_drive := Some "F:" |} [] =
    (Ret run',
     ([] ++ [EvLog DEBUG ("Log will be saved to: "
                          ++ log_path_of dated_world "C:\data" "F:\backup" "C:" "F:"
                               (strftime dated_world 0 "%Y%m%d")
                               "$dst_drive$\logs\$timestamp$.log")])%list) /\
    options run' =
    (PyStr.split " " "/MIR /R:1"
     ++ [("/LOG:" ++ log_path_of dated_world "C:\data" "F:\backup" "C:" "F:"
                       (strftime dated_world 0 "%Y%m%d")
                       "$dst_drive$\logs\$timestamp$.log")%string])%list.
Proof.
  exact (log_option_comes_last dated_world dated_job
           [("options", VStr "/MIR /R:1"); ("log", VStr "$dst_drive$\logs\$timestamp$.log")]
           "/MIR /R:1" "$dst_drive$\logs\$timestamp$.log" "%Y%m%d"
           {| options := []; file_types := VStr "*.*"; time_format := VStr "%Y%m%d";
              time := 0%Z; src_path := Some "C:\data"; dst_path := Some "F:\backup";
              src_drive := Some "C:"; dst_drive := Some "F:" |}
           "C:\data" "F:\backup" "C:" "F:" []
           eq_refl eq_refl eq_refl eq_refl eq_refl eq_refl eq_refl eq_refl).
Defined.

(** X14.  A time format that is not a string breaks exactly the jobs that
    ask for a log: with [robocopy.log] given, [ParseRobocopyOptions] raises
    [TypeError] (which [RunJob] does not catch), whether or not the template
    mentions [$timestamp$]; without a log, the format is never looked at and
    the settings are parsed. *)
Theorem time_format_matters_only_for_the_log
  (w : World) (d robocopy : dict) (run : RunSettings) (src dst sdrive ddrive : string)
  (tr : trace) :
  src_path run = Some src -> dst_path run = Some dst ->
  src_drive run = Some sdrive -> dst_drive run = Some ddrive ->
  (forall fmt, time_format run <> VStr fmt) ->
  lookup "robocopy" d = Some (VDict robocopy) ->
  optional_text (lookup "options" robocopy) = true ->
  (forall template,
     lookup "log" robocopy = Some (VStr template) ->
     ParseRobocopyOptions w (VDict d) run tr = (Raise TypeError, tr))
  /\
  (lookup "log" robocopy = None ->
   exists run', ParseRobocopyOptions w (VDict d) run tr = (Ret run', tr)).
Proof.
  intros H1 H2 H3 H4 Hf Hr Ho.
  rewrite (ParseRobocopyOptions_eq w d run src dst sdrive ddrive tr H1 H2 H3 H4).
  rewrite Hr.
  assert (Hopt : exists run1, options_setting robocopy run = Ret run1).
  { unfold options_setting. unfold optional_text in Ho.
    destruct (lookup "options" robocopy) as [[| | |tokens| |]|]; try discriminate;
      eexists; reflexivity. }
  destruct Hopt as [run1 ->]. split.
  - intros template Hl. rewrite Hl.
    destruct (time_format run) as [| | |fmt| |]; try reflexivity.
    exfalso. apply (Hf fmt). reflexivity.
  - intros Hl. rewrite Hl. eexists. reflexivity.
Qed.

Lemma time_format_matters_only_for_the_log_witness :
  ParseRobocopyOptions dated_world (VDict dated_job)
    (set_time_format example_run (VInt 20240305)) [] = (Raise TypeError, []).
Proof.
  apply (proj1 (time_format_matters_only_for_the_log dated_world dated_job
                  [("options", VStr "/MIR /R:1");
                   ("log", VStr "$dst_drive$\logs\$timestamp$.log")]
                  (set_time_format example_run (VInt 20240305))
                  "C:\data" "F:\backup" "C:" "F:" []
                  eq_refl eq_refl eq_refl eq_refl ltac:(discriminate) eq_refl eq_refl)
           "$dst_drive$\logs\$timestamp$.log").
  reflexivity.
Defined.

(** ** Validation looks at keys, not at values *)



(** ** More on batches *)

Lemma main_loop_ignores (w : World) (file : string) (dry_run : bool) (jobs : list string)
  (succeeded failed : nat) (tr : trace) :
  PyStr.endswith file ".yaml" = false ->
  main_loop w file dry_run jobs succeeded failed tr =
  (Ret (succeeded, failed),
   (tr ++ map (fun job =>
                 EvLog WARNING ("Ignoring job with incorrect extension: " ++ job)) jobs)%list).
Proof.
  intros Hfile. revert tr.
  induction jobs as [|job rest IH]; intros tr; cbn [main_loop map].
  - rewrite app_nil_r. reflexivity.
  - rewrite Hfile. cbv [bind log emit]. rewrite IH, <- app_assoc. reflexivity.
Qed.

(** X16.  The extension test of the loop in [main] looks at [file], the last
    path that a pattern matched, and not at the job in hand.  When that path
    does not end in [.yaml], every job of the batch is passed over, [.yaml]
    files included: no job file is probed or opened, the tally is the one
    the loop started with, and each job leaves one warning. *)
Theorem other_extension_skips_the_batch
  (w : World) (file : string) (dry_run : bool) (jobs : list string) (tr : trace) :
  PyStr.endswith file ".yaml" = false ->
  run_jobs w file dry_run jobs tr =
  (Ret (0, 0),
   (tr ++ map (fun job =>
                 EvLog WARNING ("Ignoring job with incorrect extension: " ++ job)) jobs
       ++ [EvLog INFO "Finished: 0 succeeded and 0 failed"])%list).
Proof.
  intros Hfile. unfold run_jobs.
  rewrite (bind_ret _ (main_loop_ignores w file dry_run jobs 0 0 tr Hfile)).
  cbv [bind log emit ret fst snd]. rewrite <- app_assoc. reflexivity.
Qed.

Lemma other_extension_skips_the_batch_witness :
  run_jobs batch_world "notes.txt" false ["first.yaml"; "notes.txt"] [] =
  (Ret (0, 0),
   ([] ++ map (fun job =>
                 EvLog WARNING ("Ignoring job with incorrect extension: " ++ job))
              ["first.yaml"; "notes.txt"]
       ++ [EvLog INFO "Finished: 0 succeeded and 0 failed"])%list).
Proof.
  exact (other_extension_skips_the_batch batch_world "notes.txt" false
           ["first.yaml"; "notes.txt"] [] eq_refl).
Defined.

(** X17.  An exception that leaves [RunJob] ends the batch where it
    happens: the jobs before it have run, the jobs after it are not
    touched, and [main] reports no tally. *)
Theorem exception_ends_the_batch
  (w : World) (file : string) (dry_run : bool) (before after : list string)
  (job : string) (e : exn) (tr : trace) :
  PyStr.endswith file ".yaml" = true ->
  (forall earlier, In earlier before ->
     forall tr0, exists ok tr', RunJob w earlier dry_run tr0 = (Ret ok, tr')) ->
  (forall tr0, exists tr', RunJob w job dry_run tr0 = (Raise e, tr')) ->
  exists tr',
    run_jobs w file dry_run (before ++ job :: after) tr = (Raise e, tr') /\
    tr' = snd (run_jobs w file dry_run (before ++ [job]) tr).
Proof.
  intros Hfile Hbefore Hjob.
  assert (Hloop : forall succeeded failed tr0,
             exists tr',
               main_loop w file dry_run (before ++ job :: after) succeeded failed tr0
               = (Raise e, tr') /\
               main_loop w file dry_run (before ++ [job]) succeeded failed tr0
               = (Raise e, tr')).
  { induction before as [|earlier before IH]; intros succeeded failed tr0.
    - destruct (Hjob (tr0 ++ [EvLog INFO ("Running job from " ++ job)])%list) as [tr' Hr].
      exists tr'. cbn [List.app]. split.
      + apply (main_loop_raise w file dry_run job after succeeded failed e tr0 tr' Hfile Hr).
      + apply (main_loop_raise w file dry_run job [] succeeded failed e tr0 tr' Hfile Hr).
    - destruct (Hbefore earlier (or_introl eq_refl)
                  (tr0 ++ [EvLog INFO ("Running job from " ++ earlier)])%list)
        as (ok & tr1 & Hr).
      cbn [List.app].
      rewrite !(main_loop_step w file dry_run earlier _ succeeded failed ok tr0 tr1
                  Hfile Hr).
      apply IH. intros j Hj. apply Hbefore. right. exact Hj. }
  destruct (Hloop 0 0 tr) as (tr' & H1 & H2).
  exists tr'. unfold run_jobs. rewrite (bind_raise _ H1), (bind_raise _ H2).
  split; reflexivity.
Qed.

Lemma exception_ends_the_batch_witness :
  exists tr',
    run_jobs exhausted_batch_world "third.yaml" false
      (["second.yaml"] ++ "first.yaml" :: ["third.yaml"]) [] = (Raise (IOError EMFILE), tr')
    /\ tr' = snd (run_jobs exhausted_batch_world "third.yaml" false
                    (["second.yaml"] ++ ["first.yaml"]) []).
Proof.
  apply (exception_ends_the_batch exhausted_batch_world "third.yaml" false
           ["second.yaml"] ["third.yaml"] "first.yaml" (IOError EMFILE) [] eq_refl).
  - intros earlier [<-|[]] tr0. eexists. eexists.
    apply (RunJob_yaml_error exhausted_batch_world "second.yaml" false tr0
             "mapping values are not allowed here" eq_refl eq_refl).
  - intros tr0. eexists.
    apply (RunJob_reraises exhausted_batch_world "first.yaml" false tr0 EMFILE
             eq_refl eq_refl).
    discriminate.
Defined.

(** ** The command line *)

Lemma main_jobs (w : World) (glob : string -> list string)
  (iterate : list string -> list string) (args : Args) (tr : trace) :
  arg_drives args = false ->
  arg_job args <> [] ->
  main w glob iterate args tr =
  (tally <- run_jobs w (last (globbed glob (arg_job args)) EmptyString) (arg_dry_run args)
              (iterate (nodup string_dec (globbed glob (arg_job args)))) ;;
   ret (Finished (fst tally) (snd tally)))
    ((tr ++ [EvLog INFO ("Found " ++ PyStr.of_Z (Z.of_nat (List.length
                            (nodup string_dec (globbed glob (arg_job args)))))
                         ++ " job(s) to run")])
        ++ (if arg_dry_run args
            then [EvLog WARNING "--dry-run option given, won't execute Robocopy"]
            else []))%list.
Proof.
  intros Hdrives Hjob. unfold main. rewrite Hdrives.
  destruct (arg_job args) as [|pattern patterns] eqn:Hargs; [contradiction|].
  cbn [List.length Nat.eqb].
  unfold bind at 1. cbn [log emit]. unfold bind at 1.
  destruct (arg_dry_run args); cbn [log emit ret]; rewrite ?app_nil_r; reflexivity.
Qed.

(** X18.  The job files are collected in a set: a file that several
    patterns match is run once.  When the last match ends in [.yaml] and
    every matched job comes back from [RunJob], [main] ends normally and the
    jobs it counts, succeeded and failed together, are the distinct files
    matched, in whatever order the set is iterated. *)
Theorem matched_twice_runs_once
  (w : World) (glob : string -> list string) (iterate : list string -> list string)
  (args : Args) (tr : trace) :
  arg_drives args = false ->
  arg_job args <> [] ->
  Permutation (iterate (nodup string_dec (globbed glob (arg_job args))))
              (nodup string_dec (globbed glob (arg_job args))) ->
  PyStr.endswith (last (globbed glob (arg_job args)) EmptyString) ".yaml" = true ->
  (forall job, In job (globbed glob (arg_job args)) ->
     forall tr0, exists ok tr', RunJob w job (arg_dry_run args) tr0 = (Ret ok, tr')) ->
  exists succeeded failed tr',
    main w glob iterate args tr = (Ret (Finished succeeded failed), tr') /\
    succeeded + failed = List.length (nodup string_dec (globbed glob (arg_job args))) /\
    succeeded + failed <= List.length (globbed glob (arg_job args)).
Proof.
  intros Hdrives Hjob Hperm Hfile Hall.
  rewrite (main_jobs w glob iterate args tr Hdrives Hjob).
  set (found := globbed glob (arg_job args)) in *.
  set (tr1 := ((tr ++ _) ++ _)%list).
  assert (Hall' : forall job, In job (iterate (nodup string_dec found)) ->
            forall tr0, exists ok tr', RunJob w job (arg_dry_run args) tr0 = (Ret ok, tr')).
  { intros job Hin. apply Hall.
    apply (nodup_In string_dec). apply (Permutation_in job Hperm Hin). }
  destruct (main_loop_counts w (last found EmptyString) (arg_dry_run args)
              (iterate (nodup string_dec found)) Hfile Hall' 0 0 tr1)
    as (s & f & tr2 & Hloop & Hsum).
  exists s, f. eexists. split; [|split].
  - unfold run_jobs. cbv [bind]. rewrite Hloop. cbn [log emit ret fst snd]. reflexivity.
  - rewrite Hsum, (Permutation_length Hperm). lia.
  - rewrite Hsum, (Permutation_length Hperm), !Nat.add_0_r.
    apply NoDup_incl_length; [apply NoDup_nodup|].
    intros x Hx. exact (proj1 (nodup_In string_dec found x) Hx).
Qed.

(** Two patterns that both match [second.yaml], which is not YAML: one
    failure, not two. *)
Lemma matched_twice_runs_once_witness :
  exists succeeded failed tr',
    main batch_world example_glob (@rev string) example_args [] =
    (Ret (Finished succeeded failed), tr') /\
    succeeded + failed =
    List.length (nodup string_dec (globbed example_glob (arg_job example_args))) /\
    succeeded + failed <= List.length (globbed example_glob (arg_job example_args)).
Proof.
  apply (matched_twice_runs_once batch_world example_glob (@rev string) example_args []
           eq_refl).
  - discriminate.
  - apply Permutation_refl.
  - reflexivity.
  - intros job [<-|[<-|[]]] tr0; eexists; eexists;
      apply (RunJob_yaml_error batch_world "second.yaml" false tr0
               "mapping values are not allowed here" eq_refl eq_refl).
Defined.

Lemma main_launches (w : World) (glob : string -> list string)
  (iterate : list string -> list string) (args : Args) :
  grows_by is_spawn
    (if arg_dry_run args || arg_drives args then 0
     else List.length (iterate (nodup string_dec (globbed glob (arg_job args)))))
    (main w glob iterate args).
Proof.
  unfold main. destruct (arg_drives args).
  - rewrite orb_true_r. apply grows_bind0; [|intros _; apply grows_ret].
    unfold ListDrives. apply grows_bind0; [|intros disks; apply grows_ret].
    unfold GetLogicalDrivesFromWMI.
    destruct (wmi_disks w); [apply grows_ret | apply grows_raise].
  - rewrite orb_false_r.
    destruct (Nat.eqb (List.length (arg_job args)) 0).
    + apply grows_bind0; [apply (grows_log is_spawn spawn_not_log)|].
      intros _. apply grows_ret.
    + apply grows_bind0; [apply (grows_log is_spawn spawn_not_log)|]. intros _.
      apply grows_bind0.
      { destruct (arg_dry_run args);
          [apply (grows_log is_spawn spawn_not_log) | apply grows_ret]. }
      intros _. apply grows_bind_l; [|intros tally; apply grows_ret].
      unfold run_jobs. apply grows_bind_l.
      * apply (grows_weaken _ _ _ _ _
                 (main_loop_launches w _ (arg_dry_run args) _ 0 0)).
        destruct (arg_dry_run args); lia.
      * intros tally. apply grows_bind0; [apply (grows_log is_spawn spawn_not_log)|].
        intros _. apply grows_ret.
Qed.

(** X19.  Whatever the job files hold and however [main] ends, it launches
    at most one process per distinct file that the patterns match, and none
    at all under [--dry-run] or [--drives]; what was launched before stays
    as it is. *)
Theorem main_launches_once_per_file
  (w : World) (glob : string -> list string) (iterate : list string -> list string)
  (args : Args) (tr : trace) :
  Permutation (iterate (nodup string_dec (globbed glob (arg_job args))))
              (nodup string_dec (globbed glob (arg_job args))) ->
  exists evs,
    launched (snd (main w glob iterate args tr)) = (launched tr ++ evs)%list /\
    List.length evs <=
    (if arg_dry_run args || arg_drives args then 0
     else List.length (nodup string_dec (globbed glob (arg_job args)))).
Proof.
  intros Hperm.
  destruct (main_launches w glob iterate args tr) as (evs & He & Hl).
  exists evs. split; [exact He|].
  rewrite (Permutation_length Hperm) in Hl. exact Hl.
Qed.

Lemma main_launches_once_per_file_witness :
  exists evs,
    launched (snd (main batch_world example_glob (@rev string)
                     {| arg_job := ["*.yaml"; "s*.yaml"]; arg_dry_run := false;
                        arg_verbosity := 1; arg_drives := false |} [])) =
    (launched [] ++ evs)%list /\
    List.length evs <= 2.
Proof.
  apply (main_launches_once_per_file batch_world example_glob (@rev string)
           {| arg_job := ["*.yaml"; "s*.yaml"]; arg_dry_run := false;
              arg_verbosity := 1; arg_drives := false |} []).
  cbn. apply perm_swap.
Defined.

(** X20.  [--drives] wins over everything else on the command line: the
    volumes are listed, one row per volume in the order of the query, and
    [main] exits with 0 (or ends with the error of the query) without
    logging anything and without touching a job file, whatever jobs were
    named. *)
Theorem drives_listing_runs_no_job
  (w : World) (glob : string -> list string) (iterate : list string -> list string)
  (args : Args) (tr : trace) :
  arg_drives args = true ->
  main w glob iterate args tr =
  (match wmi_disks w with
   | Some _ => Ret (SystemExit 0)
   | None => Raise WMIError
   end, tr)
  /\
  forall disks, wmi_disks w = Some disks ->
    exists rows,
      ListDrives w tr = (Ret rows, tr) /\
      map (fun row => fst (fst row)) rows = map Name disks /\
      map (fun row => snd (fst row)) rows = map VolumeSerialNumber disks /\
      map (fun row => snd row) rows = map VolumeName disks.
Proof.
  intros Hd. split.
  - unfold main, ListDrives, GetLogicalDrivesFromWMI. rewrite Hd.
    destruct (wmi_disks w); reflexivity.
  - intros disks Hw. eexists. split; [|split; [|split]].
    + unfold ListDrives, GetLogicalDrivesFromWMI. rewrite Hw. reflexivity.
    + rewrite map_map. reflexivity.
    + rewrite map_map. reflexivity.
    + rewrite map_map. reflexivity.
Qed.

Lemma drives_listing_runs_no_job_witness :
  main batch_world example_glob (@rev string)
    {| arg_job := ["*.yaml"]; arg_dry_run := false; arg_verbosity := 0;
       arg_drives := true |} [] =
  (match wmi_disks batch_world with
   | Some _ => Ret (SystemExit 0)
   | None => Raise WMIError
   end, []).
Proof.
  exact (proj1 (drives_listing_runs_no_job batch_world example_glob (@rev string)
                  {| arg_job := ["*.yaml"]; arg_dry_run := false; arg_verbosity := 0;
                     arg_drives := true |} [] eq_refl)).
Defined.
